(** * The BLF reader of the wiretap library (blf.c), embedded in Rocq

    The development follows wiretap/blf.c function by function.  Fixed-width
    C integers are values of [Z] with their wrap-around written out, bytes
    are [Byte.byte], the state reached through [blf_params_t *params] and
    the caller's [int *err] cell is threaded explicitly through a small
    state monad. *)

From Stdlib Require Import ZArith Bool Lia String Ascii DecimalString.
From Stdlib Require Import List.
From coqutil Require Import Byte Word.LittleEndianList.
Import ListNotations.
Local Open Scope Z_scope.

(** ** Fixed-width integers *)

Definition to_guint8 (z : Z) : Z := z mod 2 ^ 8.
Definition to_guint16 (z : Z) : Z := z mod 2 ^ 16.
Definition to_guint32 (z : Z) : Z := z mod 2 ^ 32.
Definition to_guint64 (z : Z) : Z := z mod 2 ^ 64.
Definition to_gint32 (z : Z) : Z := (z + 2 ^ 31) mod 2 ^ 32 - 2 ^ 31.
Definition to_gint64 (z : Z) : Z := (z + 2 ^ 63) mod 2 ^ 64 - 2 ^ 63.

Definition UINT_MAX : Z := 2 ^ 32 - 1.
Definition UINT16_MAX : Z := 2 ^ 16 - 1.
Definition G_MAXUINT64 : Z := 2 ^ 64 - 1.

(** [MAX(MAX(16, object_length), header_length)], computed in [guint32]. *)
Definition MAX (a b : Z) : Z := if a >? b then a else b.

(** The multi-byte fields of an unpacked struct hold the little-endian
    value of their bytes, so the [GUINTn_FROM_LE] macros are the cast to
    the field's type. *)
Definition GUINT16_FROM_LE (z : Z) : Z := to_guint16 z.
Definition GUINT32_FROM_LE (z : Z) : Z := to_guint32 z.
Definition GUINT64_FROM_LE (z : Z) : Z := to_guint64 z.

Definition bytes_of_string (s : string) : list byte := list_byte_of_string s.

(** ** Error codes stored in [*err] *)

Inductive wtap_err : Type :=
| NO_ERROR                              (* 0 *)
| WTAP_ERR_SHORT_READ
| WTAP_ERR_BAD_FILE
| WTAP_ERR_UNSUPPORTED
| WTAP_ERR_DECOMPRESS
| WTAP_ERR_INTERNAL
| WTAP_ERR_DECOMPRESSION_NOT_SUPPORTED
| ENOMEM
| EINVAL.

Definition wtap_err_eqb (a b : wtap_err) : bool :=
  match a, b with
  | NO_ERROR, NO_ERROR | WTAP_ERR_SHORT_READ, WTAP_ERR_SHORT_READ
  | WTAP_ERR_BAD_FILE, WTAP_ERR_BAD_FILE | WTAP_ERR_UNSUPPORTED, WTAP_ERR_UNSUPPORTED
  | WTAP_ERR_DECOMPRESS, WTAP_ERR_DECOMPRESS | WTAP_ERR_INTERNAL, WTAP_ERR_INTERNAL
  | WTAP_ERR_DECOMPRESSION_NOT_SUPPORTED, WTAP_ERR_DECOMPRESSION_NOT_SUPPORTED
  | ENOMEM, ENOMEM | EINVAL, EINVAL => true
  | _, _ => false
  end.

(** The error kinds of the specification (section 7). *)
Inductive error_kind : Type :=
| NotMine | BadFile | Decompress | Unsupported | OutOfMemory | Internal | ShortRead | OtherError.

Definition kind_of_err (e : wtap_err) : error_kind :=
  match e with
  | WTAP_ERR_SHORT_READ => ShortRead
  | WTAP_ERR_BAD_FILE => BadFile
  | WTAP_ERR_UNSUPPORTED => Unsupported
  | WTAP_ERR_DECOMPRESSION_NOT_SUPPORTED => Unsupported
  | WTAP_ERR_DECOMPRESS => Decompress
  | WTAP_ERR_INTERNAL => Internal
  | ENOMEM => OutOfMemory
  | NO_ERROR | EINVAL => OtherError
  end.

(** ** The host's file primitive

    Modelled from the spec: the host's file I/O is an external collaborator
    of which only [seek], [read_exact] and [tell] are named (section 6).  A
    file is its length, its bytes and the current position. *)

Record FILE_T : Type := mkFILE { f_len : Z; f_byte : Z -> byte; f_pos : Z }.

Definition file_of_list (l : list byte) : FILE_T :=
  {| f_len := Z.of_nat (length l);
     f_byte := fun i => nth (Z.to_nat i) l Byte.x00;
     f_pos := 0 |}.

Definition file_tell (fh : FILE_T) : Z := f_pos fh.

(** [file_seek(fh, offset, SEEK_SET, &err)]: [None] is the result -1, which
    a negative [gint64] offset gets (with [EINVAL] stored in [*err]). *)
Definition file_seek (fh : FILE_T) (offset : Z) : option FILE_T :=
  if offset <? 0 then None
  else Some {| f_len := f_len fh; f_byte := f_byte fh; f_pos := offset |}.

Definition file_bytes (fh : FILE_T) (pos : Z) (n : nat) : list byte :=
  map (fun i => f_byte fh (pos + Z.of_nat i)) (seq 0 n).

(** [wtap_read_bytes_or_eof(fh, buf, count, &err, &err_info)]: all of
    [count] bytes or a failure, which stores 0 in [*err] at the end of the
    file and [WTAP_ERR_SHORT_READ] when some bytes were left. *)
Definition wtap_read_bytes_or_eof (fh : FILE_T) (count : Z)
  : (wtap_err + list byte) * FILE_T :=
  let avail := Z.max 0 (f_len fh - f_pos fh) in
  if count <=? avail then
    (inr (file_bytes fh (f_pos fh) (Z.to_nat count)),
     {| f_len := f_len fh; f_byte := f_byte fh; f_pos := f_pos fh + count |})
  else
    (inl (if 0 <? avail then WTAP_ERR_SHORT_READ else NO_ERROR),
     {| f_len := f_len fh; f_byte := f_byte fh; f_pos := f_pos fh + avail |}).

(** ** The host's packet buffer

    Modelled from the spec: the buffer of the host capture library, a byte
    array with the two indices [start] and [first_free] that blf.c reads
    and writes directly. *)

Record Buffer : Type := mkBuffer { b_data : list byte; b_start : Z; b_first_free : Z }.

Definition write_at (data : list byte) (off : nat) (bs : list byte) : list byte :=
  firstn off data ++ repeat Byte.x00 (off - length data) ++ bs
    ++ skipn (off + length bs) data.

Definition ws_buffer_append (b : Buffer) (bs : list byte) : Buffer :=
  {| b_data := write_at (b_data b) (Z.to_nat (b_first_free b)) bs;
     b_start := b_start b;
     b_first_free := b_first_free b + Z.of_nat (length bs) |}.

Definition ws_buffer_length (b : Buffer) : Z := b_first_free b - b_start b.

Definition ws_buffer_contents (b : Buffer) : list byte :=
  firstn (Z.to_nat (b_first_free b - b_start b)) (skipn (Z.to_nat (b_start b)) (b_data b)).

Definition set_first_free (b : Buffer) (ff : Z) : Buffer :=
  {| b_data := b_data b; b_start := b_start b; b_first_free := ff |}.

Definition buf_wf (b : Buffer) : Prop :=
  0 <= b_start b <= b_first_free b /\ b_first_free b <= Z.of_nat (length (b_data b)).

(** ** The on-disk structs of blf.h

    A field keeps the name it has in the C struct, prefixed by the struct it
    belongs to; fields that blf.c never reads are left out. *)

Record blf_date_t : Type := mkDate {
  date_year : Z; date_month : Z; date_dayofweek : Z; date_day : Z;
  date_hour : Z; date_mins : Z; date_sec : Z; date_ms : Z }.

Record blf_fileheader_t : Type := mkFileHeader {
  fh_magic : list byte; fh_header_length : Z;
  fh_len_compressed : Z; fh_len_uncompressed : Z;
  fh_obj_count : Z; fh_obj_read : Z;
  fh_start_date : blf_date_t; fh_end_date : blf_date_t; fh_length3 : Z }.

Record blf_blockheader_t : Type := mkBlockHeader {
  magic : list byte; header_length : Z; header_type : Z;
  object_length : Z; object_type : Z }.

Record blf_logcontainerheader_t : Type := mkLogContainerHeader {
  lc_compression_method : Z; lc_res1 : Z; lc_res2 : Z;
  lc_uncompressed_size : Z; lc_res4 : Z }.

Record blf_logobjectheader_t : Type := mkLogObjectHeader {
  lo_flags : Z; lo_client_index : Z; lo_object_version : Z; lo_object_timestamp : Z }.

Record blf_logobjectheader2_t : Type := mkLogObjectHeader2 {
  lo2_flags : Z; lo2_object_version : Z; lo2_object_timestamp : Z;
  lo2_original_timestamp : Z }.

Record blf_logobjectheader3_t : Type := mkLogObjectHeader3 {
  lo3_flags : Z; lo3_static_size : Z; lo3_object_version : Z; lo3_object_timestamp : Z }.

Record blf_ethernetframeheader_t : Type := mkEthHeader {
  eth_src_addr : list byte; eth_channel : Z; eth_dst_addr : list byte;
  eth_direction : Z; eth_ethtype : Z; eth_tpid : Z; eth_tci : Z;
  eth_payloadlength : Z }.

Record blf_ethernetframeheader_ex_t : Type := mkEthExHeader {
  ethex_struct_length : Z; ethex_flags : Z; ethex_channel : Z; ethex_hw_channel : Z;
  ethex_frame_duration : Z; ethex_frame_checksum : Z; ethex_direction : Z;
  ethex_frame_length : Z; ethex_frame_handle : Z; ethex_error : Z }.

Record blf_wlanframeheader_t : Type := mkWlanHeader {
  wlan_channel : Z; wlan_flags : Z; wlan_direction : Z;
  wlan_signal_strength : Z; wlan_signal_quality : Z; wlan_frame_length : Z }.

Record blf_canmessage_t : Type := mkCanMessage {
  can_channel : Z; can_flags : Z; can_dlc : Z; can_id : Z }.

Record blf_canmessage2_trailer_t : Type := mkCan2Trailer {
  can2_frameLength_in_ns : Z; can2_reserved1 : Z; can2_reserved2 : Z }.

Record blf_canfdmessage_t : Type := mkCanFdMessage {
  canfd_channel : Z; canfd_flags : Z; canfd_dlc : Z; canfd_id : Z;
  canfd_frameLength_in_ns : Z; canfd_canfdflags : Z; canfd_validDataBytes : Z;
  canfd_reservedCanFdMessage2 : Z }.

Record blf_canfdmessage64_t : Type := mkCanFdMessage64 {
  canfd64_channel : Z; canfd64_dlc : Z; canfd64_validDataBytes : Z; canfd64_id : Z;
  canfd64_frameLength_in_ns : Z; canfd64_flags : Z; canfd64_btrCfgArb : Z;
  canfd64_btrCfgData : Z; canfd64_timeOffsetBrsNs : Z; canfd64_timeOffsetCrcDelNs : Z;
  canfd64_bitCount : Z; canfd64_dir : Z; canfd64_crc : Z }.

Record blf_canerror_t : Type := mkCanError { canerr_channel : Z; canerr_length : Z }.

Record blf_canerrorext_t : Type := mkCanErrorExt {
  canerrext_channel : Z; canerrext_length : Z; canerrext_flags : Z; canerrext_dlc : Z;
  canerrext_frameLength_in_ns : Z; canerrext_id : Z; canerrext_errorCodeExt : Z }.

Record blf_canfderror64_t : Type := mkCanFdError64 {
  canfderr_channel : Z; canfderr_dlc : Z; canfderr_flags : Z; canfderr_errorCodeExt : Z;
  canfderr_extFlags : Z; canfderr_id : Z; canfderr_frameLength_in_ns : Z;
  canfderr_btrCfgArb : Z; canfderr_btrCfgData : Z; canfderr_timeOffsetBrsNs : Z;
  canfderr_timeOffsetCrcDelNs : Z; canfderr_crc : Z; canfderr_errorPosition : Z }.

Record blf_flexraydata_t : Type := mkFlexRayData {
  frd_channel : Z; frd_mux : Z; frd_len : Z; frd_messageId : Z; frd_crc : Z;
  frd_dir : Z; frd_reservedFlexRayData2 : Z }.

Record blf_flexraymessage_t : Type := mkFlexRayMessage {
  frm_channel : Z; frm_dir : Z; frm_fpgaTick : Z; frm_fpgaTickOverflow : Z;
  frm_clientIndexFlexRayV6Message : Z; frm_clusterTime : Z; frm_frameId : Z;
  frm_headerCrc : Z; frm_frameState : Z; frm_length : Z; frm_cycle : Z;
  frm_reservedFlexRayV6Message2 : Z }.

Record blf_flexrayrcvmessage_t : Type := mkFlexRayRcvMessage {
  frr_channel : Z; frr_version : Z; frr_channelMask : Z; frr_dir : Z;
  frr_clientIndex : Z; frr_clusterNo : Z; frr_frameId : Z; frr_headerCrc1 : Z;
  frr_headerCrc2 : Z; frr_payloadLength : Z; frr_payloadLengthValid : Z; frr_cycle : Z;
  frr_tag : Z; frr_data : Z; frr_frameFlags : Z; frr_appParameter : Z }.

Record blf_linmessage_t : Type := mkLinMessage {
  lin_channel : Z; lin_id : Z; lin_dlc : Z; lin_data : list byte; lin_crc : Z; lin_dir : Z }.

Record blf_apptext_t : Type := mkAppText {
  source : Z; reservedAppText1 : Z; textLength : Z; reservedAppText2 : Z }.

Record blf_ethernet_status_t : Type := mkEthStatus {
  es_channel : Z; es_flags : Z; es_linkStatus : Z; es_ethernetPhy : Z; es_duplex : Z;
  es_mdi : Z; es_connector : Z; es_clockMode : Z; es_pairs : Z; es_hardwareChannel : Z;
  es_bitrate : Z }.

(** The two framing structs, whose layout the format description gives in
    full: [LOBJ], header_length(16), header_type(16), object_length(32),
    object_type(32); and compression_method(16), reserved1(16),
    reserved2(32), uncompressed_size(32), reserved4(32). *)

Definition sizeof_blockheader : Z := 16.
Definition sizeof_logcontainerheader : Z := 16.

Definition le_field (off len : nat) (bs : list byte) : Z :=
  le_combine (firstn len (skipn off bs)).

Definition unpack_blockheader (bs : list byte) : blf_blockheader_t :=
  {| magic := firstn 4 bs;
     header_length := le_field 4 2 bs;
     header_type := le_field 6 2 bs;
     object_length := le_field 8 4 bs;
     object_type := le_field 12 4 bs |}.

Definition unpack_logcontainerheader (bs : list byte) : blf_logcontainerheader_t :=
  {| lc_compression_method := le_field 0 2 bs;
     lc_res1 := le_field 2 2 bs;
     lc_res2 := le_field 4 4 bs;
     lc_uncompressed_size := le_field 8 4 bs;
     lc_res4 := le_field 12 4 bs |}.

Definition blf_magic : list byte := bytes_of_string "LOGG".
Definition blf_obj_magic : list byte := bytes_of_string "LOBJ".

(** [memcmp(a, b, 4)], as the truth value C gives it: non-zero when the
    four bytes differ. *)
Definition memcmp (a b : list byte) : bool :=
  negb (if list_eq_dec Byte.byte_eq_dec a b then true else false).

Definition BLF_HEADER_TYPE_DEFAULT : Z := 1.
Definition BLF_HEADER_TYPE_2 : Z := 2.
Definition BLF_HEADER_TYPE_3 : Z := 3.
Definition BLF_COMPRESSION_NONE : Z := 0.
Definition BLF_COMPRESSION_ZLIB : Z := 2.
Definition BLF_TIMESTAMP_RESOLUTION_10US : Z := 1.
Definition BLF_TIMESTAMP_RESOLUTION_1NS : Z := 2.

(** The rest of blf.h is not among the sources: the sizes of the other
    structs, the readers that copy their bytes into the fields, and the
    values of the constants are parameters of the development. *)

Class blf_h : Type := {
  sizeof_fileheader : Z;            unpack_fileheader : list byte -> blf_fileheader_t;
  sizeof_logobjectheader : Z;       unpack_logobjectheader : list byte -> blf_logobjectheader_t;
  sizeof_logobjectheader2 : Z;      unpack_logobjectheader2 : list byte -> blf_logobjectheader2_t;
  sizeof_logobjectheader3 : Z;      unpack_logobjectheader3 : list byte -> blf_logobjectheader3_t;
  sizeof_ethernetframeheader : Z;   unpack_ethernetframeheader : list byte -> blf_ethernetframeheader_t;
  sizeof_ethernetframeheader_ex : Z; unpack_ethernetframeheader_ex : list byte -> blf_ethernetframeheader_ex_t;
  sizeof_wlanframeheader : Z;       unpack_wlanframeheader : list byte -> blf_wlanframeheader_t;
  sizeof_canmessage : Z;            unpack_canmessage : list byte -> blf_canmessage_t;
  sizeof_canmessage2_trailer : Z;   unpack_canmessage2_trailer : list byte -> blf_canmessage2_trailer_t;
  sizeof_canfdmessage : Z;          unpack_canfdmessage : list byte -> blf_canfdmessage_t;
  sizeof_canfdmessage64 : Z;        unpack_canfdmessage64 : list byte -> blf_canfdmessage64_t;
  sizeof_canerror : Z;              unpack_canerror : list byte -> blf_canerror_t;
  sizeof_canerrorext : Z;           unpack_canerrorext : list byte -> blf_canerrorext_t;
  sizeof_canfderror64 : Z;          unpack_canfderror64 : list byte -> blf_canfderror64_t;
  sizeof_flexraydata : Z;           unpack_flexraydata : list byte -> blf_flexraydata_t;
  sizeof_flexraymessage : Z;        unpack_flexraymessage : list byte -> blf_flexraymessage_t;
  sizeof_flexrayrcvmessage : Z;     unpack_flexrayrcvmessage : list byte -> blf_flexrayrcvmessage_t;
  sizeof_linmessage : Z;            unpack_linmessage : list byte -> blf_linmessage_t;
  sizeof_apptext : Z;               unpack_apptext : list byte -> blf_apptext_t;
  sizeof_ethernet_status : Z;       unpack_ethernet_status : list byte -> blf_ethernet_status_t;

  BLF_OBJTYPE_LOG_CONTAINER : Z;    BLF_OBJTYPE_ETHERNET_FRAME : Z;
  BLF_OBJTYPE_ETHERNET_FRAME_EX : Z; BLF_OBJTYPE_WLAN_FRAME : Z;
  BLF_OBJTYPE_CAN_MESSAGE : Z;      BLF_OBJTYPE_CAN_ERROR : Z;
  BLF_OBJTYPE_CAN_MESSAGE2 : Z;     BLF_OBJTYPE_CAN_ERROR_EXT : Z;
  BLF_OBJTYPE_CAN_FD_MESSAGE : Z;   BLF_OBJTYPE_CAN_FD_MESSAGE_64 : Z;
  BLF_OBJTYPE_CAN_FD_ERROR_64 : Z;  BLF_OBJTYPE_FLEXRAY_DATA : Z;
  BLF_OBJTYPE_FLEXRAY_MESSAGE : Z;  BLF_OBJTYPE_FLEXRAY_RCVMESSAGE : Z;
  BLF_OBJTYPE_FLEXRAY_RCVMESSAGE_EX : Z; BLF_OBJTYPE_LIN_MESSAGE : Z;
  BLF_OBJTYPE_APP_TEXT : Z;         BLF_OBJTYPE_ETHERNET_STATUS : Z;

  BLF_DIR_RX : Z; BLF_DIR_TX : Z; BLF_DIR_TX_RQ : Z;

  BLF_CANMESSAGE_FLAG_TX : Z;       BLF_CANMESSAGE_FLAG_RTR : Z;
  BLF_CANFDMESSAGE_CANFDFLAG_EDL : Z;
  BLF_CANFDMESSAGE64_FLAG_EDL : Z;  BLF_CANFDMESSAGE64_FLAG_REMOTE_FRAME : Z;

  BLF_CANERROREXT_FLAG_CANCORE : Z;
  BLF_CANERROREXT_EXTECC_TX : Z;    BLF_CANERROREXT_EXTECC_NOT_ACK : Z;
  BLF_CANERROREXT_ECC_MEANING_BIT_ERROR : Z;  BLF_CANERROREXT_ECC_MEANING_FORM_ERROR : Z;
  BLF_CANERROREXT_ECC_MEANING_STUFF_ERROR : Z; BLF_CANERROREXT_ECC_MEANING_CRC_ERROR : Z;
  BLF_CANERROREXT_ECC_MEANING_NACK_ERROR : Z; BLF_CANERROREXT_ECC_MEANING_OVERLOAD : Z;

  BLF_FLEXRAYDATA_FRAME : Z;        BLF_FLEXRAYDATA_CHANNEL_B : Z;
  BLF_FLEXRAYMESSAGE_STATE_PPI : Z; BLF_FLEXRAYMESSAGE_STATE_SFI : Z;
  BLF_FLEXRAYMESSAGE_STATE_NFI : Z; BLF_FLEXRAYMESSAGE_STATE_STFI : Z;
  BLF_FLEXRAYRCVMSG_CHANNELMASK_A : Z;
  BLF_FLEXRAYRCVMSG_DATA_FLAG_PAYLOAD_PREAM : Z; BLF_FLEXRAYRCVMSG_DATA_FLAG_SYNC : Z;
  BLF_FLEXRAYRCVMSG_DATA_FLAG_NULL_FRAME : Z; BLF_FLEXRAYRCVMSG_DATA_FLAG_STARTUP : Z;
  BLF_DLT_FLEXRAY_PPI : Z; BLF_DLT_FLEXRAY_SFI : Z;
  BLF_DLT_FLEXRAY_NFI : Z; BLF_DLT_FLEXRAY_STFI : Z;

  BLF_APPTEXT_COMMENT : Z; BLF_APPTEXT_CHANNEL : Z; BLF_APPTEXT_METADATA : Z;
  BLF_APPTEXT_ATTACHMENT : Z; BLF_APPTEXT_TRACELINE : Z;
  BLF_APPTEXT_CONT : Z; BLF_APPTEXT_FAILED : Z;

  BLF_BUSTYPE_CAN : Z; BLF_BUSTYPE_FLEXRAY : Z; BLF_BUSTYPE_LIN : Z;
  BLF_BUSTYPE_ETHERNET : Z; BLF_BUSTYPE_WLAN : Z;

  BLF_ETH_STATUS_HARDWARECHANNEL : Z;

  (** The case labels of the [switch] on [result] in [blf_read_block] are
      pairwise distinct, as C requires of the labels of one [switch]. *)
  apptext_labels_distinct :
    NoDup [BLF_APPTEXT_FAILED; BLF_APPTEXT_COMMENT; BLF_APPTEXT_METADATA;
           BLF_APPTEXT_ATTACHMENT; BLF_APPTEXT_TRACELINE; BLF_APPTEXT_CHANNEL;
           BLF_APPTEXT_CONT]
}.

(** ** What blf.c uses of the host libraries (wiretap, wsutil, glib, zlib,
    libc)

    Constants of their headers and the functions whose code is not part of
    blf.c. *)

Inductive tsprec_t : Type := WTAP_TSPREC_UNKNOWN | WTAP_TSPREC_10_USEC | WTAP_TSPREC_NSEC.

Inductive exp_pdu_tag : Type :=
| EXP_PDU_TAG_DISSECTOR_NAME | EXP_PDU_TAG_COL_PROT_TEXT | EXP_PDU_TAG_COL_INFO_TEXT.

Record nstime_t : Type := mkNstime { secs : Z; nsecs : Z }.

Record tm : Type := mkTm {
  tm_year : Z; tm_mon : Z; tm_mday : Z; tm_hour : Z; tm_min : Z; tm_sec : Z; tm_isdst : Z }.

Class host : Type := {
  WTAP_ENCAP_NONE : Z; WTAP_ENCAP_PER_PACKET : Z;
  WTAP_ENCAP_ETHERNET : Z; WTAP_ENCAP_IEEE_802_11 : Z; WTAP_ENCAP_FLEXRAY : Z;
  WTAP_ENCAP_LIN : Z; WTAP_ENCAP_SOCKETCAN : Z; WTAP_ENCAP_WIRESHARK_UPPER_PDU : Z;
  WTAP_MAX_PACKET_SIZE_STANDARD : Z;

  CAN_RTR_FLAG : Z; CAN_ERR_FLAG : Z; CAN_ERR_DLC : Z;
  CAN_ERR_PROT : Z; CAN_ERR_ACK : Z;
  CAN_ERR_PROT_BIT : Z; CAN_ERR_PROT_FORM : Z; CAN_ERR_PROT_STUFF : Z;
  CAN_ERR_PROT_OVERLOAD : Z; CAN_ERR_PROT_UNSPEC : Z;
  CAN_ERR_PROT_LOC_CRC_SEQ : Z; CAN_ERR_PROT_LOC_ACK : Z;

  (** [#ifdef HAVE_ZLIB] *)
  HAVE_ZLIB : bool;
  (** the result of [inflateInit(&infstream)] *)
  inflateInit : list byte -> Z;
  (** [inflate(&infstream, Z_NO_FLUSH)] on the input and [avail_out]: its
      result and the bytes written to [next_out] *)
  inflate : list byte -> Z -> Z * list byte;
  (** the result of [inflateEnd(&infstream)] *)
  inflateEnd : list byte -> Z;

  mktime : tm -> Z;
  nstime_delta : nstime_t -> nstime_t -> nstime_t;

  (** the bytes [wtap_buffer_append_epdu_string(buf, tag, str)] and
      [wtap_buffer_append_epdu_end(buf)] append *)
  epdu_string : exp_pdu_tag -> string -> list byte;
  epdu_end : list byte
}.

(** zlib.h *)
Definition Z_OK : Z := 0.
Definition Z_STREAM_END : Z := 1.
Definition Z_NEED_DICT : Z := 2.
Definition Z_ERRNO : Z := -1.
Definition Z_STREAM_ERROR : Z := -2.
Definition Z_DATA_ERROR : Z := -3.
Definition Z_MEM_ERROR : Z := -4.
Definition Z_BUF_ERROR : Z := -5.
Definition Z_VERSION_ERROR : Z := -6.

(** ** The records of the host that blf.c fills in *)

Inductive rec_type_t : Type := REC_TYPE_NONE | REC_TYPE_PACKET.
Inductive presence_flag : Type := WTAP_HAS_TS | WTAP_HAS_CAP_LEN | WTAP_HAS_INTERFACE_ID.

(** Options of the packet block: [0x0002] (the EPB flags of pcapng.c) and
    [OPT_PKT_QUEUE]. *)
Inductive block_option : Type :=
| OPT_EPB_FLAGS (v : Z)
| OPT_PKT_QUEUE (v : Z).

Record wtap_rec : Type := mkRec {
  rec_type : rec_type_t;
  block : list block_option;
  presence_flags : list presence_flag;
  tsprec : tsprec_t;
  ts : nstime_t;
  rec_caplen : Z;
  rec_len : Z;
  ts_rel_cap : nstime_t;
  ts_rel_cap_valid : bool;
  pkt_encap : Z;
  interface_id : Z }.

(** An interface description block handed to [wtap_add_idb]. *)
Record if_descr : Type := mkIdb {
  idb_wtap_encap : Z;
  idb_name : string;
  idb_time_units_per_second : Z;
  idb_tsprecision : tsprec_t;
  idb_tsresol : Z;
  idb_snap_len : Z;
  idb_num_stat_entries : Z }.

Record wtap : Type := mkWtap { file_encap : Z; interface_data : list if_descr }.

(** ** The private state of blf.c *)

Record blf_log_container_t : Type := mkContainer {
  infile_start_pos : Z;        (* start position of log container in file *)
  infile_length : Z;           (* length of log container in file *)
  infile_data_start : Z;       (* start position of data in log container in file *)
  real_start_pos : Z;          (* decompressed (virtual) start position *)
  real_length : Z;             (* decompressed length *)
  real_first_object_pos : Z;
  real_leftover_bytes : Z;
  compression_method : Z;      (* 0: uncompressed, 2: zlib *)
  real_data : option (list byte)  (* cache for decompressed data, NULL = None *) }.

Record blf_channel_to_iface_entry_t : Type := mkIfaceEntry {
  ife_pkt_encap : Z; ife_channel : Z; ife_hwchannel : Z; ife_interface_id : Z }.

(** [log_containers] is the [GArray]: the empty list stands for the [NULL]
    pointer as well, since the array is created by the first append and
    never shrinks.  [channel_to_iface_ht] is [None] for [NULL]. *)
Record blf_t : Type := mkBlf {
  start_of_last_obj : Z;
  current_real_seek_pos : Z;
  start_offset_ns : Z;
  current_log_container : Z;
  log_containers : list blf_log_container_t;
  channel_to_iface_ht : option (list (Z * blf_channel_to_iface_entry_t));
  next_interface_id : Z }.

(** [blf_params_t], together with the cell [int *err] every function gets. *)
Record blf_params_t : Type := mkParams {
  wth : wtap;
  rec : wtap_rec;
  buf : Buffer;
  fh : FILE_T;
  blf_data : blf_t;
  err : wtap_err }.

Definition set_wth (w : wtap) (s : blf_params_t) : blf_params_t :=
  mkParams w (rec s) (buf s) (fh s) (blf_data s) (err s).
Definition set_rec (r : wtap_rec) (s : blf_params_t) : blf_params_t :=
  mkParams (wth s) r (buf s) (fh s) (blf_data s) (err s).
Definition set_buf (b : Buffer) (s : blf_params_t) : blf_params_t :=
  mkParams (wth s) (rec s) b (fh s) (blf_data s) (err s).
Definition set_fh (f : FILE_T) (s : blf_params_t) : blf_params_t :=
  mkParams (wth s) (rec s) (buf s) f (blf_data s) (err s).
Definition set_blf_data (d : blf_t) (s : blf_params_t) : blf_params_t :=
  mkParams (wth s) (rec s) (buf s) (fh s) d (err s).
Definition set_err (e : wtap_err) (s : blf_params_t) : blf_params_t :=
  mkParams (wth s) (rec s) (buf s) (fh s) (blf_data s) e.

Definition set_start_of_last_obj (v : Z) (d : blf_t) : blf_t :=
  mkBlf v (current_real_seek_pos d) (start_offset_ns d) (current_log_container d)
        (log_containers d) (channel_to_iface_ht d) (next_interface_id d).
Definition set_current_real_seek_pos (v : Z) (d : blf_t) : blf_t :=
  mkBlf (start_of_last_obj d) v (start_offset_ns d) (current_log_container d)
        (log_containers d) (channel_to_iface_ht d) (next_interface_id d).
Definition set_log_containers (cur : Z) (cs : list blf_log_container_t) (d : blf_t) : blf_t :=
  mkBlf (start_of_last_obj d) (current_real_seek_pos d) (start_offset_ns d) cur
        cs (channel_to_iface_ht d) (next_interface_id d).
Definition set_ifaces (ht : option (list (Z * blf_channel_to_iface_entry_t))) (next : Z)
           (d : blf_t) : blf_t :=
  mkBlf (start_of_last_obj d) (current_real_seek_pos d) (start_offset_ns d)
        (current_log_container d) (log_containers d) ht next.

(** ** The state monad of the reader *)

Definition M (A : Type) : Type := blf_params_t -> A * blf_params_t.

Definition ret {A : Type} (a : A) : M A := fun s => (a, s).
Definition bind {A B : Type} (m : M A) (k : A -> M B) : M B :=
  fun s => let (a, s1) := m s in k a s1.
Definition get : M blf_params_t := fun s => (s, s).
Definition modify (f : blf_params_t -> blf_params_t) : M unit := fun s => (tt, f s).

Declare Scope blf_scope.
Delimit Scope blf_scope with blf.
Notation "x <- m ;; k" := (bind m (fun x => k))
  (at level 100, m at next level, right associativity) : blf_scope.
Notation "m ;;; k" := (bind m (fun _ => k))
  (at level 100, right associativity) : blf_scope.
Local Open Scope blf_scope.

(** [*err = e; return FALSE;] *)
Definition fail_with {A : Type} (e : wtap_err) (a : A) : M A :=
  modify (set_err e) ;;; ret a.

Definition modify_buf (f : Buffer -> Buffer) : M unit :=
  modify (fun s => set_buf (f (buf s)) s).
Definition modify_rec (f : wtap_rec -> wtap_rec) : M unit :=
  modify (fun s => set_rec (f (rec s)) s).
Definition modify_blf (f : blf_t -> blf_t) : M unit :=
  modify (fun s => set_blf_data (f (blf_data s)) s).

Definition string_of_Z (z : Z) : string := NilZero.string_of_int (Z.to_int z).

Section Blf.
Context {blf_header : blf_h} {host_env : host}.

(** ** The interface registry *)

Definition blf_calc_key_value (pkt_encap channel hwchannel : Z) : Z :=
  to_gint64 (Z.lor (Z.lor (Z.shiftl pkt_encap 32) (Z.shiftl hwchannel 16)) channel).

Definition add_interface_name (pkt_encap channel hwchannel : Z) (name : option string)
  : string :=
  match name with
  | Some n => n
  | None =>
    if pkt_encap =? WTAP_ENCAP_ETHERNET then
      (* we use UINT16_MAX to encode no hwchannel *)
      if hwchannel =? UINT16_MAX then ("ETH-" ++ string_of_Z channel)%string
      else ("ETH-" ++ string_of_Z channel ++ "-" ++ string_of_Z hwchannel)%string
    else if pkt_encap =? WTAP_ENCAP_IEEE_802_11 then ("WLAN-" ++ string_of_Z channel)%string
    else if pkt_encap =? WTAP_ENCAP_FLEXRAY then ("FR-" ++ string_of_Z channel)%string
    else if pkt_encap =? WTAP_ENCAP_LIN then ("LIN-" ++ string_of_Z channel)%string
    else if pkt_encap =? WTAP_ENCAP_SOCKETCAN then ("CAN-" ++ string_of_Z channel)%string
    else ("ENCAP_" ++ string_of_Z pkt_encap ++ "-" ++ string_of_Z channel)%string
  end.

Definition g_hash_table_lookup {V : Type} (ht : list (Z * V)) (key : Z) : option V :=
  match find (fun kv => fst kv =? key) ht with
  | Some kv => Some (snd kv)
  | None => None
  end.

Definition g_hash_table_insert {V : Type} (ht : list (Z * V)) (key : Z) (v : V)
  : list (Z * V) :=
  (key, v) :: filter (fun kv => negb (fst kv =? key)) ht.

Definition blf_add_interface (pkt_encap channel hwchannel : Z) (name : option string)
  : M Z := fun s =>
  let int_data :=
    {| idb_wtap_encap := pkt_encap;
       idb_name := add_interface_name pkt_encap (to_guint16 channel) hwchannel name;
       idb_time_units_per_second := 1000 * 1000 * 1000;
       idb_tsprecision := WTAP_TSPREC_NSEC;
       idb_tsresol := 9;
       idb_snap_len := WTAP_MAX_PACKET_SIZE_STANDARD;
       idb_num_stat_entries := 0 |} in
  let w := wth s in
  let encap :=
    if file_encap w =? WTAP_ENCAP_NONE then pkt_encap
    else if negb (file_encap w =? pkt_encap) then WTAP_ENCAP_PER_PACKET
    else file_encap w in
  let w' := {| file_encap := encap; interface_data := interface_data w ++ [int_data] |} in
  let d := blf_data s in
  let key := blf_calc_key_value pkt_encap (to_guint16 channel) hwchannel in
  let item :=
    {| ife_pkt_encap := pkt_encap; ife_channel := to_guint16 channel;
       ife_hwchannel := hwchannel; ife_interface_id := next_interface_id d |} in
  let ht' :=
    match channel_to_iface_ht d with
    | Some ht => Some (g_hash_table_insert ht key item)
    | None => None
    end in
  (ife_interface_id item,
   set_blf_data (set_ifaces ht' (to_guint32 (next_interface_id d + 1)) d) (set_wth w' s)).

Definition blf_lookup_interface (pkt_encap channel hwchannel : Z) (name : option string)
  : M Z := fun s =>
  let key := blf_calc_key_value pkt_encap channel hwchannel in
  match channel_to_iface_ht (blf_data s) with
  | None => (0, s)
  | Some ht =>
    match g_hash_table_lookup ht key with
    | Some item => (ife_interface_id item, s)
    | None => blf_add_interface pkt_encap channel hwchannel name s
    end
  end.

(** ** fix_endianness_* *)

Definition fix_endianness_blf_date (date : blf_date_t) : blf_date_t :=
  {| date_year := GUINT16_FROM_LE (date_year date);
     date_month := GUINT16_FROM_LE (date_month date);
     date_dayofweek := GUINT16_FROM_LE (date_dayofweek date);
     date_day := GUINT16_FROM_LE (date_day date);
     date_hour := GUINT16_FROM_LE (date_hour date);
     date_mins := GUINT16_FROM_LE (date_mins date);
     date_sec := GUINT16_FROM_LE (date_sec date);
     date_ms := GUINT16_FROM_LE (date_ms date) |}.

Definition fix_endianness_blf_fileheader (header : blf_fileheader_t) : blf_fileheader_t :=
  {| fh_magic := fh_magic header;
     fh_header_length := GUINT32_FROM_LE (fh_header_length header);
     fh_len_compressed := GUINT64_FROM_LE (fh_len_compressed header);
     fh_len_uncompressed := GUINT64_FROM_LE (fh_len_uncompressed header);
     fh_obj_count := GUINT32_FROM_LE (fh_obj_count header);
     fh_obj_read := GUINT32_FROM_LE (fh_obj_read header);
     fh_start_date := fix_endianness_blf_date (fh_start_date header);
     fh_end_date := fix_endianness_blf_date (fh_end_date header);
     fh_length3 := GUINT32_FROM_LE (fh_length3 header) |}.

Definition fix_endianness_blf_blockheader (header : blf_blockheader_t) : blf_blockheader_t :=
  {| magic := magic header;
     header_length := GUINT16_FROM_LE (header_length header);
     header_type := GUINT16_FROM_LE (header_type header);
     object_length := GUINT32_FROM_LE (object_length header);
     object_type := GUINT32_FROM_LE (object_type header) |}.

Definition fix_endianness_blf_logcontainerheader (header : blf_logcontainerheader_t)
  : blf_logcontainerheader_t :=
  {| lc_compression_method := GUINT16_FROM_LE (lc_compression_method header);
     lc_res1 := GUINT16_FROM_LE (lc_res1 header);
     lc_res2 := GUINT32_FROM_LE (lc_res2 header);
     lc_uncompressed_size := GUINT32_FROM_LE (lc_uncompressed_size header);
     lc_res4 := GUINT32_FROM_LE (lc_res4 header) |}.

Definition fix_endianness_blf_logobjectheader (header : blf_logobjectheader_t)
  : blf_logobjectheader_t :=
  {| lo_flags := GUINT32_FROM_LE (lo_flags header);
     lo_client_index := GUINT16_FROM_LE (lo_client_index header);
     lo_object_version := GUINT16_FROM_LE (lo_object_version header);
     lo_object_timestamp := GUINT64_FROM_LE (lo_object_timestamp header) |}.

(** [original_timestamp] is assigned from the converted [object_timestamp],
    as in the source. *)
Definition fix_endianness_blf_logobjectheader2 (header : blf_logobjectheader2_t)
  : blf_logobjectheader2_t :=
  let object_timestamp := GUINT64_FROM_LE (lo2_object_timestamp header) in
  {| lo2_flags := GUINT32_FROM_LE (lo2_flags header);
     lo2_object_version := GUINT16_FROM_LE (lo2_object_version header);
     lo2_object_timestamp := object_timestamp;
     lo2_original_timestamp := GUINT64_FROM_LE object_timestamp |}.

Definition fix_endianness_blf_logobjectheader3 (header : blf_logobjectheader3_t)
  : blf_logobjectheader3_t :=
  {| lo3_flags := GUINT32_FROM_LE (lo3_flags header);
     lo3_static_size := GUINT16_FROM_LE (lo3_static_size header);
     lo3_object_version := GUINT16_FROM_LE (lo3_object_version header);
     lo3_object_timestamp := GUINT64_FROM_LE (lo3_object_timestamp header) |}.

Definition fix_endianness_blf_ethernetframeheader (header : blf_ethernetframeheader_t)
  : blf_ethernetframeheader_t :=
  {| eth_src_addr := eth_src_addr header;
     eth_channel := GUINT16_FROM_LE (eth_channel header);
     eth_dst_addr := eth_dst_addr header;
     eth_direction := GUINT16_FROM_LE (eth_direction header);
     eth_ethtype := GUINT16_FROM_LE (eth_ethtype header);
     eth_tpid := GUINT16_FROM_LE (eth_tpid header);
     eth_tci := GUINT16_FROM_LE (eth_tci header);
     eth_payloadlength := GUINT16_FROM_LE (eth_payloadlength header) |}.

Definition fix_endianness_blf_ethernetframeheader_ex (header : blf_ethernetframeheader_ex_t)
  : blf_ethernetframeheader_ex_t :=
  {| ethex_struct_length := GUINT16_FROM_LE (ethex_struct_length header);
     ethex_flags := GUINT16_FROM_LE (ethex_flags header);
     ethex_channel := GUINT16_FROM_LE (ethex_channel header);
     ethex_hw_channel := GUINT16_FROM_LE (ethex_hw_channel header);
     ethex_frame_duration := GUINT64_FROM_LE (ethex_frame_duration header);
     ethex_frame_checksum := GUINT32_FROM_LE (ethex_frame_checksum header);
     ethex_direction := GUINT16_FROM_LE (ethex_direction header);
     ethex_frame_length := GUINT16_FROM_LE (ethex_frame_length header);
     ethex_frame_handle := GUINT32_FROM_LE (ethex_frame_handle header);
     ethex_error := GUINT32_FROM_LE (ethex_error header) |}.

Definition fix_endianness_blf_wlanframeheader (header : blf_wlanframeheader_t)
  : blf_wlanframeheader_t :=
  {| wlan_channel := GUINT16_FROM_LE (wlan_channel header);
     wlan_flags := GUINT16_FROM_LE (wlan_flags header);
     wlan_direction := wlan_direction header;
     wlan_signal_strength := GUINT16_FROM_LE (wlan_signal_strength header);
     wlan_signal_quality := GUINT16_FROM_LE (wlan_signal_quality header);
     wlan_frame_length := GUINT16_FROM_LE (wlan_frame_length header) |}.

Definition fix_endianness_blf_canmessage (header : blf_canmessage_t) : blf_canmessage_t :=
  {| can_channel := GUINT16_FROM_LE (can_channel header);
     can_flags := can_flags header;
     can_dlc := can_dlc header;
     can_id := GUINT32_FROM_LE (can_id header) |}.

Definition fix_endianness_blf_canmessage2_trailer (header : blf_canmessage2_trailer_t)
  : blf_canmessage2_trailer_t :=
  {| can2_frameLength_in_ns := GUINT32_FROM_LE (can2_frameLength_in_ns header);
     can2_reserved1 := can2_reserved1 header;
     can2_reserved2 := GUINT16_FROM_LE (can2_reserved1 header) |}.

Definition fix_endianness_blf_canfdmessage (header : blf_canfdmessage_t) : blf_canfdmessage_t :=
  {| canfd_channel := GUINT16_FROM_LE (canfd_channel header);
     canfd_flags := canfd_flags header;
     canfd_dlc := canfd_dlc header;
     canfd_id := GUINT32_FROM_LE (canfd_id header);
     canfd_frameLength_in_ns := GUINT32_FROM_LE (canfd_frameLength_in_ns header);
     canfd_canfdflags := canfd_canfdflags header;
     canfd_validDataBytes := canfd_validDataBytes header;
     canfd_reservedCanFdMessage2 := GUINT32_FROM_LE (canfd_reservedCanFdMessage2 header) |}.

Definition fix_endianness_blf_canfdmessage64 (header : blf_canfdmessage64_t)
  : blf_canfdmessage64_t :=
  {| canfd64_channel := canfd64_channel header;
     canfd64_dlc := canfd64_dlc header;
     canfd64_validDataBytes := canfd64_validDataBytes header;
     canfd64_id := GUINT32_FROM_LE (canfd64_id header);
     canfd64_frameLength_in_ns := GUINT32_FROM_LE (canfd64_frameLength_in_ns header);
     canfd64_flags := GUINT32_FROM_LE (canfd64_flags header);
     canfd64_btrCfgArb := GUINT32_FROM_LE (canfd64_btrCfgArb header);
     canfd64_btrCfgData := GUINT32_FROM_LE (canfd64_btrCfgData header);
     canfd64_timeOffsetBrsNs := GUINT32_FROM_LE (canfd64_timeOffsetBrsNs header);
     canfd64_timeOffsetCrcDelNs := GUINT32_FROM_LE (canfd64_timeOffsetCrcDelNs header);
     canfd64_bitCount := GUINT16_FROM_LE (canfd64_bitCount header);
     canfd64_dir := canfd64_dir header;
     canfd64_crc := GUINT32_FROM_LE (canfd64_crc header) |}.

Definition fix_endianness_blf_canerror (header : blf_canerror_t) : blf_canerror_t :=
  {| canerr_channel := GUINT16_FROM_LE (canerr_channel header);
     canerr_length := GUINT16_FROM_LE (canerr_length header) |}.

Definition fix_endianness_blf_canerrorext (header : blf_canerrorext_t) : blf_canerrorext_t :=
  {| canerrext_channel := GUINT16_FROM_LE (canerrext_channel header);
     canerrext_length := GUINT16_FROM_LE (canerrext_length header);
     canerrext_flags := GUINT32_FROM_LE (canerrext_flags header);
     canerrext_dlc := canerrext_dlc header;
     canerrext_frameLength_in_ns := GUINT32_FROM_LE (canerrext_frameLength_in_ns header);
     canerrext_id := GUINT32_FROM_LE (canerrext_id header);
     canerrext_errorCodeExt := GUINT16_FROM_LE (canerrext_errorCodeExt header) |}.

Definition fix_endianness_blf_canfderror64 (header : blf_canfderror64_t) : blf_canfderror64_t :=
  {| canfderr_channel := canfderr_channel header;
     canfderr_dlc := canfderr_dlc header;
     canfderr_flags := GUINT16_FROM_LE (canfderr_flags header);
     canfderr_errorCodeExt := GUINT16_FROM_LE (canfderr_errorCodeExt header);
     canfderr_extFlags := GUINT16_FROM_LE (canfderr_extFlags header);
     canfderr_id := GUINT32_FROM_LE (canfderr_id header);
     canfderr_frameLength_in_ns := GUINT32_FROM_LE (canfderr_frameLength_in_ns header);
     canfderr_btrCfgArb := GUINT32_FROM_LE (canfderr_btrCfgArb header);
     canfderr_btrCfgData := GUINT32_FROM_LE (canfderr_btrCfgData header);
     canfderr_timeOffsetBrsNs := GUINT32_FROM_LE (canfderr_timeOffsetBrsNs header);
     canfderr_timeOffsetCrcDelNs := GUINT32_FROM_LE (canfderr_timeOffsetCrcDelNs header);
     canfderr_crc := GUINT32_FROM_LE (canfderr_crc header);
     canfderr_errorPosition := GUINT16_FROM_LE (canfderr_errorPosition header) |}.

Definition fix_endianness_blf_flexraydata (header : blf_flexraydata_t) : blf_flexraydata_t :=
  {| frd_channel := GUINT16_FROM_LE (frd_channel header);
     frd_mux := frd_mux header;
     frd_len := frd_len header;
     frd_messageId := GUINT16_FROM_LE (frd_messageId header);
     frd_crc := GUINT16_FROM_LE (frd_crc header);
     frd_dir := frd_dir header;
     frd_reservedFlexRayData2 := GUINT16_FROM_LE (frd_reservedFlexRayData2 header) |}.

Definition fix_endianness_blf_flexraymessage (header : blf_flexraymessage_t)
  : blf_flexraymessage_t :=
  {| frm_channel := GUINT16_FROM_LE (frm_channel header);
     frm_dir := frm_dir header;
     frm_fpgaTick := GUINT32_FROM_LE (frm_fpgaTick header);
     frm_fpgaTickOverflow := GUINT32_FROM_LE (frm_fpgaTickOverflow header);
     frm_clientIndexFlexRayV6Message := GUINT32_FROM_LE (frm_clientIndexFlexRayV6Message header);
     frm_clusterTime := GUINT32_FROM_LE (frm_clusterTime header);
     frm_frameId := GUINT16_FROM_LE (frm_frameId header);
     frm_headerCrc := GUINT16_FROM_LE (frm_headerCrc header);
     frm_frameState := GUINT16_FROM_LE (frm_frameState header);
     frm_length := frm_length header;
     frm_cycle := frm_cycle header;
     frm_reservedFlexRayV6Message2 := GUINT16_FROM_LE (frm_reservedFlexRayV6Message2 header) |}.

Definition fix_endianness_blf_flexrayrcvmessage (header : blf_flexrayrcvmessage_t)
  : blf_flexrayrcvmessage_t :=
  {| frr_channel := GUINT16_FROM_LE (frr_channel header);
     frr_version := GUINT16_FROM_LE (frr_version header);
     frr_channelMask := GUINT16_FROM_LE (frr_channelMask header);
     frr_dir := GUINT16_FROM_LE (frr_dir header);
     frr_clientIndex := GUINT32_FROM_LE (frr_clientIndex header);
     frr_clusterNo := GUINT32_FROM_LE (frr_clusterNo header);
     frr_frameId := GUINT16_FROM_LE (frr_frameId header);
     frr_headerCrc1 := GUINT16_FROM_LE (frr_headerCrc1 header);
     frr_headerCrc2 := GUINT16_FROM_LE (frr_headerCrc2 header);
     frr_payloadLength := GUINT16_FROM_LE (frr_payloadLength header);
     frr_payloadLengthValid := GUINT16_FROM_LE (frr_payloadLengthValid header);
     frr_cycle := GUINT16_FROM_LE (frr_cycle header);
     frr_tag := GUINT32_FROM_LE (frr_tag header);
     frr_data := GUINT32_FROM_LE (frr_data header);
     frr_frameFlags := GUINT32_FROM_LE (frr_frameFlags header);
     frr_appParameter := GUINT32_FROM_LE (frr_appParameter header) |}.

Definition fix_endianness_blf_linmessage (message : blf_linmessage_t) : blf_linmessage_t :=
  {| lin_channel := GUINT16_FROM_LE (lin_channel message);
     lin_id := lin_id message;
     lin_dlc := lin_dlc message;
     lin_data := lin_data message;
     lin_crc := GUINT16_FROM_LE (lin_crc message);
     lin_dir := lin_dir message |}.

Definition fix_endianness_blf_apptext_header (header : blf_apptext_t) : blf_apptext_t :=
  {| source := GUINT32_FROM_LE (source header);
     reservedAppText1 := GUINT32_FROM_LE (reservedAppText1 header);
     textLength := GUINT32_FROM_LE (textLength header);
     reservedAppText2 := GUINT32_FROM_LE (reservedAppText2 header) |}.

Definition fix_endianness_blf_ethernet_status_header (header : blf_ethernet_status_t)
  : blf_ethernet_status_t :=
  {| es_channel := GUINT16_FROM_LE (es_channel header);
     es_flags := GUINT16_FROM_LE (es_flags header);
     es_linkStatus := es_linkStatus header;
     es_ethernetPhy := es_ethernetPhy header;
     es_duplex := es_duplex header;
     es_mdi := es_mdi header;
     es_connector := es_connector header;
     es_clockMode := es_clockMode header;
     es_pairs := es_pairs header;
     es_hardwareChannel := es_hardwareChannel header;
     es_bitrate := GUINT32_FROM_LE (es_bitrate header) |}.

(** ** Log containers *)

Definition blf_init_logcontainer : blf_log_container_t :=
  {| infile_start_pos := 0; infile_length := 0; infile_data_start := 0;
     real_start_pos := 0; real_length := 0; real_first_object_pos := -1;
     real_leftover_bytes := G_MAXUINT64; compression_method := 0; real_data := None |}.

Definition blf_add_logcontainer (log_container : blf_log_container_t) (d : blf_t) : blf_t :=
  let cur :=
    match log_containers d with
    | [] => 0
    | _ :: _ => to_guint32 (current_log_container d + 1)
    end in
  set_log_containers cur (log_containers d ++ [log_container]) d.

Definition blf_get_logcontainer_by_index (d : blf_t) (container_index : Z)
  : option blf_log_container_t :=
  if (container_index <? 0) || (Z.of_nat (length (log_containers d)) <=? container_index)
  then None
  else nth_error (log_containers d) (Z.to_nat container_index).

Fixpoint find_logcontainer_from (cs : list blf_log_container_t) (i : Z) (pos : Z)
  : option (blf_log_container_t * Z) :=
  match cs with
  | [] => None
  | tmp :: rest =>
    if (real_start_pos tmp <=? pos)
       && (pos <? to_gint64 (real_start_pos tmp + to_gint64 (real_length tmp)))
    then Some (tmp, i)
    else find_logcontainer_from rest (i + 1) pos
  end.

Definition blf_find_logcontainer_for_address (d : blf_t) (pos : Z)
  : option (blf_log_container_t * Z) :=
  find_logcontainer_from (log_containers d) 0 pos.

Definition set_real_data (c : blf_log_container_t) (data : option (list byte))
  : blf_log_container_t :=
  mkContainer (infile_start_pos c) (infile_length c) (infile_data_start c)
              (real_start_pos c) (real_length c) (real_first_object_pos c)
              (real_leftover_bytes c) (compression_method c) data.

Fixpoint replace_nth {A : Type} (n : nat) (l : list A) (a : A) : list A :=
  match l, n with
  | [], _ => []
  | _ :: t, O => a :: t
  | h :: t, S n' => h :: replace_nth n' t a
  end.

(** The [*err] that a result of [inflate] other than [Z_STREAM_END] gets. *)
Definition inflate_error (ret : Z) : wtap_err :=
  if ret =? Z_NEED_DICT then WTAP_ERR_DECOMPRESS
  else if ret =? Z_STREAM_ERROR then WTAP_ERR_DECOMPRESS
  else if ret =? Z_MEM_ERROR then ENOMEM   (* This means "not enough memory". *)
  else if ret =? Z_DATA_ERROR then WTAP_ERR_DECOMPRESS
  else if ret =? Z_BUF_ERROR then WTAP_ERR_INTERNAL
  else if ret =? Z_VERSION_ERROR then WTAP_ERR_INTERNAL
  else WTAP_ERR_INTERNAL.

(** The buffer of [real_length] zero bytes that [inflate] has written its
    output to. *)
Definition inflated_buffer (real_length : Z) (out : list byte) : list byte :=
  firstn (Z.to_nat real_length) (out ++ repeat Byte.x00 (Z.to_nat real_length - length out)).

Definition blf_pull_logcontainer_into_memory (index_log_container : Z) : M bool := fun s =>
  let d := blf_data s in
  if Z.of_nat (length (log_containers d)) <=? index_log_container then
    fail_with WTAP_ERR_INTERNAL false s
  else
    match nth_error (log_containers d) (Z.to_nat index_log_container) with
    | None => fail_with WTAP_ERR_INTERNAL false s
    | Some tmp =>
      match real_data tmp with
      | Some _ => (true, s)
      | None =>
        if compression_method tmp =? BLF_COMPRESSION_ZLIB then
          if HAVE_ZLIB then
            match file_seek (fh s) (to_gint64 (infile_data_start tmp)) with
            | None => fail_with EINVAL false s
            | Some fh1 =>
              let s1 := set_fh fh1 s in
              (* pull compressed data into buffer *)
              if infile_start_pos tmp <? 0 then fail_with WTAP_ERR_INTERNAL false s1
              else if infile_data_start tmp <? to_guint64 (infile_start_pos tmp) then
                fail_with WTAP_ERR_INTERNAL false s1
              else if infile_length tmp
                      <? to_guint64 (infile_data_start tmp - to_guint64 (infile_start_pos tmp))
              then fail_with WTAP_ERR_INTERNAL false s1
              else
                let data_length :=
                  to_guint64 (infile_length tmp
                    - to_guint64 (infile_data_start tmp - to_guint64 (infile_start_pos tmp))) in
                if data_length >? UINT_MAX then fail_with WTAP_ERR_INTERNAL false s1
                else
                  match wtap_read_bytes_or_eof fh1 (to_guint32 data_length) with
                  | (inl e, fh2) =>
                    let e' := if wtap_err_eqb e WTAP_ERR_SHORT_READ
                              then WTAP_ERR_INTERNAL else e in
                    fail_with e' false (set_fh fh2 s1)
                  | (inr compressed_data, fh2) =>
                    let s2 := set_fh fh2 s1 in
                    (* the actual DE-compression work. *)
                    if negb (inflateInit compressed_data =? Z_OK) then
                      fail_with WTAP_ERR_INTERNAL false s2
                    else
                      let (ret, out) := inflate compressed_data (to_guint32 (real_length tmp)) in
                      (* Z_OK should not happen here since we know how big the buffer should be *)
                      if negb (ret =? Z_STREAM_END) then
                        fail_with (inflate_error ret) false s2
                      else if negb (inflateEnd compressed_data =? Z_OK) then
                        fail_with WTAP_ERR_INTERNAL false s2
                      else
                        let tmp' := set_real_data tmp
                                      (Some (inflated_buffer (real_length tmp) out)) in
                        (true,
                         set_blf_data
                           (set_log_containers (current_log_container d)
                              (replace_nth (Z.to_nat index_log_container)
                                           (log_containers d) tmp') d) s2)
                  end
            end
          else
            fail_with WTAP_ERR_DECOMPRESSION_NOT_SUPPORTED false s
        else (false, s)
      end
    end.

(** ** The virtual reader *)

(** The loop of the [BLF_COMPRESSION_NONE] case; [n] counts the iterations
    [current_container_index <= end_container_index] still allows, and the
    bytes copied so far are [acc], [copied] of them. *)
Fixpoint read_bytes_none (n : nat) (current_container_index start_in_buf count copied : Z)
         (acc : list byte) : M (option (list byte)) := fun s =>
  match n with
  | O => (None, s)
  | S n' =>
    match blf_get_logcontainer_by_index (blf_data s) current_container_index with
    | None => fail_with WTAP_ERR_INTERNAL None s
    | Some current_container =>
      let data_left :=
        to_guint32 (to_guint64 (real_length current_container - start_in_buf)) in
      match file_seek (fh s)
              (to_gint64 (to_guint64 (infile_data_start current_container + start_in_buf))) with
      | None => fail_with EINVAL None s
      | Some fh1 =>
        if data_left <? to_guint32 (count - copied) then
          match wtap_read_bytes_or_eof fh1 data_left with
          | (inl e, fh2) => fail_with e None (set_fh fh2 s)
          | (inr bs, fh2) =>
            read_bytes_none n' (current_container_index + 1) 0 count
                            (to_guint32 (copied + data_left)) (acc ++ bs) (set_fh fh2 s)
          end
        else
          match wtap_read_bytes_or_eof fh1 (to_guint32 (count - copied)) with
          | (inl e, fh2) => fail_with e None (set_fh fh2 s)
          | (inr bs, fh2) => (Some (acc ++ bs), set_fh fh2 s)
          end
      end
    end
  end.

(** [memcpy(dst, data + off, n)]: exactly [n] bytes; what lies behind the
    end of [data] reads as zero. *)
Definition memcpy_from (data : list byte) (off n : Z) : list byte :=
  firstn (Z.to_nat n) (skipn (Z.to_nat off) data ++ repeat Byte.x00 (Z.to_nat n)).

(** The loop of the [BLF_COMPRESSION_ZLIB] case; leaving the loop is the
    internal error "ran out of items in container". *)
Fixpoint read_bytes_zlib (n : nat) (current_container_index start_in_buf count copied : Z)
         (acc : list byte) : M (option (list byte)) := fun s =>
  match n with
  | O => fail_with WTAP_ERR_INTERNAL None s
  | S n' =>
    let (pulled, s1) := blf_pull_logcontainer_into_memory current_container_index s in
    if negb pulled then (None, s1)
    else
      match blf_get_logcontainer_by_index (blf_data s1) current_container_index with
      | None => fail_with WTAP_ERR_INTERNAL None s1
      | Some current_container =>
        match real_data current_container with
        | None => fail_with WTAP_ERR_INTERNAL None s1
        | Some data =>
          let data_left :=
            to_guint32 (to_guint64 (real_length current_container - start_in_buf)) in
          if data_left <? to_guint32 (count - copied) then
            read_bytes_zlib n' (current_container_index + 1) 0 count
                            (to_guint32 (copied + data_left))
                            (acc ++ memcpy_from data start_in_buf data_left) s1
          else
            (Some (acc ++ memcpy_from data start_in_buf (to_guint32 (count - copied))), s1)
        end
      end
  end.

Definition blf_read_bytes_or_eof (real_pos count : Z) : M (option (list byte)) := fun s =>
  let real_pos := to_guint64 real_pos in
  let count := to_guint32 count in
  match blf_find_logcontainer_for_address (blf_data s) (to_gint64 real_pos) with
  | None => (None, s)
  | Some (start_container, start_container_index) =>
    match blf_find_logcontainer_for_address (blf_data s)
            (to_gint64 (to_guint64 (real_pos + count - 1))) with
    | None => (None, s)
    | Some (_, end_container_index) =>
      let start_in_buf :=
        to_guint32 (to_guint32 real_pos - to_guint32 (real_start_pos start_container)) in
      let n := Z.to_nat (end_container_index - start_container_index + 1) in
      if compression_method start_container =? BLF_COMPRESSION_NONE then
        read_bytes_none n start_container_index start_in_buf count 0 [] s
      else if compression_method start_container =? BLF_COMPRESSION_ZLIB then
        read_bytes_zlib n start_container_index start_in_buf count 0 [] s
      else fail_with WTAP_ERR_UNSUPPORTED None s
    end
  end.

Definition blf_read_bytes (real_pos count : Z) : M (option (list byte)) := fun s =>
  let (r, s1) := blf_read_bytes_or_eof real_pos count s in
  match r with
  | None =>
    if wtap_err_eqb (err s1) NO_ERROR then (None, set_err WTAP_ERR_SHORT_READ s1)
    else (None, s1)
  | Some bs => (Some bs, s1)
  end.

(** ** The scan for log containers, called once on open *)

(** How the inner loop "Find Object" ends: the header cannot be read (the
    end of the file is found), the seek of the resynchronisation fails, or
    a header with the magic [LOBJ] is found at [current_start_pos]. *)
Inductive find_object_result : Type :=
| FO_eof (fh' : FILE_T)
| FO_seek_failed (fh' : FILE_T)
| FO_found (current_start_pos : Z) (header : blf_blockheader_t) (fh' : FILE_T).

Fixpoint blf_find_object (fuel : nat) (fh0 : FILE_T) (current_start_pos : Z)
  : option find_object_result :=
  match fuel with
  | O => None
  | S fuel' =>
    match wtap_read_bytes_or_eof fh0 sizeof_blockheader with
    | (inl _, fh1) => Some (FO_eof fh1)         (* we found end of file *)
    | (inr bs, fh1) =>
      let header := fix_endianness_blf_blockheader (unpack_blockheader bs) in
      if memcmp (magic header) blf_obj_magic then
        (* we are moving back and try again but 1 byte later *)
        let current_start_pos := to_guint64 (current_start_pos + 1) in
        match file_seek fh1 (to_gint64 current_start_pos) with
        | None => Some (FO_seek_failed fh1)
        | Some fh2 => blf_find_object fuel' fh2 current_start_pos
        end
      else Some (FO_found current_start_pos header fh1)
    end
  end.

(** [MAX(MAX(16, header.object_length), header.header_length)] *)
Definition object_skip (header : blf_blockheader_t) : Z :=
  MAX (MAX 16 (object_length header)) (header_length header).

(** The outer loop; [err] and [err_info] are locals of the C function, so
    the caller's [*err] is never written.  [None] is "fuel exhausted". *)
Fixpoint scan_loop (fuel : nat) (current_real_start : Z) (s : blf_params_t)
  : option (bool * blf_params_t) :=
  match fuel with
  | O => None
  | S fuel' =>
    let current_start_pos := to_guint64 (file_tell (fh s)) in
    match blf_find_object fuel (fh s) current_start_pos with
    | None => None
    | Some (FO_eof fh1) => Some (true, set_fh fh1 s)
    | Some (FO_seek_failed fh1) => Some (false, set_fh fh1 s)
    | Some (FO_found current_start_pos header fh1) =>
      if negb (header_type header =? BLF_HEADER_TYPE_DEFAULT) then
        (* unknown header type, I know only BLF_HEADER_TYPE_DEFAULT (1) *)
        Some (false, set_fh fh1 s)
      else if object_type header =? BLF_OBJTYPE_LOG_CONTAINER then
        if header_length header <? sizeof_blockheader then Some (false, set_fh fh1 s)
        else
          (* skip unknown header part if needed *)
          let skipped :=
            if to_guint64 (header_length header - sizeof_blockheader) >? 0 then
              file_seek fh1 (to_gint64 (to_guint64 (current_start_pos + header_length header)))
            else Some fh1 in
          match skipped with
          | None => Some (false, set_fh fh1 s)
          | Some fh2 =>
            match wtap_read_bytes_or_eof fh2 sizeof_logcontainerheader with
            | (inl _, fh3) => Some (false, set_fh fh3 s)
            | (inr bs, fh3) =>
              let logcontainer_header :=
                fix_endianness_blf_logcontainerheader (unpack_logcontainerheader bs) in
              let tmp :=
                {| infile_start_pos := to_gint64 current_start_pos;
                   infile_length := object_length header;
                   infile_data_start := to_guint64 (file_tell fh3);
                   real_start_pos := to_gint64 current_real_start;
                   real_length := lc_uncompressed_size logcontainer_header;
                   real_first_object_pos := real_first_object_pos blf_init_logcontainer;
                   real_leftover_bytes := real_leftover_bytes blf_init_logcontainer;
                   compression_method := lc_compression_method logcontainer_header;
                   real_data := None |} in
              (* set up next start position *)
              let current_real_start :=
                to_guint64 (current_real_start + lc_uncompressed_size logcontainer_header) in
              match file_seek fh3
                      (to_gint64 (to_guint64 (current_start_pos + object_skip header))) with
              | None => Some (false, set_fh fh3 s)
              | Some fh4 =>
                scan_loop fuel' current_real_start
                          (set_blf_data (blf_add_logcontainer tmp (blf_data s)) (set_fh fh4 s))
              end
            end
          end
      else
        (* we found a non BLF log container on top level. this is unexpected. *)
        match file_seek fh1
                (to_gint64 (to_guint64 (current_start_pos + object_skip header))) with
        | None => Some (false, set_fh fh1 s)
        | Some fh2 => scan_loop fuel' current_real_start (set_fh fh2 s)
        end
    end
  end.

(** Every turn of either loop needs sixteen more bytes of the file, so one
    unit of fuel per remaining byte, and one more, is enough. *)
Definition scan_fuel (fh0 : FILE_T) : nat := S (Z.to_nat (f_len fh0 - f_pos fh0)).

Definition blf_scan_file_for_logcontainers (s : blf_params_t) : bool * blf_params_t :=
  match scan_loop (scan_fuel (fh s)) 0 s with
  | Some r => r
  | None => (false, s)
  end.

(** ** The record of a packet *)

Definition NS_PER_S : Z := 1000 * 1000 * 1000.

Definition blf_init_rec (flags object_timestamp pkt_encap' channel hwchannel caplen len : Z)
  : M unit := fun s =>
  let start_offset := start_offset_ns (blf_data s) in
  let '(prec, object_timestamp) :=
    if flags =? BLF_TIMESTAMP_RESOLUTION_10US then
      (WTAP_TSPREC_10_USEC, to_guint64 (to_guint64 (object_timestamp * 10000) + start_offset))
    else if flags =? BLF_TIMESTAMP_RESOLUTION_1NS then
      (WTAP_TSPREC_NSEC, to_guint64 (object_timestamp + start_offset))
    else
      (* I don't understand the flags *)
      (WTAP_TSPREC_NSEC, 0) in
  let ts' := {| secs := object_timestamp / NS_PER_S; nsecs := object_timestamp mod NS_PER_S |} in
  let tmp_ts := {| secs := start_offset / NS_PER_S; nsecs := start_offset mod NS_PER_S |} in
  let r :=
    {| rec_type := REC_TYPE_PACKET;
       block := [];
       presence_flags := [WTAP_HAS_TS; WTAP_HAS_CAP_LEN; WTAP_HAS_INTERFACE_ID];
       tsprec := prec;
       ts := ts';
       rec_caplen := to_guint32 caplen;
       rec_len := to_guint32 len;
       ts_rel_cap := nstime_delta ts' tmp_ts;
       ts_rel_cap_valid := true;
       pkt_encap := pkt_encap';
       interface_id := interface_id (rec s) |} in
  let (id, s1) := blf_lookup_interface pkt_encap' (to_guint16 channel) (to_guint16 hwchannel)
                                       None (set_rec r s) in
  (tt, set_rec (mkRec (rec_type r) (block r) (presence_flags r) (tsprec r) (ts r)
                      (rec_caplen r) (rec_len r) (ts_rel_cap r) (ts_rel_cap_valid r)
                      (pkt_encap r) id) s1).

Definition wtap_block_add_uint32_option (o : block_option) : M unit :=
  modify_rec (fun r => mkRec (rec_type r) (block r ++ [o]) (presence_flags r) (tsprec r)
                             (ts r) (rec_caplen r) (rec_len r) (ts_rel_cap r)
                             (ts_rel_cap_valid r) (pkt_encap r) (interface_id r)).

Definition blf_add_direction_option (direction : Z) : M unit :=
  let tmp :=
    if direction =? BLF_DIR_RX then 1          (* inbound *)
    else if (direction =? BLF_DIR_TX) || (direction =? BLF_DIR_TX_RQ) then 2  (* outbound *)
    else 0 (* dont care *) in
  wtap_block_add_uint32_option (OPT_EPB_FLAGS tmp).

(** ** The three log object headers *)

Definition blf_read_log_object_header (header2_start data_start : Z)
  : M (option blf_logobjectheader_t) := fun s =>
  if to_gint64 (data_start - header2_start) <? sizeof_logobjectheader then
    fail_with WTAP_ERR_BAD_FILE None s
  else
    let (r, s1) := blf_read_bytes_or_eof header2_start sizeof_logobjectheader s in
    match r with
    | None => (None, s1)
    | Some bs => (Some (fix_endianness_blf_logobjectheader (unpack_logobjectheader bs)), s1)
    end.

Definition blf_read_log_object_header2 (header2_start data_start : Z)
  : M (option blf_logobjectheader2_t) := fun s =>
  if to_gint64 (data_start - header2_start) <? sizeof_logobjectheader2 then
    fail_with WTAP_ERR_BAD_FILE None s
  else
    let (r, s1) := blf_read_bytes_or_eof header2_start sizeof_logobjectheader2 s in
    match r with
    | None => (None, s1)
    | Some bs => (Some (fix_endianness_blf_logobjectheader2 (unpack_logobjectheader2 bs)), s1)
    end.

Definition blf_read_log_object_header3 (header2_start data_start : Z)
  : M (option blf_logobjectheader3_t) := fun s =>
  if to_gint64 (data_start - header2_start) <? sizeof_logobjectheader3 then
    fail_with WTAP_ERR_BAD_FILE None s
  else
    let (r, s1) := blf_read_bytes_or_eof header2_start sizeof_logobjectheader3 s in
    match r with
    | None => (None, s1)
    | Some bs => (Some (fix_endianness_blf_logobjectheader3 (unpack_logobjectheader3 bs)), s1)
    end.

(** ** The decoders of the object types *)

(** A read into [ws_buffer_end_ptr(params->buf)] followed by
    [params->buf->first_free += n]. *)
Definition buffer_fill_end (bs : list byte) (n : Z) : M unit :=
  modify_buf (fun b =>
    {| b_data := write_at (b_data b) (Z.to_nat (b_first_free b)) bs;
       b_start := b_start b;
       b_first_free := b_first_free b + n |}).

(** A read into [ws_buffer_start_ptr(params->buf)]. *)
Definition buffer_fill_start (bs : list byte) : M unit :=
  modify_buf (fun b =>
    {| b_data := write_at (b_data b) (Z.to_nat (b_start b)) bs;
       b_start := b_start b;
       b_first_free := b_first_free b |}).

Definition buffer_append (bs : list byte) : M unit :=
  modify_buf (fun b => ws_buffer_append b bs).

(** [object_length < (data_start - block_start) + (int) sizeof(header)] *)
Definition header_too_long (block_start data_start object_length size : Z) : bool :=
  object_length <? to_gint64 (to_gint64 (data_start - block_start) + size).

(** The first [n] elements of a byte array of a struct. *)
Definition array_bytes (n : nat) (a : list byte) : list byte :=
  map (fun i => nth i a Byte.x00) (seq 0 n).

(** [(x & 0xff00) >> 8] and [x & 0x00ff], stored to a [guint8]. *)
Definition hi8 (x : Z) : byte := byte.of_Z (Z.shiftr (Z.land x 0xff00) 8).
Definition lo8 (x : Z) : byte := byte.of_Z (Z.land x 0x00ff).

(** The four bytes of a [guint32], most significant first. *)
Definition be32 (x : Z) : list byte :=
  [byte.of_Z (Z.shiftr (Z.land x 0xff000000) 24);
   byte.of_Z (Z.shiftr (Z.land x 0x00ff0000) 16);
   byte.of_Z (Z.shiftr (Z.land x 0x0000ff00) 8);
   byte.of_Z (Z.land x 0x000000ff)].

Definition blf_read_ethernetframe
           (block_start data_start object_length flags object_timestamp : Z) : M bool :=
  fun s =>
  if header_too_long block_start data_start object_length sizeof_ethernetframeheader then
    fail_with WTAP_ERR_BAD_FILE false s
  else
    let (r, s1) := blf_read_bytes data_start sizeof_ethernetframeheader s in
    match r with
    | None => (false, s1)
    | Some bs =>
      let ethheader := fix_endianness_blf_ethernetframeheader (unpack_ethernetframeheader bs) in
      let addrs := array_bytes 6 (eth_dst_addr ethheader)
                   ++ array_bytes 6 (eth_src_addr ethheader) in
      let vlan := negb (eth_tpid ethheader =? 0) && negb (eth_tci ethheader =? 0) in
      let tmpbuf :=
        if vlan then
          addrs ++ [hi8 (eth_tpid ethheader); lo8 (eth_tpid ethheader);
                    hi8 (eth_tci ethheader); lo8 (eth_tci ethheader);
                    hi8 (eth_ethtype ethheader); lo8 (eth_ethtype ethheader)]
        else
          addrs ++ [hi8 (eth_ethtype ethheader); lo8 (eth_ethtype ethheader)] in
      let caplen :=
        if vlan then to_guint32 (18 + eth_payloadlength ethheader)
        else to_guint32 (14 + eth_payloadlength ethheader) in
      let len := caplen in
      let s2 := set_buf (ws_buffer_append (buf s1) tmpbuf) s1 in
      let (r2, s3) :=
        blf_read_bytes (data_start + sizeof_ethernetframeheader)
                       (eth_payloadlength ethheader) s2 in
      match r2 with
      | None => (false, s3)
      | Some payload =>
        (buffer_fill_end payload (eth_payloadlength ethheader) ;;;
         blf_init_rec flags object_timestamp WTAP_ENCAP_ETHERNET
                      (eth_channel ethheader) UINT16_MAX caplen len ;;;
         blf_add_direction_option (eth_direction ethheader) ;;;
         ret true) s3
      end
    end.

Definition blf_read_ethernetframe_ext
           (block_start data_start object_length flags object_timestamp : Z) : M bool :=
  fun s =>
  if header_too_long block_start data_start object_length sizeof_ethernetframeheader_ex then
    fail_with WTAP_ERR_BAD_FILE false s
  else
    let (r, s1) := blf_read_bytes data_start sizeof_ethernetframeheader_ex s in
    match r with
    | None => (false, s1)
    | Some bs =>
      let ethheader :=
        fix_endianness_blf_ethernetframeheader_ex (unpack_ethernetframeheader_ex bs) in
      if to_guint64 (to_gint64 (object_length - to_gint64 (data_start - block_start))
                     - sizeof_ethernetframeheader_ex)
         <? ethex_frame_length ethheader
      then fail_with WTAP_ERR_BAD_FILE false s1   (* frame too short *)
      else
        let (r2, s2) :=
          blf_read_bytes (data_start + sizeof_ethernetframeheader_ex)
                         (ethex_frame_length ethheader) s1 in
        match r2 with
        | None => (false, s2)
        | Some frame =>
          (buffer_fill_start frame ;;;
           blf_init_rec flags object_timestamp WTAP_ENCAP_ETHERNET
                        (ethex_channel ethheader) (ethex_hw_channel ethheader)
                        (ethex_frame_length ethheader) (ethex_frame_length ethheader) ;;;
           wtap_block_add_uint32_option (OPT_PKT_QUEUE (ethex_hw_channel ethheader)) ;;;
           blf_add_direction_option (ethex_direction ethheader) ;;;
           ret true) s2
        end
    end.

Definition blf_read_wlanframe
           (block_start data_start object_length flags object_timestamp : Z) : M bool :=
  fun s =>
  if header_too_long block_start data_start object_length sizeof_wlanframeheader then
    fail_with WTAP_ERR_BAD_FILE false s
  else
    let (r, s1) := blf_read_bytes data_start sizeof_wlanframeheader s in
    match r with
    | None => (false, s1)
    | Some bs =>
      let wlanheader := fix_endianness_blf_wlanframeheader (unpack_wlanframeheader bs) in
      if to_guint64 (to_gint64 (object_length - to_gint64 (data_start - block_start))
                     - sizeof_wlanframeheader)
         <? wlan_frame_length wlanheader
      then fail_with WTAP_ERR_BAD_FILE false s1   (* frame too short *)
      else
        let (r2, s2) :=
          blf_read_bytes (data_start + sizeof_wlanframeheader)
                         (wlan_frame_length wlanheader) s1 in
        match r2 with
        | None => (false, s2)
        | Some frame =>
          (buffer_fill_start frame ;;;
           blf_init_rec flags object_timestamp WTAP_ENCAP_IEEE_802_11
                        (wlan_channel wlanheader) UINT16_MAX
                        (wlan_frame_length wlanheader) (wlan_frame_length wlanheader) ;;;
           blf_add_direction_option (wlan_direction wlanheader) ;;;
           ret true) s2
        end
    end.

Definition can_dlc_to_length : list Z := [0; 1; 2; 3; 4; 5; 6; 7; 8; 8; 8; 8; 8; 8; 8; 8].
Definition canfd_dlc_to_length : list Z :=
  [0; 1; 2; 3; 4; 5; 6; 7; 8; 12; 16; 20; 24; 32; 48; 64].

Definition blf_can_fill_buf_and_rec
           (canid payload_length payload_length_valid start_position
            flags object_timestamp channel : Z) : M bool := fun s =>
  let payload_length := to_guint8 payload_length in
  let payload_length_valid := to_guint8 payload_length_valid in
  let tmpbuf :=
    be32 canid ++ [byte.of_Z payload_length; Byte.x00; Byte.x00; Byte.x00] in
  let s1 := set_buf (ws_buffer_append (buf s) tmpbuf) s in
  let caplen := 8 + payload_length_valid in
  let len := 8 + payload_length in
  let finish : M bool :=
    blf_init_rec flags object_timestamp WTAP_ENCAP_SOCKETCAN channel UINT16_MAX caplen len ;;;
    ret true in
  if payload_length_valid >? 0 then
    let (r, s2) := blf_read_bytes start_position payload_length_valid s1 in
    match r with
    | None => (false, s2)   (* copying can payload failed *)
    | Some payload => (buffer_fill_end payload payload_length_valid ;;; finish) s2
    end
  else (buffer_fill_end [] payload_length_valid ;;; finish) s1.

Definition blf_read_canmessage
           (block_start data_start object_length flags object_timestamp : Z)
           (can_message2 : bool) : M bool := fun s =>
  if header_too_long block_start data_start object_length sizeof_canmessage then
    fail_with WTAP_ERR_BAD_FILE false s
  else
    let (r, s1) := blf_read_bytes data_start sizeof_canmessage s in
    match r with
    | None => (false, s1)
    | Some bs =>
      let canheader := fix_endianness_blf_canmessage (unpack_canmessage bs) in
      let dlc := Z.land (can_dlc canheader) 0x0f in
      let payload_length := if dlc >? 8 then 8 else dlc in
      let canid := can_id canheader in
      let rtr := Z.land (can_flags canheader) BLF_CANMESSAGE_FLAG_RTR
                 =? BLF_CANMESSAGE_FLAG_RTR in
      let canid := if rtr then to_guint32 (Z.lor canid CAN_RTR_FLAG) else canid in
      let payload_length := if rtr then 0 else payload_length in
      let (ok, s2) :=
        blf_can_fill_buf_and_rec canid payload_length payload_length
                                 (data_start + sizeof_canmessage)
                                 flags object_timestamp (can_channel canheader) s1 in
      if negb ok then (false, s2)
      else
        let direction :=
          if Z.land (can_flags canheader) BLF_CANMESSAGE_FLAG_TX =? BLF_CANMESSAGE_FLAG_TX
          then BLF_DIR_TX else BLF_DIR_RX in
        (* actually, we do not really need the data, right now.... *)
        if can_message2 then
          if object_length
             <? to_gint64 (to_gint64 (data_start - block_start) + sizeof_canmessage + 8
                           + sizeof_canmessage2_trailer)
          then fail_with WTAP_ERR_BAD_FILE false s2
          else
            let (r3, s3) :=
              blf_read_bytes (data_start + sizeof_canmessage + 8)
                             sizeof_canmessage2_trailer s2 in
            match r3 with
            | None => (false, s3)
            | Some _ => (blf_add_direction_option direction ;;; ret true) s3
            end
        else (blf_add_direction_option direction ;;; ret true) s2
    end.

Definition blf_read_canfdmessage
           (block_start data_start object_length flags object_timestamp : Z) : M bool :=
  fun s =>
  if header_too_long block_start data_start object_length sizeof_canfdmessage then
    fail_with WTAP_ERR_BAD_FILE false s
  else
    let (r, s1) := blf_read_bytes data_start sizeof_canfdmessage s in
    match r with
    | None => (false, s1)
    | Some bs =>
      let canheader := fix_endianness_blf_canfdmessage (unpack_canfdmessage bs) in
      let dlc := Z.land (canfd_dlc canheader) 0x0f in
      let canfd := Z.land (canfd_canfdflags canheader) BLF_CANFDMESSAGE_CANFDFLAG_EDL
                   =? BLF_CANFDMESSAGE_CANFDFLAG_EDL in
      let payload_length :=
        if canfd then nth (Z.to_nat dlc) canfd_dlc_to_length 0
        else nth (Z.to_nat dlc) can_dlc_to_length 0 in
      let payload_length :=
        if payload_length >? canfd_validDataBytes canheader
        then to_guint8 (canfd_validDataBytes canheader) else payload_length in
      let canid := canfd_id canheader in
      let rtr := negb canfd
                 && (Z.land (canfd_flags canheader) BLF_CANMESSAGE_FLAG_RTR
                     =? BLF_CANMESSAGE_FLAG_RTR) in
      let canid := if rtr then to_guint32 (Z.lor canid CAN_RTR_FLAG) else canid in
      let payload_length := if rtr then 0 else payload_length in
      let payload_length_valid := payload_length in
      let payload_length_valid :=
        if payload_length_valid
           >? to_guint64 (to_gint64 (object_length - to_gint64 (data_start - block_start))
                          + sizeof_canfdmessage)
        then to_guint8 (to_gint64 (object_length - to_gint64 (data_start - block_start)))
        else payload_length_valid in
      let (ok, s2) :=
        blf_can_fill_buf_and_rec canid payload_length payload_length_valid
                                 (data_start + sizeof_canfdmessage)
                                 flags object_timestamp (canfd_channel canheader) s1 in
      if negb ok then (false, s2)
      else
        (blf_add_direction_option
           (if Z.land (canfd_flags canheader) BLF_CANMESSAGE_FLAG_TX =? BLF_CANMESSAGE_FLAG_TX
            then BLF_DIR_TX else BLF_DIR_RX) ;;;
         ret true) s2
    end.

Definition blf_read_canfdmessage64
           (block_start data_start object_length flags object_timestamp : Z) : M bool :=
  fun s =>
  if header_too_long block_start data_start object_length sizeof_canfdmessage64 then
    fail_with WTAP_ERR_BAD_FILE false s
  else
    let (r, s1) := blf_read_bytes data_start sizeof_canfdmessage64 s in
    match r with
    | None => (false, s1)
    | Some bs =>
      let canheader := fix_endianness_blf_canfdmessage64 (unpack_canfdmessage64 bs) in
      let dlc := Z.land (canfd64_dlc canheader) 0x0f in
      let canfd := Z.land (canfd64_flags canheader) BLF_CANFDMESSAGE64_FLAG_EDL
                   =? BLF_CANFDMESSAGE64_FLAG_EDL in
      let payload_length :=
        if canfd then nth (Z.to_nat dlc) canfd_dlc_to_length 0
        else nth (Z.to_nat dlc) can_dlc_to_length 0 in
      let payload_length :=
        if payload_length >? canfd64_validDataBytes canheader
        then to_guint8 (canfd64_validDataBytes canheader) else payload_length in
      let canid := canfd64_id canheader in
      let rtr := negb canfd
                 && (Z.land (canfd64_flags canheader) BLF_CANFDMESSAGE64_FLAG_REMOTE_FRAME
                     =? BLF_CANFDMESSAGE64_FLAG_REMOTE_FRAME) in
      let canid := if rtr then to_guint32 (Z.lor canid CAN_RTR_FLAG) else canid in
      let payload_length := if rtr then 0 else payload_length in
      let payload_length_valid := payload_length in
      let payload_length_valid :=
        if payload_length_valid
           >? to_gint64 (object_length - to_gint64 (data_start - block_start))
        then to_guint8 (to_gint64 (object_length - to_gint64 (data_start - block_start)))
        else payload_length_valid in
      let (ok, s2) :=
        blf_can_fill_buf_and_rec canid payload_length payload_length_valid
                                 (data_start + sizeof_canfdmessage64)
                                 flags object_timestamp (canfd64_channel canheader) s1 in
      if negb ok then (false, s2)
      else (blf_add_direction_option (canfd64_dir canheader) ;;; ret true) s2
    end.

Definition blf_read_canerror
           (block_start data_start object_length flags object_timestamp : Z) : M bool :=
  fun s =>
  if header_too_long block_start data_start object_length sizeof_canerror then
    fail_with WTAP_ERR_BAD_FILE false s
  else
    let (r, s1) := blf_read_bytes data_start sizeof_canerror s in
    match r with
    | None => (false, s1)
    | Some bs =>
      let canheader := fix_endianness_blf_canerror (unpack_canerror bs) in
      (* Set CAN_ERR_FLAG in unused bits of Can ID to indicate error in socketcan *)
      let canid := CAN_ERR_FLAG in
      (* Fixed packet data length for socketcan error messages *)
      let payload_length := to_guint8 CAN_ERR_DLC in
      let tmpbuf := be32 canid ++ [byte.of_Z payload_length] ++ repeat Byte.x00 11 in
      (buffer_append tmpbuf ;;;
       blf_init_rec flags object_timestamp WTAP_ENCAP_SOCKETCAN
                    (canerr_channel canheader) UINT16_MAX 16 16 ;;;
       ret true) s1
    end.

(** The part shared, line for line, by [blf_read_canerrorext] and
    [blf_read_canfderror64]: from the header's [flags] and [errorCodeExt]
    to the sixteen bytes of the error frame and the direction, if any. *)
Definition can_error_frame (hflags errorCodeExt : Z) : list byte * option Z :=
  let cancore := negb (Z.land hflags BLF_CANERROREXT_FLAG_CANCORE =? 0) in
  let ecc := Z.land (Z.shiftr errorCodeExt 6) 0x3f in
  (* Map Vector Can Core error codes to compareable socketcan errors *)
  let '(err_prot, err_ack, b10, b11) :=
    if cancore then
      let '(err_prot, err_ack, b10, b11) :=
        if ecc =? BLF_CANERROREXT_ECC_MEANING_BIT_ERROR then (true, false, CAN_ERR_PROT_BIT, 0)
        else if ecc =? BLF_CANERROREXT_ECC_MEANING_FORM_ERROR then
          (true, false, CAN_ERR_PROT_FORM, 0)
        else if ecc =? BLF_CANERROREXT_ECC_MEANING_STUFF_ERROR then
          (true, false, CAN_ERR_PROT_STUFF, 0)
        else if ecc =? BLF_CANERROREXT_ECC_MEANING_CRC_ERROR then
          (true, false, 0, CAN_ERR_PROT_LOC_CRC_SEQ)
        else if ecc =? BLF_CANERROREXT_ECC_MEANING_NACK_ERROR then
          (false, true, 0, CAN_ERR_PROT_LOC_ACK)
        else if ecc =? BLF_CANERROREXT_ECC_MEANING_OVERLOAD then
          (true, false, CAN_ERR_PROT_OVERLOAD, 0)
        else (true, false, CAN_ERR_PROT_UNSPEC, 0) in
      let err_ack :=
        err_ack || (Z.land errorCodeExt BLF_CANERROREXT_EXTECC_NOT_ACK =? 0) in
      (* Don't set protocol error on ack errors *)
      let err_prot := if err_ack then false else err_prot in
      (err_prot, err_ack, b10, b11)
    else (false, false, 0, 0) in
  (* CanID contains error class in socketcan *)
  let canid := CAN_ERR_FLAG in
  let canid := to_guint32 (Z.lor canid (if err_prot then CAN_ERR_PROT else 0)) in
  let canid := to_guint32 (Z.lor canid (if err_ack then CAN_ERR_ACK else 0)) in
  let payload_length := to_guint8 CAN_ERR_DLC in
  let tmpbuf :=
    be32 canid ++ [byte.of_Z payload_length] ++ repeat Byte.x00 5
      ++ [byte.of_Z b10; byte.of_Z b11] ++ repeat Byte.x00 4 in
  let direction :=
    if cancore then
      Some (if Z.land errorCodeExt BLF_CANERROREXT_EXTECC_TX =? BLF_CANERROREXT_EXTECC_TX
            then BLF_DIR_TX else BLF_DIR_RX)
    else None in
  (tmpbuf, direction).

Definition blf_read_canerrorext
           (block_start data_start object_length flags object_timestamp : Z) : M bool :=
  fun s =>
  if header_too_long block_start data_start object_length sizeof_canerrorext then
    fail_with WTAP_ERR_BAD_FILE false s
  else
    let (r, s1) := blf_read_bytes data_start sizeof_canerrorext s in
    match r with
    | None => (false, s1)
    | Some bs =>
      let canheader := fix_endianness_blf_canerrorext (unpack_canerrorext bs) in
      let (tmpbuf, direction) :=
        can_error_frame (canerrext_flags canheader) (canerrext_errorCodeExt canheader) in
      (buffer_append tmpbuf ;;;
       blf_init_rec flags object_timestamp WTAP_ENCAP_SOCKETCAN
                    (canerrext_channel canheader) UINT16_MAX 16 16 ;;;
       match direction with
       | Some d => blf_add_direction_option d
       | None => ret tt
       end ;;;
       ret true) s1
    end.

Definition blf_read_canfderror64
           (block_start data_start object_length flags object_timestamp : Z) : M bool :=
  fun s =>
  if header_too_long block_start data_start object_length sizeof_canfderror64 then
    fail_with WTAP_ERR_BAD_FILE false s
  else
    let (r, s1) := blf_read_bytes data_start sizeof_canfderror64 s in
    match r with
    | None => (false, s1)
    | Some bs =>
      let canheader := fix_endianness_blf_canfderror64 (unpack_canfderror64 bs) in
      let (tmpbuf, direction) :=
        can_error_frame (canfderr_flags canheader) (canfderr_errorCodeExt canheader) in
      (buffer_append tmpbuf ;;;
       blf_init_rec flags object_timestamp WTAP_ENCAP_SOCKETCAN
                    (canfderr_channel canheader) UINT16_MAX 16 16 ;;;
       match direction with
       | Some d => blf_add_direction_option d
       | None => ret tt
       end ;;;
       ret true) s1
    end.

(** The tail shared by the FlexRay decoders: the seven bytes of the
    measurement header, the payload, the record and the direction. *)
Definition flexray_emit (tmpbuf : list byte) (payload_length payload_length_valid : Z)
           (payload_start flags object_timestamp channel dir : Z) : M bool := fun s =>
  let s1 := set_buf (ws_buffer_append (buf s) tmpbuf) s in
  let caplen := 7 + payload_length_valid in
  let len := 7 + payload_length in
  let finish : M bool :=
    blf_init_rec flags object_timestamp WTAP_ENCAP_FLEXRAY channel UINT16_MAX caplen len ;;;
    blf_add_direction_option dir ;;;
    ret true in
  if payload_length_valid >? 0 then
    let (r, s2) := blf_read_bytes payload_start payload_length_valid s1 in
    match r with
    | None => (false, s2)   (* copying flexray payload failed *)
    | Some payload => (buffer_fill_end payload payload_length_valid ;;; finish) s2
    end
  else (buffer_fill_end [] payload_length_valid ;;; finish) s1.

Definition blf_read_flexraydata
           (block_start data_start object_length flags object_timestamp : Z) : M bool :=
  fun s =>
  if header_too_long block_start data_start object_length sizeof_flexraydata then
    fail_with WTAP_ERR_BAD_FILE false s
  else
    let (r, s1) := blf_read_bytes data_start sizeof_flexraydata s in
    match r with
    | None => (false, s1)
    | Some bs =>
      let frheader := fix_endianness_blf_flexraydata (unpack_flexraydata bs) in
      let payload_length := to_guint8 (frd_len frheader) in
      let payload_length_valid := payload_length in
      let left :=
        to_guint64 (to_gint64 (object_length - to_gint64 (data_start - block_start))
                    - sizeof_flexraydata) in
      let payload_length_valid :=
        if payload_length_valid >? left then to_guint8 left else payload_length_valid in
      (* Measurement Header *)
      let b0 :=
        if frd_channel frheader =? 0 then BLF_FLEXRAYDATA_FRAME
        else Z.lor BLF_FLEXRAYDATA_FRAME BLF_FLEXRAYDATA_CHANNEL_B in
      let tmpbuf :=
        [byte.of_Z b0;
         Byte.x00;                                     (* Error Flags *)
         byte.of_Z (Z.lor 0x20 (Z.shiftr (Z.land 0x0700 (frd_messageId frheader)) 8));
         byte.of_Z (Z.land 0x00ff (frd_messageId frheader));
         byte.of_Z (Z.lor (Z.land 0xfe (frd_len frheader))
                          (Z.shiftr (Z.land (frd_crc frheader) 0x0400) 10));
         byte.of_Z (Z.shiftr (Z.land 0x03fc (frd_crc frheader)) 2);
         byte.of_Z (Z.lor (Z.shiftl (Z.land 0x0003 (frd_crc frheader)) 6)
                          (Z.land 0x3f (frd_mux frheader)))] in
      flexray_emit tmpbuf payload_length payload_length_valid
                   (data_start + sizeof_flexraydata) flags object_timestamp
                   (frd_channel frheader) (frd_dir frheader) s1
    end.

Definition blf_read_flexraymessage
           (block_start data_start object_length flags object_timestamp : Z) : M bool :=
  fun s =>
  if header_too_long block_start data_start object_length sizeof_flexraymessage then
    fail_with WTAP_ERR_BAD_FILE false s
  else
    let (r, s1) := blf_read_bytes data_start sizeof_flexraymessage s in
    match r with
    | None => (false, s1)
    | Some bs =>
      let frheader := fix_endianness_blf_flexraymessage (unpack_flexraymessage bs) in
      let payload_length := to_guint8 (frm_length frheader) in
      let payload_length_valid := payload_length in
      let left :=
        to_guint64 (to_gint64 (object_length - to_gint64 (data_start - block_start))
                    - sizeof_flexraymessage) in
      let payload_length_valid :=
        if payload_length_valid >? left then to_guint8 left else payload_length_valid in
      let b0 :=
        if frm_channel frheader =? 0 then BLF_FLEXRAYDATA_FRAME
        else Z.lor BLF_FLEXRAYDATA_FRAME BLF_FLEXRAYDATA_CHANNEL_B in
      let state := frm_frameState frheader in
      let b2 := Z.shiftr (Z.land 0x0700 (frm_frameId frheader)) 8 in
      let b2 := if Z.land state BLF_FLEXRAYMESSAGE_STATE_PPI =? BLF_FLEXRAYMESSAGE_STATE_PPI
                then Z.lor b2 BLF_DLT_FLEXRAY_PPI else b2 in
      let b2 := if Z.land state BLF_FLEXRAYMESSAGE_STATE_SFI =? BLF_FLEXRAYMESSAGE_STATE_SFI
                then Z.lor b2 BLF_DLT_FLEXRAY_SFI else b2 in
      (* NFI needs to be inversed !? *)
      let b2 := if negb (Z.land state BLF_FLEXRAYMESSAGE_STATE_NFI
                         =? BLF_FLEXRAYMESSAGE_STATE_NFI)
                then Z.lor b2 BLF_DLT_FLEXRAY_NFI else b2 in
      let b2 := if Z.land state BLF_FLEXRAYMESSAGE_STATE_STFI =? BLF_FLEXRAYMESSAGE_STATE_STFI
                then Z.lor b2 BLF_DLT_FLEXRAY_STFI else b2 in
      let tmpbuf :=
        [byte.of_Z b0;
         Byte.x00;
         byte.of_Z b2;
         byte.of_Z (Z.land 0x00ff (frm_frameId frheader));
         byte.of_Z (Z.lor (Z.land 0xfe (frm_length frheader))
                          (Z.shiftr (Z.land (frm_headerCrc frheader) 0x0400) 10));
         byte.of_Z (Z.shiftr (Z.land 0x03fc (frm_headerCrc frheader)) 2);
         byte.of_Z (Z.lor (Z.shiftl (Z.land 0x0003 (frm_headerCrc frheader)) 6)
                          (Z.land 0x3f (frm_cycle frheader)))] in
      flexray_emit tmpbuf payload_length payload_length_valid
                   (data_start + sizeof_flexraymessage) flags object_timestamp
                   (frm_channel frheader) (frm_dir frheader) s1
    end.

Definition blf_read_flexrayrcvmessageex
           (block_start data_start object_length flags object_timestamp : Z) (ext : bool)
  : M bool := fun s =>
  let frheadersize :=
    if ext then to_gint32 (sizeof_flexrayrcvmessage + 40) else to_gint32 sizeof_flexrayrcvmessage in
  if object_length <? to_gint64 (to_gint64 (data_start - block_start) + frheadersize) then
    fail_with WTAP_ERR_BAD_FILE false s
  else
    let (r, s1) := blf_read_bytes data_start sizeof_flexrayrcvmessage s in
    match r with
    | None => (false, s1)
    | Some bs =>
      let frheader := fix_endianness_blf_flexrayrcvmessage (unpack_flexrayrcvmessage bs) in
      let dir := if ext then frr_dir frheader else Z.land (frr_dir frheader) 0xff in
      let cycle := if ext then frr_cycle frheader else Z.land (frr_cycle frheader) 0xff in
      let payload_length := to_guint16 (frr_payloadLength frheader) in
      let payload_length_valid := to_guint16 (frr_payloadLengthValid frheader) in
      let left :=
        to_gint64 (to_gint64 (object_length - to_gint64 (data_start - block_start))
                   - frheadersize) in
      let payload_length_valid :=
        if payload_length_valid >? left then to_guint8 left else payload_length_valid in
      (* TODO: It seems that this format support both channels at the same time!? *)
      let b0 :=
        if frr_channelMask frheader =? BLF_FLEXRAYRCVMSG_CHANNELMASK_A
        then BLF_FLEXRAYDATA_FRAME
        else Z.lor BLF_FLEXRAYDATA_FRAME BLF_FLEXRAYDATA_CHANNEL_B in
      let data := frr_data frheader in
      let b2 := Z.shiftr (Z.land 0x0700 (frr_frameId frheader)) 8 in
      let b2 := if Z.land data BLF_FLEXRAYRCVMSG_DATA_FLAG_PAYLOAD_PREAM
                   =? BLF_FLEXRAYRCVMSG_DATA_FLAG_PAYLOAD_PREAM
                then Z.lor b2 BLF_DLT_FLEXRAY_PPI else b2 in
      let b2 := if Z.land data BLF_FLEXRAYRCVMSG_DATA_FLAG_SYNC
                   =? BLF_FLEXRAYRCVMSG_DATA_FLAG_SYNC
                then Z.lor b2 BLF_DLT_FLEXRAY_SFI else b2 in
      let b2 := if negb (Z.land data BLF_FLEXRAYRCVMSG_DATA_FLAG_NULL_FRAME
                         =? BLF_FLEXRAYRCVMSG_DATA_FLAG_NULL_FRAME)
                then Z.lor b2 BLF_DLT_FLEXRAY_NFI else b2 in
      let b2 := if Z.land data BLF_FLEXRAYRCVMSG_DATA_FLAG_STARTUP
                   =? BLF_FLEXRAYRCVMSG_DATA_FLAG_STARTUP
                then Z.lor b2 BLF_DLT_FLEXRAY_STFI else b2 in
      let tmpbuf :=
        [byte.of_Z b0;
         Byte.x00;
         byte.of_Z b2;
         byte.of_Z (Z.land 0x00ff (frr_frameId frheader));
         byte.of_Z (Z.lor (Z.land 0xfe (frr_payloadLength frheader))
                          (Z.shiftr (Z.land (frr_headerCrc1 frheader) 0x0400) 10));
         byte.of_Z (Z.shiftr (Z.land 0x03fc (frr_headerCrc1 frheader)) 2);
         byte.of_Z (Z.lor (Z.shiftl (Z.land 0x0003 (frr_headerCrc1 frheader)) 6)
                          (Z.land 0x3f cycle))] in
      flexray_emit tmpbuf payload_length payload_length_valid
                   (data_start + frheadersize) flags object_timestamp
                   (frr_channelMask frheader) dir s1
    end.

Definition blf_read_linmessage
           (block_start data_start object_length flags object_timestamp : Z) : M bool :=
  fun s =>
  if header_too_long block_start data_start object_length sizeof_linmessage then
    fail_with WTAP_ERR_BAD_FILE false s
  else
    let (r, s1) := blf_read_bytes data_start sizeof_linmessage s in
    match r with
    | None => (false, s1)
    | Some bs =>
      let linmessage := fix_endianness_blf_linmessage (unpack_linmessage bs) in
      let dlc := Z.land (lin_dlc linmessage) 0x0f in
      let id := Z.land (lin_id linmessage) 0x3f in
      let payload_length := Z.min dlc 8 in
      let tmpbuf :=
        [Byte.x01;                         (* message format rev = 1 *)
         Byte.x00; Byte.x00; Byte.x00;     (* reserved *)
         byte.of_Z (Z.lor (Z.shiftl dlc 4) 0); (* dlc (4bit) | type (2bit) | checksum type (2bit) *)
         byte.of_Z id;                     (* parity (2bit) | id (6bit) *)
         byte.of_Z (Z.land (lin_crc linmessage) 0xff);  (* checksum *)
         Byte.x00]                         (* errors *) in
      let len := 8 + payload_length in
      (buffer_append tmpbuf ;;;
       buffer_append (array_bytes (Z.to_nat payload_length) (lin_data linmessage)) ;;;
       blf_init_rec flags object_timestamp WTAP_ENCAP_LIN (lin_channel linmessage)
                    UINT16_MAX len len ;;;
       blf_add_direction_option (lin_dir linmessage) ;;;
       ret true) s1
    end.

(** The C string held by a text buffer: its bytes up to the first NUL. *)
Fixpoint c_string (text : list byte) : list byte :=
  match text with
  | [] => []
  | b :: t => if Byte.eqb b Byte.x00 then [] else b :: c_string t
  end.

Definition strlen (text : list byte) : Z := Z.of_nat (length (c_string text)).

Fixpoint split_on (sep : byte) (l cur : list byte) : list (list byte) :=
  match l with
  | [] => [rev cur]
  | b :: t =>
    if Byte.eqb b sep then rev cur :: split_on sep t []
    else split_on sep t (b :: cur)
  end.

(** [g_strsplit_set(text, ";", -1)]; the empty string has no token. *)
Definition g_strsplit_set_semicolon (text : list byte) : list (list byte) :=
  match c_string text with
  | [] => []
  | str => split_on Byte.x3b str []
  end.

Definition epdu_text_lines_header (info : option string) : list byte :=
  epdu_string EXP_PDU_TAG_DISSECTOR_NAME "data-text-lines"
  ++ epdu_string EXP_PDU_TAG_COL_PROT_TEXT "BLF App text"
  ++ match info with
     | Some i => epdu_string EXP_PDU_TAG_COL_INFO_TEXT i
     | None => []
     end
  ++ epdu_end.

Definition blf_read_apptextmessage
           (block_start data_start object_length flags object_timestamp metadata_cont : Z)
  : M Z := fun s =>
  if header_too_long block_start data_start object_length sizeof_apptext then
    fail_with WTAP_ERR_BAD_FILE BLF_APPTEXT_FAILED s
  else
    let (r, s1) := blf_read_bytes data_start sizeof_apptext s in
    match r with
    | None => (BLF_APPTEXT_FAILED, s1)
    | Some bs =>
      let apptextheader := fix_endianness_blf_apptext_header (unpack_apptext bs) in
      (* If we're in the middle of a sequence of metadata objects, but we get an
         AppText object from another source, skip the previously incomplete
         object and start fresh. *)
      let metadata_cont :=
        if negb (metadata_cont =? 0)
           && negb (source apptextheader =? BLF_APPTEXT_METADATA)
        then 0 else metadata_cont in
      let (r2, s2) :=
        blf_read_bytes (data_start + sizeof_apptext) (textLength apptextheader) s1 in
      match r2 with
      | None => (BLF_APPTEXT_FAILED, s2)
      | Some text =>
        if source apptextheader =? BLF_APPTEXT_CHANNEL then
          match g_strsplit_set_semicolon text with
          | _ :: name :: _ =>
            let channel := Z.land (Z.shiftr (reservedAppText1 apptextheader) 8) 0xff in
            let bustype := Z.land (Z.shiftr (reservedAppText1 apptextheader) 16) 0xff in
            let pkt_encap :=
              if bustype =? BLF_BUSTYPE_CAN then WTAP_ENCAP_SOCKETCAN
              else if bustype =? BLF_BUSTYPE_FLEXRAY then WTAP_ENCAP_FLEXRAY
              else if bustype =? BLF_BUSTYPE_LIN then WTAP_ENCAP_LIN
              else if bustype =? BLF_BUSTYPE_ETHERNET then WTAP_ENCAP_ETHERNET
              else if bustype =? BLF_BUSTYPE_WLAN then WTAP_ENCAP_IEEE_802_11
              else to_gint32 0xffffffff in
            (* we use lookup to create interface, if not existing yet *)
            (blf_lookup_interface pkt_encap channel UINT16_MAX
                                  (Some (string_of_list_byte name)) ;;;
             ret BLF_APPTEXT_CHANNEL) s2
          | _ => (BLF_APPTEXT_CHANNEL, s2)
          end
        else if source apptextheader =? BLF_APPTEXT_METADATA then
          let s3 :=
            if negb (metadata_cont =? 0) then
              (* Set the buffer pointer to the end of the previous object *)
              set_buf (set_first_free (buf s2) metadata_cont) s2
            else
              (* First object of a sequence of one or more *)
              set_buf (ws_buffer_append (buf s2) (epdu_text_lines_header (Some "Metadata"%string)))
                      s2 in
          let s4 := set_buf (ws_buffer_append (buf s3) text) s3 in
          if Z.land (reservedAppText1 apptextheader) 0x00ffffff >? textLength apptextheader
          then
            (* Continues in the next object *)
            (BLF_APPTEXT_CONT, s4)
          else
            (blf_init_rec flags object_timestamp WTAP_ENCAP_WIRESHARK_UPPER_PDU 0 UINT16_MAX
                          (to_guint32 (ws_buffer_length (buf s4)))
                          (to_guint32 (ws_buffer_length (buf s4))) ;;;
             ret BLF_APPTEXT_METADATA) s4
        else if (source apptextheader =? BLF_APPTEXT_COMMENT)
                || (source apptextheader =? BLF_APPTEXT_ATTACHMENT)
                || (source apptextheader =? BLF_APPTEXT_TRACELINE) then
          let info :=
            if source apptextheader =? BLF_APPTEXT_COMMENT then Some "Comment"%string
            else if source apptextheader =? BLF_APPTEXT_ATTACHMENT then Some "Attachment"%string
            else if source apptextheader =? BLF_APPTEXT_TRACELINE then Some "Trace line"%string
            else None in
          (* The string can contain NUL before textLength bytes *)
          let s3 := set_buf (ws_buffer_append (ws_buffer_append (buf s2)
                                                 (epdu_text_lines_header info))
                                              (c_string text)) s2 in
          (* We'll write this as a WS UPPER PDU packet with a text blob *)
          (blf_init_rec flags object_timestamp WTAP_ENCAP_WIRESHARK_UPPER_PDU 0 UINT16_MAX
                        (to_guint32 (ws_buffer_length (buf s3)))
                        (to_guint32 (ws_buffer_length (buf s3))) ;;;
           ret (to_gint32 (source apptextheader))) s3
        else (BLF_APPTEXT_CHANNEL, s2)   (* Cheat - no block to write *)
      end
    end.

Definition blf_read_ethernet_status
           (block_start data_start object_length flags object_timestamp : Z) : M bool :=
  fun s =>
  if header_too_long block_start data_start object_length sizeof_ethernet_status then
    fail_with WTAP_ERR_BAD_FILE false s
  else
    let (r, s1) := blf_read_bytes data_start sizeof_ethernet_status s in
    match r with
    | None => (false, s1)
    | Some bs =>
      let h := fix_endianness_blf_ethernet_status_header (unpack_ethernet_status bs) in
      let tmpbuf :=
        [hi8 (es_channel h); lo8 (es_channel h); hi8 (es_flags h); lo8 (es_flags h);
         byte.of_Z (es_linkStatus h); byte.of_Z (es_ethernetPhy h); byte.of_Z (es_duplex h);
         byte.of_Z (es_mdi h); byte.of_Z (es_connector h); byte.of_Z (es_clockMode h);
         byte.of_Z (es_pairs h); byte.of_Z (es_hardwareChannel h)]
        ++ be32 (es_bitrate h) in
      let s2 :=
        set_buf (ws_buffer_append
                   (ws_buffer_append (buf s1)
                      (epdu_string EXP_PDU_TAG_DISSECTOR_NAME "blf-ethernetstatus-obj"
                       ++ epdu_end))
                   tmpbuf) s1 in
      (* We'll write this as a WS UPPER PDU packet with a data blob *)
      let iface_name :=
        ("STATUS-ETH-" ++ string_of_Z (es_channel h) ++ "-"
                       ++ string_of_Z (es_hardwareChannel h))%string in
      (blf_lookup_interface WTAP_ENCAP_WIRESHARK_UPPER_PDU (es_channel h)
                            (es_hardwareChannel h) (Some iface_name) ;;;
       blf_init_rec flags object_timestamp WTAP_ENCAP_WIRESHARK_UPPER_PDU (es_channel h)
                    (es_hardwareChannel h) (to_guint32 (ws_buffer_length (buf s2)))
                    (to_guint32 (ws_buffer_length (buf s2))) ;;;
       (if Z.land (es_flags h) BLF_ETH_STATUS_HARDWARECHANNEL =? BLF_ETH_STATUS_HARDWARECHANNEL
        then (* If HW channel valid *)
          wtap_block_add_uint32_option (OPT_PKT_QUEUE (es_hardwareChannel h))
        else ret tt) ;;;
       ret true) s2
    end.

(** ** The object demultiplexer *)

(** How the inner loop "Find Object" of [blf_read_block] ends: the block
    header cannot be read, or a header with the magic [LOBJ] is found at
    [start_pos]. *)
Inductive find_block_result : Type :=
| FB_failed
| FB_found (start_pos : Z) (header : blf_blockheader_t).

Fixpoint blf_find_block (fuel : nat) (start_pos : Z) : M (option find_block_result) :=
  fun s =>
  match fuel with
  | O => (None, s)
  | S fuel' =>
    let (r, s1) := blf_read_bytes_or_eof start_pos sizeof_blockheader s in
    match r with
    | None =>
      (* not enough bytes for block header or unsupported file *)
      if wtap_err_eqb (err s1) WTAP_ERR_SHORT_READ
      then (Some FB_failed, set_err NO_ERROR s1)
      else (Some FB_failed, s1)
    | Some bs =>
      let header := fix_endianness_blf_blockheader (unpack_blockheader bs) in
      if memcmp (magic header) blf_obj_magic then
        (* we are moving back and try again but 1 byte later *)
        blf_find_block fuel' (to_gint64 (start_pos + 1)) s1
      else (Some (FB_found start_pos header), s1)
    end
  end.

(** The log object header selected by [header_type]: [flags] and
    [object_timestamp] of the variant read, [None] when the function
    returns [FALSE] here. *)
Definition blf_read_any_log_object_header (start_pos : Z) (header : blf_blockheader_t)
  : M (option (Z * Z)) := fun s =>
  let header2_start := to_gint64 (to_guint64 (start_pos + sizeof_blockheader)) in
  let data_start := to_gint64 (start_pos + header_length header) in
  if header_type header =? BLF_HEADER_TYPE_DEFAULT then
    let (r, s1) := blf_read_log_object_header header2_start data_start s in
    match r with
    | None => (None, s1)
    | Some logheader => (Some (lo_flags logheader, lo_object_timestamp logheader), s1)
    end
  else if header_type header =? BLF_HEADER_TYPE_2 then
    let (r, s1) := blf_read_log_object_header2 header2_start data_start s in
    match r with
    | None => (None, s1)
    | Some logheader2 => (Some (lo2_flags logheader2, lo2_object_timestamp logheader2), s1)
    end
  else if header_type header =? BLF_HEADER_TYPE_3 then
    let (r, s1) := blf_read_log_object_header3 header2_start data_start s in
    match r with
    | None => (None, s1)
    | Some logheader3 => (Some (lo3_flags logheader3, lo3_object_timestamp logheader3), s1)
    end
  else
    (* unknown header type *)
    fail_with WTAP_ERR_UNSUPPORTED None s.

(** The [switch (header.object_type)] for the types whose case is a plain
    [return blf_read_...(...)]; [None] for [BLF_OBJTYPE_APP_TEXT] and for
    the types of the [default] case. *)
Definition blf_dispatch (start_pos : Z) (header : blf_blockheader_t)
           (flags object_timestamp : Z) : option (M bool) :=
  let t := object_type header in
  let data_start := to_gint64 (start_pos + header_length header) in
  let ol := object_length header in
  if t =? BLF_OBJTYPE_LOG_CONTAINER then
    (* log container in log container not supported *)
    Some (fail_with WTAP_ERR_UNSUPPORTED false)
  else if t =? BLF_OBJTYPE_ETHERNET_FRAME then
    Some (blf_read_ethernetframe start_pos data_start ol flags object_timestamp)
  else if t =? BLF_OBJTYPE_ETHERNET_FRAME_EX then
    Some (blf_read_ethernetframe_ext start_pos data_start ol flags object_timestamp)
  else if t =? BLF_OBJTYPE_WLAN_FRAME then
    Some (blf_read_wlanframe start_pos data_start ol flags object_timestamp)
  else if t =? BLF_OBJTYPE_CAN_MESSAGE then
    Some (blf_read_canmessage start_pos data_start ol flags object_timestamp false)
  else if t =? BLF_OBJTYPE_CAN_ERROR then
    Some (blf_read_canerror start_pos data_start ol flags object_timestamp)
  else if t =? BLF_OBJTYPE_CAN_MESSAGE2 then
    Some (blf_read_canmessage start_pos data_start ol flags object_timestamp true)
  else if t =? BLF_OBJTYPE_CAN_ERROR_EXT then
    Some (blf_read_canerrorext start_pos data_start ol flags object_timestamp)
  else if t =? BLF_OBJTYPE_CAN_FD_MESSAGE then
    Some (blf_read_canfdmessage start_pos data_start ol flags object_timestamp)
  else if t =? BLF_OBJTYPE_CAN_FD_MESSAGE_64 then
    Some (blf_read_canfdmessage64 start_pos data_start ol flags object_timestamp)
  else if t =? BLF_OBJTYPE_CAN_FD_ERROR_64 then
    Some (blf_read_canfderror64 start_pos data_start ol flags object_timestamp)
  else if t =? BLF_OBJTYPE_FLEXRAY_DATA then
    Some (blf_read_flexraydata start_pos data_start ol flags object_timestamp)
  else if t =? BLF_OBJTYPE_FLEXRAY_MESSAGE then
    Some (blf_read_flexraymessage start_pos data_start ol flags object_timestamp)
  else if t =? BLF_OBJTYPE_FLEXRAY_RCVMESSAGE then
    Some (blf_read_flexrayrcvmessageex start_pos data_start ol flags object_timestamp false)
  else if t =? BLF_OBJTYPE_FLEXRAY_RCVMESSAGE_EX then
    Some (blf_read_flexrayrcvmessageex start_pos data_start ol flags object_timestamp true)
  else if t =? BLF_OBJTYPE_LIN_MESSAGE then
    Some (blf_read_linmessage start_pos data_start ol flags object_timestamp)
  else if t =? BLF_OBJTYPE_APP_TEXT then None
  else if t =? BLF_OBJTYPE_ETHERNET_STATUS then
    Some (blf_read_ethernet_status start_pos data_start ol flags object_timestamp)
  else None.

(** The outer loop of [blf_read_block], with its three loop variables.
    [None] is "fuel exhausted"; each turn of either loop takes one unit. *)
Fixpoint blf_read_block_loop (fuel : nat) (start_pos last_metadata_start metadata_cont : Z)
  : M (option bool) := fun s =>
  match fuel with
  | O => (None, s)
  | S fuel' =>
    (* Resetting buffer *)
    let s0 := set_buf (set_first_free (buf s) (b_start (buf s))) s in
    let (fb, s1) := blf_find_block fuel start_pos s0 in
    match fb with
    | None => (None, s1)
    | Some FB_failed => (Some false, s1)
    | Some (FB_found start_pos header) =>
      let s2 := set_blf_data (set_start_of_last_obj start_pos (blf_data s1)) s1 in
      let (lh, s3) := blf_read_any_log_object_header start_pos header s2 in
      match lh with
      | None => (Some false, s3)
      | Some (flags, object_timestamp) =>
        (* already making sure that we start after this object next time. *)
        let s4 :=
          set_blf_data
            (set_current_real_seek_pos (to_gint64 (start_pos + object_skip header))
                                       (blf_data s3)) s3 in
        let reset := negb (metadata_cont =? 0)
                     && negb (object_type header =? BLF_OBJTYPE_APP_TEXT) in
        let metadata_cont := if reset then 0 else metadata_cont in
        let last_metadata_start := if reset then 0 else last_metadata_start in
        match blf_dispatch start_pos header flags object_timestamp with
        | Some decoder => let (ok, s5) := decoder s4 in (Some ok, s5)
        | None =>
          if object_type header =? BLF_OBJTYPE_APP_TEXT then
            let (result, s5) :=
              blf_read_apptextmessage start_pos (to_gint64 (start_pos + header_length header))
                                      (object_length header) flags object_timestamp
                                      metadata_cont s4 in
            let cont := result =? BLF_APPTEXT_CONT in
            let s6 :=
              if negb cont && (result =? BLF_APPTEXT_METADATA) && negb (metadata_cont =? 0)
              then
                (* Last object of a sequence, restore the start position of the first object *)
                set_blf_data (set_start_of_last_obj last_metadata_start (blf_data s5)) s5
              else s5 in
            let last_metadata_start' :=
              if cont then
                (* First object of a sequence, save its start position *)
                if metadata_cont =? 0 then start_pos else last_metadata_start
              else 0 in
            let metadata_cont' :=
              if cont then b_first_free (buf s5)   (* Save a pointer to the end of the buffer *)
              else 0 in
            if result =? BLF_APPTEXT_FAILED then (Some false, s6)
            else if (result =? BLF_APPTEXT_COMMENT) || (result =? BLF_APPTEXT_METADATA)
                    || (result =? BLF_APPTEXT_ATTACHMENT) || (result =? BLF_APPTEXT_TRACELINE)
            then (Some true, s6)
            else
              (* we do not return since there is no packet to show here *)
              blf_read_block_loop fuel' (to_gint64 (start_pos + object_skip header))
                                  last_metadata_start' metadata_cont' s6
          else
            (* unknown object type *)
            blf_read_block_loop fuel' (to_gint64 (start_pos + object_skip header))
                                last_metadata_start metadata_cont s4
        end
      end
    end
  end.

Definition blf_read_block (fuel : nat) (start_pos : Z) : M (option bool) :=
  blf_read_block_loop fuel start_pos 0 0.

(** ** The session: open, read, seek-read, close *)

(** What [wtap *wth] gives access to: the two handles on the file, the
    host's own fields and [wth->priv]. *)
Record session : Type := mkSession {
  ss_wth : wtap;
  ss_fh : FILE_T;
  ss_random_fh : FILE_T;
  ss_priv : blf_t }.

(** The outcome of a read call: its result, [*data_offset] when it is
    assigned, and what the call leaves in [wth], [rec], [buf] and [*err]. *)
Record read_outcome : Type := mkOutcome {
  ro_ok : bool;
  ro_data_offset : option Z;
  ro_session : session;
  ro_rec : wtap_rec;
  ro_buf : Buffer;
  ro_err : wtap_err }.

Definition blf_read (fuel : nat) (w : session) (rec0 : wtap_rec) (buf0 : Buffer)
           (err0 : wtap_err) : option read_outcome :=
  let blf_tmp := mkParams (ss_wth w) rec0 buf0 (ss_fh w) (ss_priv w) err0 in
  match blf_read_block fuel (current_real_seek_pos (blf_data blf_tmp)) blf_tmp with
  | (None, _) => None
  | (Some ok, s) =>
    let w' := mkSession (wth s) (fh s) (ss_random_fh w) (blf_data s) in
    Some (mkOutcome ok (if ok then Some (start_of_last_obj (blf_data s)) else None)
                    w' (rec s) (buf s) (err s))
  end.

Definition blf_seek_read (fuel : nat) (w : session) (seek_off : Z) (rec0 : wtap_rec)
           (buf0 : Buffer) (err0 : wtap_err) : option read_outcome :=
  let blf_tmp := mkParams (ss_wth w) rec0 buf0 (ss_random_fh w) (ss_priv w) err0 in
  match blf_read_block fuel seek_off blf_tmp with
  | (None, _) => None
  | (Some ok, s) =>
    let w' := mkSession (wth s) (ss_fh w) (fh s) (blf_data s) in
    Some (mkOutcome ok None w' (rec s) (buf s) (err s))
  end.

Definition blf_close (w : session) : session :=
  let blf := ss_priv w in
  mkSession (ss_wth w) (ss_fh w) (ss_random_fh w)
            (mkBlf (start_of_last_obj blf) (current_real_seek_pos blf) (start_offset_ns blf)
                   (current_log_container blf) [] None (next_interface_id blf)).

Inductive wtap_open_return_val : Type :=
| WTAP_OPEN_NOT_MINE | WTAP_OPEN_MINE | WTAP_OPEN_ERROR.

(** [blf_open(wth, &err, &err_info)] on a [wth] whose handle is [fh0]: the
    result, [*err], and the session when the file is taken. *)
Definition blf_open (wth0 : wtap) (fh0 random_fh0 : FILE_T) (err0 : wtap_err)
  : wtap_open_return_val * wtap_err * option session :=
  match wtap_read_bytes_or_eof fh0 sizeof_fileheader with
  | (inl e, _) =>
    if wtap_err_eqb e NO_ERROR || wtap_err_eqb e WTAP_ERR_SHORT_READ then
      (* Short read or EOF: the file is too short to be a blf file. *)
      (WTAP_OPEN_NOT_MINE, NO_ERROR, None)
    else (WTAP_OPEN_ERROR, e, None)
  | (inr bs, fh1) =>
    let header := fix_endianness_blf_fileheader (unpack_fileheader bs) in
    if memcmp (fh_magic header) blf_magic then (WTAP_OPEN_NOT_MINE, err0, None)
    else
      (* This seems to be an BLF! *)
      (* skip unknown part of header *)
      let fh2 := match file_seek fh1 (fh_header_length header) with
                 | Some f => f
                 | None => fh1
                 end in
      let d := fh_start_date header in
      let timestamp :=
        {| tm_year := if date_year d >? 1970 then date_year d - 1900 else 70;
           tm_mon := date_month d - 1;
           tm_mday := date_day d;
           tm_hour := date_hour d;
           tm_min := date_mins d;
           tm_sec := date_sec d;
           tm_isdst := -1 |} in
      (* Prepare our private context. *)
      let start_offset := to_guint64 (1000 * 1000 * 1000 * to_guint64 (mktime timestamp)) in
      let start_offset := to_guint64 (start_offset + to_gint32 (1000 * 1000 * date_ms d)) in
      let blf :=
        {| start_of_last_obj := 0;
           current_real_seek_pos := 0;
           start_offset_ns := start_offset;
           current_log_container := 0;
           log_containers := [];
           channel_to_iface_ht := Some [];
           next_interface_id := 0 |} in
      (* embed in params *)
      let params :=
        mkParams wth0 (mkRec REC_TYPE_NONE [] [] WTAP_TSPREC_UNKNOWN (mkNstime 0 0) 0 0
                             (mkNstime 0 0) false 0 0)
                 (mkBuffer [] 0 0) fh2 blf err0 in
      (* lets check out the layout of all log containers *)
      let (_, params') := blf_scan_file_for_logcontainers params in
      (WTAP_OPEN_MINE, err0,
       Some (mkSession {| file_encap := WTAP_ENCAP_NONE;
                          interface_data := interface_data (wth params') |}
                       (fh params') random_fh0 (blf_data params')))
  end.

End Blf.

(** ** An instance of the parameters, for running the model

    Modelled from the spec: blf.h and the host libraries are not among the
    sources.  The layouts below keep the fields of sections 3, 4.7 and 6 in
    the order of the usual Vector BLF structs, with every struct packed and
    little-endian (section 4.1); constants that the specification does not
    give get the values of the public headers they come from.  No theorem
    on the reader depends on these choices: they serve the closed examples. *)

Module Reference.

Definition u8 (off : nat) (bs : list byte) : Z := le_field off 1 bs.
Definition u16 (off : nat) (bs : list byte) : Z := le_field off 2 bs.
Definition u32 (off : nat) (bs : list byte) : Z := le_field off 4 bs.
Definition u64 (off : nat) (bs : list byte) : Z := le_field off 8 bs.
Definition arr (off len : nat) (bs : list byte) : list byte := firstn len (skipn off bs).

Definition unpack_date (off : nat) (bs : list byte) : blf_date_t :=
  mkDate (u16 off bs) (u16 (off + 2) bs) (u16 (off + 4) bs) (u16 (off + 6) bs)
         (u16 (off + 8) bs) (u16 (off + 10) bs) (u16 (off + 12) bs) (u16 (off + 14) bs).

#[export] Instance blf_header : blf_h.
Proof.
  refine {|
    sizeof_fileheader := 76;
    unpack_fileheader := fun bs =>
      mkFileHeader (arr 0 4 bs) (u32 4 bs) (u64 16 bs) (u64 24 bs) (u32 32 bs) (u32 36 bs)
                   (unpack_date 40 bs) (unpack_date 56 bs) (u32 72 bs);
    sizeof_logobjectheader := 16;
    unpack_logobjectheader := fun bs =>
      mkLogObjectHeader (u32 0 bs) (u16 4 bs) (u16 6 bs) (u64 8 bs);
    sizeof_logobjectheader2 := 24;
    unpack_logobjectheader2 := fun bs =>
      mkLogObjectHeader2 (u32 0 bs) (u16 6 bs) (u64 8 bs) (u64 16 bs);
    sizeof_logobjectheader3 := 22;
    unpack_logobjectheader3 := fun bs =>
      mkLogObjectHeader3 (u32 0 bs) (u16 4 bs) (u16 12 bs) (u64 14 bs);
    sizeof_ethernetframeheader := 32;
    unpack_ethernetframeheader := fun bs =>
      mkEthHeader (arr 0 6 bs) (u16 6 bs) (arr 8 6 bs) (u16 14 bs) (u16 16 bs)
                  (u16 18 bs) (u16 20 bs) (u16 22 bs);
    sizeof_ethernetframeheader_ex := 32;
    unpack_ethernetframeheader_ex := fun bs =>
      mkEthExHeader (u16 0 bs) (u16 2 bs) (u16 4 bs) (u16 6 bs) (u64 8 bs) (u32 16 bs)
                    (u16 20 bs) (u16 22 bs) (u32 24 bs) (u32 28 bs);
    sizeof_wlanframeheader := 16;
    unpack_wlanframeheader := fun bs =>
      mkWlanHeader (u16 0 bs) (u16 2 bs) (u8 4 bs) (u16 6 bs) (u16 8 bs) (u16 10 bs);
    sizeof_canmessage := 8;
    unpack_canmessage := fun bs => mkCanMessage (u16 0 bs) (u8 2 bs) (u8 3 bs) (u32 4 bs);
    sizeof_canmessage2_trailer := 16;
    unpack_canmessage2_trailer := fun bs => mkCan2Trailer (u32 0 bs) (u8 5 bs) (u16 6 bs);
    sizeof_canfdmessage := 20;
    unpack_canfdmessage := fun bs =>
      mkCanFdMessage (u16 0 bs) (u8 2 bs) (u8 3 bs) (u32 4 bs) (u32 8 bs) (u8 13 bs)
                     (u8 14 bs) (u32 16 bs);
    sizeof_canfdmessage64 := 40;
    unpack_canfdmessage64 := fun bs =>
      mkCanFdMessage64 (u8 0 bs) (u8 1 bs) (u8 2 bs) (u32 4 bs) (u32 8 bs) (u32 12 bs)
                       (u32 16 bs) (u32 20 bs) (u32 24 bs) (u32 28 bs) (u16 32 bs)
                       (u8 34 bs) (u32 36 bs);
    sizeof_canerror := 4;
    unpack_canerror := fun bs => mkCanError (u16 0 bs) (u16 2 bs);
    sizeof_canerrorext := 24;
    unpack_canerrorext := fun bs =>
      mkCanErrorExt (u16 0 bs) (u16 2 bs) (u32 4 bs) (u8 10 bs) (u32 12 bs) (u32 16 bs)
                    (u16 20 bs);
    sizeof_canfderror64 := 44;
    unpack_canfderror64 := fun bs =>
      mkCanFdError64 (u8 0 bs) (u8 1 bs) (u16 4 bs) (u16 6 bs) (u16 8 bs) (u32 12 bs)
                     (u32 16 bs) (u32 20 bs) (u32 24 bs) (u32 28 bs) (u32 32 bs) (u32 36 bs)
                     (u16 40 bs);
    sizeof_flexraydata := 12;
    unpack_flexraydata := fun bs =>
      mkFlexRayData (u16 0 bs) (u8 2 bs) (u8 3 bs) (u16 4 bs) (u16 6 bs) (u8 8 bs) (u16 10 bs);
    sizeof_flexraymessage := 32;
    unpack_flexraymessage := fun bs =>
      mkFlexRayMessage (u16 0 bs) (u8 2 bs) (u32 4 bs) (u32 8 bs) (u32 12 bs) (u32 16 bs)
                       (u16 20 bs) (u16 22 bs) (u16 24 bs) (u8 26 bs) (u8 27 bs) (u16 30 bs);
    sizeof_flexrayrcvmessage := 44;
    unpack_flexrayrcvmessage := fun bs =>
      mkFlexRayRcvMessage (u16 0 bs) (u16 2 bs) (u16 4 bs) (u16 6 bs) (u32 8 bs) (u32 12 bs)
                          (u16 16 bs) (u16 18 bs) (u16 20 bs) (u16 22 bs) (u16 24 bs)
                          (u16 26 bs) (u32 28 bs) (u32 32 bs) (u32 36 bs) (u32 40 bs);
    sizeof_linmessage := 20;
    unpack_linmessage := fun bs =>
      mkLinMessage (u16 0 bs) (u8 2 bs) (u8 3 bs) (arr 4 8 bs) (u16 16 bs) (u8 18 bs);
    sizeof_apptext := 16;
    unpack_apptext := fun bs => mkAppText (u32 0 bs) (u32 4 bs) (u32 8 bs) (u32 12 bs);
    sizeof_ethernet_status := 16;
    unpack_ethernet_status := fun bs =>
      mkEthStatus (u16 0 bs) (u16 2 bs) (u8 4 bs) (u8 5 bs) (u8 6 bs) (u8 7 bs) (u8 8 bs)
                  (u8 9 bs) (u8 10 bs) (u8 11 bs) (u32 12 bs);

    BLF_OBJTYPE_LOG_CONTAINER := 10;    BLF_OBJTYPE_ETHERNET_FRAME := 71;
    BLF_OBJTYPE_ETHERNET_FRAME_EX := 120; BLF_OBJTYPE_WLAN_FRAME := 93;
    BLF_OBJTYPE_CAN_MESSAGE := 1;       BLF_OBJTYPE_CAN_ERROR := 2;
    BLF_OBJTYPE_CAN_MESSAGE2 := 86;     BLF_OBJTYPE_CAN_ERROR_EXT := 73;
    BLF_OBJTYPE_CAN_FD_MESSAGE := 100;  BLF_OBJTYPE_CAN_FD_MESSAGE_64 := 101;
    BLF_OBJTYPE_CAN_FD_ERROR_64 := 104; BLF_OBJTYPE_FLEXRAY_DATA := 29;
    BLF_OBJTYPE_FLEXRAY_MESSAGE := 41;  BLF_OBJTYPE_FLEXRAY_RCVMESSAGE := 50;
    BLF_OBJTYPE_FLEXRAY_RCVMESSAGE_EX := 66; BLF_OBJTYPE_LIN_MESSAGE := 11;
    BLF_OBJTYPE_APP_TEXT := 65;         BLF_OBJTYPE_ETHERNET_STATUS := 103;

    BLF_DIR_RX := 0; BLF_DIR_TX := 1; BLF_DIR_TX_RQ := 2;

    BLF_CANMESSAGE_FLAG_TX := 0x01;     BLF_CANMESSAGE_FLAG_RTR := 0x80;
    BLF_CANFDMESSAGE_CANFDFLAG_EDL := 0x01;
    BLF_CANFDMESSAGE64_FLAG_EDL := 0x1000; BLF_CANFDMESSAGE64_FLAG_REMOTE_FRAME := 0x0010;

    BLF_CANERROREXT_FLAG_CANCORE := 0x02;
    BLF_CANERROREXT_EXTECC_TX := 0x1000; BLF_CANERROREXT_EXTECC_NOT_ACK := 0x2000;
    BLF_CANERROREXT_ECC_MEANING_BIT_ERROR := 0x0; BLF_CANERROREXT_ECC_MEANING_FORM_ERROR := 0x1;
    BLF_CANERROREXT_ECC_MEANING_STUFF_ERROR := 0x2; BLF_CANERROREXT_ECC_MEANING_CRC_ERROR := 0x4;
    BLF_CANERROREXT_ECC_MEANING_NACK_ERROR := 0x7; BLF_CANERROREXT_ECC_MEANING_OVERLOAD := 0x8;

    BLF_FLEXRAYDATA_FRAME := 0x01;      BLF_FLEXRAYDATA_CHANNEL_B := 0x80;
    BLF_FLEXRAYMESSAGE_STATE_PPI := 0x01; BLF_FLEXRAYMESSAGE_STATE_SFI := 0x02;
    BLF_FLEXRAYMESSAGE_STATE_NFI := 0x08; BLF_FLEXRAYMESSAGE_STATE_STFI := 0x10;
    BLF_FLEXRAYRCVMSG_CHANNELMASK_A := 1;
    BLF_FLEXRAYRCVMSG_DATA_FLAG_PAYLOAD_PREAM := 0x10; BLF_FLEXRAYRCVMSG_DATA_FLAG_SYNC := 0x04;
    BLF_FLEXRAYRCVMSG_DATA_FLAG_NULL_FRAME := 0x01; BLF_FLEXRAYRCVMSG_DATA_FLAG_STARTUP := 0x08;
    BLF_DLT_FLEXRAY_PPI := 0x20; BLF_DLT_FLEXRAY_SFI := 0x10;
    BLF_DLT_FLEXRAY_NFI := 0x08; BLF_DLT_FLEXRAY_STFI := 0x04;

    BLF_APPTEXT_COMMENT := 0; BLF_APPTEXT_CHANNEL := 1; BLF_APPTEXT_METADATA := 2;
    BLF_APPTEXT_ATTACHMENT := 3; BLF_APPTEXT_TRACELINE := 4;
    BLF_APPTEXT_CONT := 0xfe; BLF_APPTEXT_FAILED := 0xff;

    BLF_BUSTYPE_CAN := 1; BLF_BUSTYPE_FLEXRAY := 7; BLF_BUSTYPE_LIN := 5;
    BLF_BUSTYPE_ETHERNET := 11; BLF_BUSTYPE_WLAN := 13;

    BLF_ETH_STATUS_HARDWARECHANNEL := 0x0100
  |}.
  repeat constructor; cbn; intuition discriminate.
Defined.

(** timegm: the epoch seconds of a broken-down UTC time. *)
Definition days_from_civil (y m d : Z) : Z :=
  let y := if m <=? 2 then y - 1 else y in
  let era := (if y >=? 0 then y else y - 399) / 400 in
  let yoe := y - era * 400 in
  let doy := (153 * (if m >? 2 then m - 3 else m + 9) + 2) / 5 + d - 1 in
  let doe := yoe * 365 + yoe / 4 - yoe / 100 + doy in
  era * 146097 + doe - 719468.

Definition timegm (t : tm) : Z :=
  days_from_civil (tm_year t + 1900) (tm_mon t + 1) (tm_mday t) * 86400
  + tm_hour t * 3600 + tm_min t * 60 + tm_sec t.

Definition nstime_delta_ref (b a : nstime_t) : nstime_t :=
  if secs b =? secs a then mkNstime 0 (nsecs b - nsecs a)
  else if secs b <? secs a then
    let d := nsecs b - nsecs a in
    if d >? 0 then mkNstime (secs b - secs a + 1) (d - NS_PER_S)
    else mkNstime (secs b - secs a) d
  else
    let d := nsecs b - nsecs a in
    if d <? 0 then mkNstime (secs b - secs a - 1) (d + NS_PER_S)
    else mkNstime (secs b - secs a) d.

Definition be16 (x : Z) : list byte := [byte.of_Z (Z.shiftr x 8); byte.of_Z x].

Definition epdu_string_ref (tag : exp_pdu_tag) (str : string) : list byte :=
  let t := match tag with
           | EXP_PDU_TAG_DISSECTOR_NAME => 12
           | EXP_PDU_TAG_COL_PROT_TEXT => 33
           | EXP_PDU_TAG_COL_INFO_TEXT => 36
           end in
  let v := bytes_of_string str in
  let padded := (Z.of_nat (length v) + 3) / 4 * 4 in
  be16 t ++ be16 padded ++ v ++ repeat Byte.x00 (Z.to_nat padded - length v).

(** A host built around a given [inflate], with or without zlib. *)
Definition host_with (have_zlib : bool) (infl : list byte -> Z -> Z * list byte) : host :=
  {| WTAP_ENCAP_NONE := -2; WTAP_ENCAP_PER_PACKET := -1;
     WTAP_ENCAP_ETHERNET := 1; WTAP_ENCAP_IEEE_802_11 := 20; WTAP_ENCAP_FLEXRAY := 106;
     WTAP_ENCAP_LIN := 107; WTAP_ENCAP_SOCKETCAN := 125;
     WTAP_ENCAP_WIRESHARK_UPPER_PDU := 155;
     WTAP_MAX_PACKET_SIZE_STANDARD := 262144;
     CAN_RTR_FLAG := 0x40000000; CAN_ERR_FLAG := 0x20000000; CAN_ERR_DLC := 8;
     CAN_ERR_PROT := 0x00000008; CAN_ERR_ACK := 0x00000020;
     CAN_ERR_PROT_BIT := 0x01; CAN_ERR_PROT_FORM := 0x02; CAN_ERR_PROT_STUFF := 0x04;
     CAN_ERR_PROT_OVERLOAD := 0x20; CAN_ERR_PROT_UNSPEC := 0x00;
     CAN_ERR_PROT_LOC_CRC_SEQ := 0x08; CAN_ERR_PROT_LOC_ACK := 0x19;
     HAVE_ZLIB := have_zlib;
     inflateInit := fun _ => Z_OK;
     inflate := infl;
     inflateEnd := fun _ => Z_OK;
     mktime := timegm;
     nstime_delta := nstime_delta_ref;
     epdu_string := epdu_string_ref;
     epdu_end := repeat Byte.x00 4 |}.

(** *** zlib

    Modelled from the spec: the data of a compressed container is a zlib
    stream (RFC 1950) of deflate blocks (RFC 1951), and zlib is not among
    the sources.  [inflate] below goes through the modes of zlib's
    inflate() in their order, HEAD, TYPE, STORED, TABLE, LENLENS, CODELENS,
    LEN, DIST, MATCH and CHECK, for a stream [inflateInit] has prepared
    (a window of 15 bits, no dictionary) and one call with Z_NO_FLUSH, as
    blf.c makes it; memory is taken to suffice. *)

Module Zlib.

(** The bits of the input in the order [inflate] takes them: from the
    least significant bit of each byte. *)
Definition bits_of_byte (b : byte) : list bool :=
  map (fun i => Z.testbit (byte.unsigned b) (Z.of_nat i)) (seq 0 8).

Definition bits_of (input : list byte) : list bool := flat_map bits_of_byte input.

Fixpoint bits_value (l : list bool) : Z :=
  match l with
  | [] => 0
  | b :: l' => Z.b2z b + 2 * bits_value l'
  end.

(** [NEEDBITS(n)], [BITS(n)] and [DROPBITS(n)]: [None] when the input
    ends before. *)
Definition take_bits (n : nat) (bs : list bool) : option (Z * list bool) :=
  if (length bs <? n)%nat then None else Some (bits_value (firstn n bs), skipn n bs).

(** [BYTEBITS()]: on to the next byte boundary. *)
Definition byte_bits (bs : list bool) : list bool := skipn (length bs mod 8) bs.

Fixpoint bytes_of_bits (n : nat) (bs : list bool) : list byte :=
  match n with
  | O => []
  | S n' => byte.of_Z (bits_value (firstn 8 bs)) :: bytes_of_bits n' (skipn 8 bs)
  end.

Definition adler32 (data : list byte) : Z :=
  let '(a, b) :=
    fold_left (fun '(a, b) x =>
                 let a' := (a + byte.unsigned x) mod 65521 in (a', (b + a') mod 65521))
              data (1, 0) in
  b * 65536 + a.

(** How a part of [inflate] ends: with a value, at [inf_leave] for want of
    input or of room in the output, in the mode BAD, or with Z_NEED_DICT.
    The output is kept with the last byte first, [left] is [avail_out]. *)
Inductive step (A : Type) : Type :=
| Next (a : A)
| Leave (out : list byte)
| Bad (out : list byte)
| NeedDict.
Arguments Next {A}.
Arguments Leave {A}.
Arguments Bad {A}.
Arguments NeedDict {A}.

(** *** Huffman codes

    A code is the list of the code lengths of its symbols, 0 for a symbol
    that is not used; the codes are the canonical ones of RFC 1951. *)

Definition count_len (lens : list Z) (len : Z) : Z :=
  Z.of_nat (length (filter (Z.eqb len) lens)).

Definition max_len (lens : list Z) : Z := fold_right Z.max 0 lens.

Inductive codetype : Type := CODES | LENS | DISTS.

(** The check of [inflate_table] for an over-subscribed or incomplete set
    of lengths; an incomplete set is let through when it has no code at
    all, or one code of one bit that is not a code length code. *)
Fixpoint kraft_left (lens : list Z) (n : nat) (len left : Z) : Z :=
  match n with
  | O => left
  | S n' =>
    let left := 2 * left - count_len lens len in
    if left <? 0 then left else kraft_left lens n' (len + 1) left
  end.

Definition inflate_table_ok (type : codetype) (lens : list Z) : bool :=
  let max := max_len lens in
  if max =? 0 then true
  else
    let left := kraft_left lens 15 1 1 in
    if left <? 0 then false
    else if (left >? 0)
            && (match type with CODES => true | _ => negb (max =? 1) end)
    then false
    else true.

(** The symbols of length [len], in the order of the canonical code. *)
Definition symbols_of_len (lens : list Z) (len : Z) : list Z :=
  map snd (filter (fun p => fst p =? len) (combine lens (map Z.of_nat (seq 0 (length lens))))).

Inductive decoded : Type :=
| Sym (sym : Z) (rest : list bool)
| Invalid (rest : list bool)      (* an entry with op 64 *)
| NoBits.

(** One symbol, bit by bit: [code] is the code read so far, [first] the
    first code of length [len]. *)
Fixpoint decode_from (lens : list Z) (n : nat) (len code first : Z) (bs : list bool)
  : decoded :=
  match n with
  | O => Invalid bs
  | S n' =>
    match bs with
    | [] => NoBits
    | b :: rest =>
      let code := code + Z.b2z b in
      let syms := symbols_of_len lens len in
      let count := Z.of_nat (length syms) in
      if code - first <? count then Sym (nth (Z.to_nat (code - first)) syms 0) rest
      else decode_from lens n' (len + 1) (2 * code) (2 * (first + count)) rest
    end
  end.

Definition decode (lens : list Z) (bs : list bool) : decoded :=
  decode_from lens (Z.to_nat (Z.max 1 (max_len lens))) 1 0 0 bs.

(** *** The fixed tables and the tables of lengths and distances *)

Definition fixed_lens : list Z :=
  repeat 8 144 ++ repeat 9 112 ++ repeat 7 24 ++ repeat 8 8.

Definition fixed_dists : list Z := repeat 5 32.

Definition lbase : list Z :=
  [3; 4; 5; 6; 7; 8; 9; 10; 11; 13; 15; 17; 19; 23; 27; 31; 35; 43; 51; 59; 67; 83; 99; 115;
   131; 163; 195; 227; 258].

Definition lext : list Z :=
  [0; 0; 0; 0; 0; 0; 0; 0; 1; 1; 1; 1; 2; 2; 2; 2; 3; 3; 3; 3; 4; 4; 4; 4; 5; 5; 5; 5; 0].

Definition dbase : list Z :=
  [1; 2; 3; 4; 5; 7; 9; 13; 17; 25; 33; 49; 65; 97; 129; 193; 257; 385; 513; 769; 1025; 1537;
   2049; 3073; 4097; 6145; 8193; 12289; 16385; 24577].

Definition dext : list Z :=
  [0; 0; 0; 0; 1; 1; 2; 2; 3; 3; 4; 4; 5; 5; 6; 6; 7; 7; 8; 8; 9; 9; 10; 10; 11; 11; 12; 12;
   13; 13].

(** The order of the code length code lengths. *)
Definition order : list nat :=
  [16; 17; 18; 0; 8; 7; 9; 6; 10; 5; 11; 4; 12; 3; 13; 2; 14; 1; 15]%nat.

(** *** The states of [inflate] *)

(** The decoder at work: the bits to come, the output and the room left
    in it. *)
Record state : Type := mkState {
  st_bits : list bool;
  st_out : list byte;
  st_left : Z }.

(** MATCH: [n] bytes from [dist] bytes back, as far as there is
    room. *)
Fixpoint copy_match (n : nat) (dist : nat) (out : list byte) : list byte :=
  match n with
  | O => out
  | S n' => copy_match n' dist (nth (dist - 1) out Byte.x00 :: out)
  end.

(** LEN to MATCH, to the end of the block. *)
Fixpoint codes (fuel : nat) (lencode distcode : list Z) (avail_out : Z) (st : state)
  : step state :=
  match fuel with
  | O => Leave (st_out st)
  | S fuel' =>
    match decode lencode (st_bits st) with
    | NoBits => Leave (st_out st)
    | Invalid _ => Bad (st_out st)           (* invalid literal/length code *)
    | Sym sym rest =>
      if sym <? 256 then
        (* LIT *)
        if st_left st =? 0 then Leave (st_out st)
        else codes fuel' lencode distcode avail_out
                   (mkState rest (byte.of_Z sym :: st_out st) (st_left st - 1))
      else if sym =? 256 then Next (mkState rest (st_out st) (st_left st))
      else if sym >? 285 then Bad (st_out st)  (* invalid literal/length code *)
      else
        (* LENEXT *)
        match take_bits (Z.to_nat (nth (Z.to_nat (sym - 257)) lext 0)) rest with
        | None => Leave (st_out st)
        | Some (extra, rest) =>
          let len := nth (Z.to_nat (sym - 257)) lbase 0 + extra in
          (* DIST *)
          match decode distcode rest with
          | NoBits => Leave (st_out st)
          | Invalid _ => Bad (st_out st)       (* invalid distance code *)
          | Sym dsym rest =>
            if dsym >? 29 then Bad (st_out st) (* invalid distance code *)
            else
              (* DISTEXT *)
              match take_bits (Z.to_nat (nth (Z.to_nat dsym) dext 0)) rest with
              | None => Leave (st_out st)
              | Some (extra, rest) =>
                let offset := nth (Z.to_nat dsym) dbase 0 + extra in
                (* MATCH *)
                if st_left st =? 0 then Leave (st_out st)
                else if offset >? avail_out - st_left st then
                  Bad (st_out st)              (* invalid distance too far back *)
                else
                  let copy := Z.min len (st_left st) in
                  let out := copy_match (Z.to_nat copy) (Z.to_nat offset) (st_out st) in
                  if len >? st_left st then Leave out
                  else codes fuel' lencode distcode avail_out
                             (mkState rest out (st_left st - copy))
              end
          end
        end
    end
  end.

(** STORED and COPY. *)
Definition stored (st : state) : step state :=
  let bs := byte_bits (st_bits st) in
  match take_bits 32 bs with
  | None => Leave (st_out st)
  | Some (hold, rest) =>
    let len := Z.land hold 0xffff in
    if negb (len =? Z.lxor (Z.shiftr hold 16) 0xffff) then
      Bad (st_out st)                          (* invalid stored block lengths *)
    else
      let have := Z.of_nat (length rest / 8) in
      let copy := Z.min len (Z.min have (st_left st)) in
      let out := rev (bytes_of_bits (Z.to_nat copy) rest) ++ st_out st in
      if copy <? len then Leave out
      else Next (mkState (skipn (8 * Z.to_nat copy) rest) out (st_left st - copy))
  end.

(** LENLENS: the code length code lengths, three bits each. *)
Fixpoint lenlens (ncode : nat) (ord : list nat) (bs : list bool) (lens : list Z)
  : option (list Z * list bool) :=
  match ncode, ord with
  | S n', o :: ord' =>
    match take_bits 3 bs with
    | None => None
    | Some (v, rest) =>
      lenlens n' ord' rest (firstn o lens ++ [v] ++ skipn (S o) lens)
    end
  | _, _ => Some (lens, bs)
  end.

(** CODELENS: the [total] code lengths of the two codes. *)
Fixpoint codelens (fuel : nat) (lencode : list Z) (total : Z) (lens : list Z)
         (bs : list bool) (out : list byte) : step (list Z * list bool) :=
  match fuel with
  | O => Leave out
  | S fuel' =>
    let have := Z.of_nat (length lens) in
    if negb (have <? total) then Next (lens, bs)
    else
      let repeated (nbits : nat) (base : Z) (prev : bool) (rest : list bool) :=
        match take_bits nbits rest with
        | None => Leave out
        | Some (extra, rest) =>
          if prev && (have =? 0) then Bad out     (* invalid bit length repeat *)
          else
            let len := if prev then last lens 0 else 0 in
            let copy := base + extra in
            if have + copy >? total then Bad out  (* invalid bit length repeat *)
            else codelens fuel' lencode total (lens ++ repeat len (Z.to_nat copy)) rest out
        end in
      match decode lencode bs with
      | NoBits => Leave out
      | Invalid rest => codelens fuel' lencode total (lens ++ [0]) rest out
      | Sym val rest =>
        if val <? 16 then codelens fuel' lencode total (lens ++ [val]) rest out
        else if val =? 16 then repeated 2%nat 3 true rest
        else if val =? 17 then repeated 3%nat 3 false rest
        else repeated 7%nat 11 false rest
      end
  end.

(** TABLE to CODELENS: the two codes of a dynamic block. *)
Definition table (st : state) : step (list Z * list Z * list bool) :=
  let out := st_out st in
  match take_bits 14 (st_bits st) with
  | None => Leave out
  | Some (hold, rest) =>
    let nlen := Z.land hold 31 + 257 in
    let ndist := Z.land (Z.shiftr hold 5) 31 + 1 in
    let ncode := Z.land (Z.shiftr hold 10) 15 + 4 in
    if (nlen >? 286) || (ndist >? 30) then
      Bad out                                  (* too many length or distance symbols *)
    else
      match lenlens (Z.to_nat ncode) order rest (repeat 0 19) with
      | None => Leave out
      | Some (lens19, rest) =>
        if negb (inflate_table_ok CODES lens19) then Bad out  (* invalid code lengths set *)
        else
          match codelens (S (length rest)) lens19 (nlen + ndist) [] rest out with
          | Leave o => Leave o
          | Bad o => Bad o
          | NeedDict => NeedDict
          | Next (lens, rest) =>
            let lencode := firstn (Z.to_nat nlen) lens in
            let distcode := skipn (Z.to_nat nlen) lens in
            if nth 256 lens 0 =? 0 then Bad out   (* missing end-of-block *)
            else if negb (inflate_table_ok LENS lencode) then Bad out
            else if negb (inflate_table_ok DISTS distcode) then Bad out
            else Next (lencode, distcode, rest)
          end
      end
  end.

(** TYPE to the end of the last block. *)
Fixpoint blocks (fuel : nat) (avail_out : Z) (st : state) : step state :=
  match fuel with
  | O => Leave (st_out st)
  | S fuel' =>
    match take_bits 3 (st_bits st) with
    | None => Leave (st_out st)
    | Some (hold, rest) =>
      let last := Z.testbit hold 0 in
      let type := Z.shiftr hold 1 in
      let st := mkState rest (st_out st) (st_left st) in
      let block :=
        if type =? 0 then stored st
        else if type =? 1 then
          codes (S (length rest)) fixed_lens fixed_dists avail_out st
        else if type =? 2 then
          match table st with
          | Next (lencode, distcode, rest) =>
            codes (S (length rest)) lencode distcode avail_out
                  (mkState rest (st_out st) (st_left st))
          | Leave o => Leave o
          | Bad o => Bad o
          | NeedDict => NeedDict
          end
        else Bad (st_out st) in                (* invalid block type *)
      match block with
      | Next st' => if last then Next st' else blocks fuel' avail_out st'
      | r => r
      end
    end
  end.

(** HEAD and DICTID. *)
Definition head (bs : list bool) : step (list bool) :=
  match take_bits 16 bs with
  | None => Leave []
  | Some (hold, rest) =>
    if negb ((Z.land hold 0xff * 256 + Z.shiftr hold 8) mod 31 =? 0) then
      Bad []                                   (* incorrect header check *)
    else if negb (Z.land hold 15 =? 8) then Bad []     (* unknown compression method *)
    else if Z.land (Z.shiftr hold 4) 15 + 8 >? 15 then Bad []   (* invalid window size *)
    else if Z.testbit hold 13 then
      match take_bits 32 rest with
      | None => Leave []
      | Some _ => NeedDict
      end
    else Next rest
  end.

(** CHECK. *)
Definition check (st : state) : step (list byte) :=
  match take_bits 32 (byte_bits (st_bits st)) with
  | None => Leave (st_out st)
  | Some (_, rest) =>
    let trailer := bytes_of_bits 4 (byte_bits (st_bits st)) in
    if negb (fold_left (fun acc x => acc * 256 + byte.unsigned x) trailer 0
             =? adler32 (rev (st_out st)))
    then Bad (st_out st)                       (* incorrect data check *)
    else Next (st_out st)
  end.

(** [inflate(&infstream, Z_NO_FLUSH)] after [inflateInit], with all of the
    input in [next_in] and an output buffer of [avail_out] bytes: the
    result and the bytes written.  An output buffer of no bytes is the
    null pointer [g_try_malloc0(0)] gives. *)
Definition inflate (input : list byte) (avail_out : Z) : Z * list byte :=
  if avail_out =? 0 then (Z_STREAM_ERROR, [])
  else
    let leave (out : list byte) :=
      (* no progress is possible without input *)
      ((match input with [] => Z_BUF_ERROR | _ => Z_OK end), rev out) in
    match head (bits_of input) with
    | Leave out => leave out
    | Bad out => (Z_DATA_ERROR, rev out)
    | NeedDict => (Z_NEED_DICT, [])
    | Next bs =>
      match blocks (S (length bs)) avail_out (mkState bs [] avail_out) with
      | Leave out => leave out
      | Bad out => (Z_DATA_ERROR, rev out)
      | NeedDict => (Z_NEED_DICT, [])
      | Next st =>
        match check st with
        | Leave out => leave out
        | Bad out => (Z_DATA_ERROR, rev out)
        | NeedDict => (Z_NEED_DICT, [])
        | Next out => (Z_STREAM_END, rev out)
        end
      end
    end.

End Zlib.

#[export] Instance host_env : host := host_with true Zlib.inflate.

End Reference.

(** * Sample files

    Files in the layout of the format, built with the reference instance
    of blf.h, on which the statements below are evaluated. *)

Module Samples.
Import Reference.

Definition bz (l : list Z) : list byte := map byte.of_Z l.
Definition le (n : nat) (z : Z) : list byte := le_split n z.

(** A block header: [LOBJ], header_length, header_type, object_length,
    object_type. *)
Definition blockhdr (hl ht ol ot : Z) : list byte :=
  bytes_of_string "LOBJ" ++ le 2 hl ++ le 2 ht ++ le 4 ol ++ le 4 ot.

(** The first log object header: flags, two reserved fields, timestamp. *)
Definition loghdr (flags ts : Z) : list byte := le 4 flags ++ le 2 0 ++ le 2 0 ++ le 8 ts.

(** An object of type [ot] with the first log object header, whose
    object_length is [ol]. *)
Definition obj_len (ol ot flags ts : Z) (body : list byte) : list byte :=
  blockhdr 32 1 ol ot ++ loghdr flags ts ++ body.

Definition obj (ot flags ts : Z) (body : list byte) : list byte :=
  obj_len (32 + Z.of_nat (length body)) ot flags ts body.

(** An uncompressed log container. *)
Definition container (data : list byte) : list byte :=
  blockhdr 16 1 (32 + Z.of_nat (length data)) 10
  ++ le 2 0 ++ le 2 0 ++ le 4 0 ++ le 4 (Z.of_nat (length data)) ++ le 4 0 ++ data.

(** A log container with compression method 2 (zlib). *)
Definition zcontainer (uncompressed_size : Z) (data : list byte) : list byte :=
  blockhdr 16 1 (32 + Z.of_nat (length data)) 10
  ++ le 2 2 ++ le 2 0 ++ le 4 0 ++ le 4 uncompressed_size ++ le 4 0 ++ data.

(** The file header: 144 bytes, start date 2020-01-01 00:00:01.005. *)
Definition filehdr : list byte :=
  bytes_of_string "LOGG" ++ le 4 144 ++ repeat Byte.x00 8 ++ le 8 0 ++ le 8 0
  ++ le 4 0 ++ le 4 0
  ++ (le 2 2020 ++ le 2 1 ++ le 2 0 ++ le 2 1 ++ le 2 0 ++ le 2 0 ++ le 2 1 ++ le 2 5)
  ++ repeat Byte.x00 16 ++ le 4 0 ++ repeat Byte.x00 68.

Definition w0 : wtap := mkWtap (-2) [].
Definition rec0 : wtap_rec :=
  mkRec REC_TYPE_NONE [] [] WTAP_TSPREC_UNKNOWN (mkNstime 0 0) 0 0 (mkNstime 0 0) false 0 0.
Definition buf0 : Buffer := mkBuffer [] 0 0.

(** The session [blf_open] gives on the bytes [l]. *)
Definition open_session (l : list byte) : option session :=
  snd (blf_open w0 (file_of_list l) (file_of_list l) NO_ERROR).

(** The parameters of a sequential read in that session. *)
Definition params_of (w : session) : blf_params_t :=
  mkParams (ss_wth w) rec0 buf0 (ss_fh w) (ss_priv w) NO_ERROR.

Definition params_of_file (l : list byte) : blf_params_t :=
  match open_session l with
  | Some w => params_of w
  | None => mkParams w0 rec0 buf0 (file_of_list l) (mkBlf 0 0 0 0 [] None 0) NO_ERROR
  end.

(** An Ethernet frame with a VLAN tag, four bytes of payload. *)
Definition eth_header (payload_length : Z) : list byte :=
  bz [0x66; 0x77; 0x88; 0x99; 0xaa; 0xbb] ++ le 2 1
  ++ bz [0x00; 0x11; 0x22; 0x33; 0x44; 0x55] ++ le 2 0
  ++ le 2 0x0800 ++ le 2 0x8100 ++ le 2 0x0064 ++ le 2 payload_length ++ le 8 0.

Definition eth_body : list byte := eth_header 4 ++ bz [0xde; 0xad; 0xbe; 0xef].

Definition eth_file : list byte :=
  filehdr ++ container (obj 71 1 5 eth_body) ++ repeat Byte.x00 7.

(** An ETHERNET_FRAME object that declares eight bytes of payload and ends
    after four, followed by a second object. *)
Definition eth_long_file : list byte :=
  filehdr ++ container (obj 71 1 5 (eth_header 8 ++ bz [0xde; 0xad; 0xbe; 0xef])
                        ++ obj 71 1 6 eth_body).

(** A CAN_FD_MESSAGE header: channel 1, dlc 8, id 0x123, EDL set, eight
    valid data bytes. *)
Definition canfd_header : list byte :=
  le 2 1 ++ bz [0; 8] ++ le 4 0x123 ++ le 4 0 ++ bz [0; 1; 8; 0] ++ le 4 0.

(** A CAN_FD_MESSAGE object that ends with its header, followed by a
    second object. *)
Definition canfd_file : list byte :=
  filehdr ++ container (obj 100 1 5 canfd_header ++ obj 71 1 6 eth_body).

(** A CAN_FD_MESSAGE_64 header: channel 1, dlc 15, 64 valid data bytes,
    id 0x123, EDL set. *)
Definition canfd64_header : list byte :=
  bz [1; 15; 64; 0] ++ le 4 0x123 ++ le 4 0 ++ le 4 0x1000 ++ le 4 0 ++ le 4 0
  ++ le 4 0 ++ le 4 0 ++ le 2 0 ++ bz [0; 0] ++ le 4 0.

(** A CAN_FD_MESSAGE_64 object with eight bytes after its header, followed
    by a second object. *)
Definition canfd64_file : list byte :=
  filehdr ++ container (obj 101 1 5 (canfd64_header ++ bz [1; 2; 3; 4; 5; 6; 7; 8])
                        ++ obj 71 1 6 eth_body).

(** What a read gave: the result, the bytes of the buffer, the captured
    length, [*err] and the cursor of the session. *)
Definition summary (o : option read_outcome)
  : option (bool * list Z * Z * wtap_err * Z) :=
  match o with
  | Some o => Some (ro_ok o, map byte.unsigned (ws_buffer_contents (ro_buf o)),
                    rec_caplen (ro_rec o), ro_err o,
                    current_real_seek_pos (ss_priv (ro_session o)))
  | None => None
  end.

Definition first_read (l : list byte) : option read_outcome :=
  match open_session l with
  | Some w => blf_read 10 w rec0 buf0 NO_ERROR
  | None => None
  end.

(** The parameters the scan starts from in [blf_open], on the bytes [l]
    of a file with the header of 144 bytes. *)
Definition scan_params (l : list byte) : blf_params_t :=
  mkParams w0 rec0 buf0
           (mkFILE (Z.of_nat (length l)) (f_byte (file_of_list l)) 144)
           (mkBlf 0 0 0 0 [] (Some []) 0) NO_ERROR.

(** The same frame in an object whose timestamp flags are 0. *)
Definition eth_flag0_file : list byte :=
  filehdr ++ container (obj 71 0 5 eth_body).


(** A file whose first block has header_type 2. *)
Definition bad_header_type_file : list byte :=
  filehdr ++ blockhdr 16 2 32 10 ++ repeat Byte.x00 16.

(** A zlib container that declares two bytes of inflated data and holds
    four bytes that are no zlib stream. *)
Definition zlib_short_file : list byte :=
  filehdr ++ zcontainer 2 (bz [1; 2; 3; 4]).

(** A zlib container that declares two bytes of inflated data and holds
    no compressed data at all. *)
Definition zlib_empty_file : list byte :=
  filehdr ++ zcontainer 2 [].

(** A zlib stream of one stored block: the header 78 01, the block with
    its length and the complement of it, and the Adler-32 checksum. *)
Definition zlib_stream (data : list byte) : list byte :=
  bz [0x78; 0x01; 0x01]
  ++ le 2 (Z.of_nat (length data)) ++ le 2 (65535 - Z.of_nat (length data)) ++ data
  ++ rev (le 4 (Zlib.adler32 data)).

(** A zlib container with the stream of two bytes, cut after the first
    of them. *)
Definition zlib_cut_file : list byte :=
  filehdr ++ zcontainer 2 (firstn 8 (zlib_stream (bz [0xde; 0xad]))).

(** The Ethernet object in a zlib container. *)
Definition zlib_file : list byte :=
  filehdr ++ zcontainer 68 (zlib_stream (obj 71 1 5 eth_body)).

(** Two containers with one Ethernet object each. *)
Definition eth_pair_file : list byte :=
  filehdr ++ container (obj 71 1 5 eth_body) ++ container (obj 71 1 6 eth_body).

(** A file of 2^31 + 2 log containers of 32 bytes, each with an
    uncompressed size of 2^32 - 1: the block repeats through the file. *)
Definition giant_block : list byte :=
  blockhdr 16 1 32 10 ++ le 2 0 ++ le 2 0 ++ le 4 0 ++ le 4 0xFFFFFFFF ++ le 4 0.

Definition giant_count : Z := 2 ^ 31 + 2.

Definition giant_at (p : Z) : FILE_T :=
  {| f_len := 32 * giant_count;
     f_byte := fun i => nth (Z.to_nat (i mod 32)) giant_block Byte.x00;
     f_pos := p |}.

Definition giant_file : FILE_T := giant_at 0.

Definition giant_params : blf_params_t :=
  mkParams w0 rec0 buf0 giant_file (mkBlf 0 0 0 0 [] (Some []) 0) NO_ERROR.

(** The descriptor of the container number [k], and the index after [k]
    containers. *)
Definition giant_container (k : Z) : blf_log_container_t :=
  {| infile_start_pos := 32 * k; infile_length := 32; infile_data_start := 32 * k + 32;
     real_start_pos := to_gint64 (to_guint64 (k * 0xFFFFFFFF));
     real_length := 0xFFFFFFFF;
     real_first_object_pos := -1; real_leftover_bytes := G_MAXUINT64;
     compression_method := 0; real_data := None |}.

Fixpoint giant_blf (k : nat) : blf_t :=
  match k with
  | O => mkBlf 0 0 0 0 [] (Some []) 0
  | S k' => blf_add_logcontainer (giant_container (Z.of_nat k')) (giant_blf k')
  end.

Definition giant_state (k : nat) : blf_params_t :=
  mkParams w0 rec0 buf0 (giant_at (32 * Z.of_nat k)) (giant_blf k) NO_ERROR.

(** Two Ethernet objects in one container, at the virtual offsets 0 and
    68. *)
Definition eth2_file : list byte :=
  filehdr ++ container (obj 71 1 5 eth_body ++ obj 71 1 6 eth_body).

Definition session_of (l : list byte) : session :=
  match open_session l with
  | Some w => w
  | None => mkSession w0 (file_of_list l) (file_of_list l) (mkBlf 0 0 0 0 [] None 0)
  end.

(** An APP_TEXT object with source METADATA. *)
Definition metadata_obj (ts reserved1 : Z) (text : list byte) : list byte :=
  obj 65 1 ts (le 4 2 ++ le 4 reserved1 ++ le 4 (Z.of_nat (length text)) ++ le 4 0 ++ text).

(** A text of ten bytes in two metadata objects: four bytes of which six
    more are announced, then the six. *)
Definition metadata_file : list byte :=
  filehdr ++ container (metadata_obj 5 10 (bytes_of_string "abcd")
                        ++ metadata_obj 6 6 (bytes_of_string "efghij")).

(** A FLEXRAY_DATA object: channel 0, eight bytes of payload declared,
    message id 0x123, and four bytes after the header. *)
Definition flexray_file : list byte :=
  filehdr ++ container (obj 29 1 5 (le 2 0 ++ bz [0; 8] ++ le 2 0x123 ++ le 2 0
                                    ++ bz [0; 0] ++ le 2 0 ++ bz [1; 2; 3; 4])).

(** An ETHERNET_FRAME_EX object: channel 1, hardware channel 2,
    direction TX, and a frame of six bytes. *)
Definition ethex_file : list byte :=
  filehdr ++ container (obj 120 1 5 (le 2 32 ++ le 2 0 ++ le 2 1 ++ le 2 2 ++ le 8 0
                                     ++ le 4 0 ++ le 2 1 ++ le 2 6 ++ le 4 0 ++ le 4 0
                                     ++ bz [1; 2; 3; 4; 5; 6])).


(** Three bytes that belong to no object before the Ethernet object. *)
Definition junk_file : list byte :=
  filehdr ++ container (bz [0xff; 0x4c; 0x4f] ++ obj 71 1 5 eth_body).

(** The session on [eth_file] after the read of its object. *)
Definition eth_file_read : session :=
  match first_read eth_file with
  | Some o => ro_session o
  | None => session_of eth_file
  end.

End Samples.

(** * Properties of the reader *)

Section Properties.
Context {blf_header : blf_h} {host_env : host}.

(** ** Definitions used by the statements *)

Definition rec_total (r : wtap_rec) : Z := secs (ts r) * NS_PER_S + nsecs (ts r).

Definition container_data_offset (tmp : blf_log_container_t) : Z :=
  to_guint64 (infile_data_start tmp - to_guint64 (infile_start_pos tmp)).

Definition container_data_length (tmp : blf_log_container_t) : Z :=
  to_guint64 (infile_length tmp - container_data_offset tmp).

(** The compressed bytes of an uncached zlib container reach [inflate]. *)
Definition pull_reads (s : blf_params_t) (index_log_container : Z)
           (tmp : blf_log_container_t) (compressed_data : list byte) : Prop :=
  0 <= index_log_container < Z.of_nat (length (log_containers (blf_data s)))
  /\ nth_error (log_containers (blf_data s)) (Z.to_nat index_log_container) = Some tmp
  /\ real_data tmp = None
  /\ compression_method tmp = BLF_COMPRESSION_ZLIB
  /\ 0 <= to_gint64 (infile_data_start tmp)
  /\ 0 <= infile_start_pos tmp
  /\ to_guint64 (infile_start_pos tmp) <= infile_data_start tmp
  /\ container_data_offset tmp <= infile_length tmp
  /\ container_data_length tmp <= UINT_MAX
  /\ fst (wtap_read_bytes_or_eof
            (mkFILE (f_len (fh s)) (f_byte (fh s)) (to_gint64 (infile_data_start tmp)))
            (to_guint32 (container_data_length tmp))) = inr compressed_data.

Definition uncached (c : blf_log_container_t) : blf_log_container_t := set_real_data c None.

Definition blf_keep (d d' : blf_t) : Prop :=
  start_of_last_obj d' = start_of_last_obj d
  /\ current_real_seek_pos d' = current_real_seek_pos d
  /\ start_offset_ns d' = start_offset_ns d
  /\ current_log_container d' = current_log_container d
  /\ channel_to_iface_ht d' = channel_to_iface_ht d
  /\ next_interface_id d' = next_interface_id d
  /\ map uncached (log_containers d') = map uncached (log_containers d).

Definition same_file (f f' : FILE_T) : Prop :=
  f_len f' = f_len f /\ f_byte f' = f_byte f.

(** What a read leaves as it was: everything but the position of the file
    handle, the cached data of the containers and, on failure, [*err]. *)
Definition read_frame (s s' : blf_params_t) : Prop :=
  wth s' = wth s /\ rec s' = rec s /\ buf s' = buf s
  /\ same_file (fh s) (fh s') /\ blf_keep (blf_data s) (blf_data s').

(** What a read looks at: the file handle, the container index and [*err]. *)
Definition io_eq (s t : blf_params_t) : Prop :=
  fh s = fh t /\ log_containers (blf_data s) = log_containers (blf_data t) /\ err s = err t.

(** [t] with the file handle, the container index and [*err] of [s']. *)
Definition with_io (s' t : blf_params_t) : blf_params_t :=
  mkParams (wth t) (rec t) (buf t) (fh s')
           (set_log_containers (current_log_container (blf_data t))
                               (log_containers (blf_data s')) (blf_data t))
           (err s').

(** The canonical Ethernet frame of the specification (section 4.7.1). *)
Definition be16 (x : Z) : list byte := [byte.of_Z (x / 256); byte.of_Z x].

Definition canonical_ethernet_frame (h : blf_ethernetframeheader_t) (payload : list byte)
  : list byte :=
  array_bytes 6 (eth_dst_addr h) ++ array_bytes 6 (eth_src_addr h)
  ++ (if negb (eth_tpid h =? 0) && negb (eth_tci h =? 0)
      then be16 (eth_tpid h) ++ be16 (eth_tci h) else [])
  ++ be16 (eth_ethtype h) ++ payload.

Definition eth_vlan (h : blf_ethernetframeheader_t) : bool :=
  negb (eth_tpid h =? 0) && negb (eth_tci h =? 0).

(** The bytes of the stream that a read of [count] bytes at [pos] gives. *)
Definition stream_bytes (s : blf_params_t) (pos count : Z) : option (list byte) :=
  fst (blf_read_bytes pos count s).

(** No read stores [WTAP_ERR_BAD_FILE]. *)
Definition no_bad_file (s s' : blf_params_t) : Prop :=
  err s <> WTAP_ERR_BAD_FILE -> err s' <> WTAP_ERR_BAD_FILE.


(** The virtual ranges as the scan lays them out from the accumulator
    [current_real_start], a [guint64] that is stored in a [gint64]. *)
Fixpoint tiles_from (current_real_start : Z) (cs : list blf_log_container_t) : Prop :=
  match cs with
  | [] => True
  | c :: cs' =>
    real_start_pos c = to_gint64 current_real_start
    /\ 0 <= real_length c < 2 ^ 32
    /\ tiles_from (to_guint64 (current_real_start + real_length c)) cs'
  end.

(** The containers start in the file at or after [lo], sixteen bytes or
    more after one another. *)
Fixpoint file_sorted (lo : Z) (cs : list blf_log_container_t) : Prop :=
  match cs with
  | [] => True
  | c :: cs' => lo <= infile_start_pos c /\ file_sorted (infile_start_pos c + 16) cs'
  end.

Definition total_real_length (cs : list blf_log_container_t) : Z :=
  fold_right (fun c acc => real_length c + acc) 0 cs.

(** Adjacent descriptors, in array order. *)
Definition adjacent (cs : list blf_log_container_t) (i : nat) (c d : blf_log_container_t)
  : Prop :=
  nth_error cs i = Some c /\ nth_error cs (S i) = Some d.

(** What no decoder touches: the bytes of the file, the cursor, the start
    of the last object, the start offset and the container index but for
    the cached data. *)
Definition decoder_frame (s s' : blf_params_t) : Prop :=
  same_file (fh s) (fh s')
  /\ start_of_last_obj (blf_data s') = start_of_last_obj (blf_data s)
  /\ current_real_seek_pos (blf_data s') = current_real_seek_pos (blf_data s)
  /\ start_offset_ns (blf_data s') = start_offset_ns (blf_data s)
  /\ current_log_container (blf_data s') = current_log_container (blf_data s)
  /\ map uncached (log_containers (blf_data s')) = map uncached (log_containers (blf_data s)).

(** A computation that keeps the frame of the decoders. *)
Definition keeps {A : Type} (m : M A) : Prop := forall s, decoder_frame s (snd (m s)).

(** An APP_TEXT object with source METADATA as the reads of
    [blf_read_block] find it: the block header found at [mo_start], the
    flags and the timestamp of its log object header, the AppText header
    and the text. *)
Record metadata_object : Type := mkMetadataObject {
  mo_start : Z;
  mo_header : blf_blockheader_t;
  mo_flags : Z;
  mo_timestamp : Z;
  mo_apptext : blf_apptext_t;
  mo_text : list byte }.

Definition mo_data_start (o : metadata_object) : Z :=
  to_gint64 (mo_start o + header_length (mo_header o)).

Definition mo_next (o : metadata_object) : Z :=
  to_gint64 (mo_start o + object_skip (mo_header o)).

(** [(apptextheader.reservedAppText1 & 0x00ffffff) > apptextheader.textLength] *)
Definition mo_continues (o : metadata_object) : bool :=
  Z.land (reservedAppText1 (mo_apptext o)) 0x00ffffff >? textLength (mo_apptext o).

(** The reads of one object, from the search for a block at [p] to the
    text, each with the result the object records; [s'] is the state the
    reads leave.  The object is one of the case BLF_OBJTYPE_APP_TEXT of
    the switch on the object type. *)
Definition metadata_object_reads (fuel : nat) (p : Z) (o : metadata_object)
           (s s' : blf_params_t) : Prop :=
  exists s1 s2 hb s3,
    blf_find_block fuel p s = (Some (FB_found (mo_start o) (mo_header o)), s1)
    /\ object_type (mo_header o) = BLF_OBJTYPE_APP_TEXT
    /\ blf_dispatch (mo_start o) (mo_header o) (mo_flags o) (mo_timestamp o) = None
    /\ blf_read_any_log_object_header (mo_start o) (mo_header o) s1
       = (Some (mo_flags o, mo_timestamp o), s2)
    /\ header_too_long (mo_start o) (mo_data_start o) (object_length (mo_header o))
                       sizeof_apptext = false
    /\ blf_read_bytes (mo_data_start o) sizeof_apptext s2 = (Some hb, s3)
    /\ mo_apptext o = fix_endianness_blf_apptext_header (unpack_apptext hb)
    /\ source (mo_apptext o) = BLF_APPTEXT_METADATA
    /\ blf_read_bytes (mo_data_start o + sizeof_apptext) (textLength (mo_apptext o)) s3
       = (Some (mo_text o), s').

(** A sequence of consecutive metadata objects: each but the last
    continues, the next is searched where the one before ends, and the
    last does not continue. *)
Fixpoint metadata_sequence (fuel : nat) (p : Z) (o : metadata_object)
         (rest : list metadata_object) (s s' : blf_params_t) {struct rest} : Prop :=
  match rest with
  | [] => metadata_object_reads fuel p o s s' /\ mo_continues o = false
  | o' :: rest' =>
    match fuel with
    | O => False
    | S fuel' =>
      exists s1, metadata_object_reads fuel p o s s1
                 /\ mo_continues o = true
                 /\ metadata_sequence fuel' (mo_next o) o' rest' s1 s'
    end
  end.

(** The state after the pass of [blf_read_block] over the metadata object
    [o]: the reads have left the file handle and the container index of
    [s'], the cursor is at the end of the object, and the text is in the
    buffer, after the export header for the first object of a sequence
    and after the text of the objects before for the others. *)
Definition metadata_pass (o : metadata_object) (s' t : blf_params_t) (metadata_cont : Z)
  : blf_params_t :=
  let b0 := set_first_free (buf t) (b_start (buf t)) in
  let b1 := if negb (metadata_cont =? 0) then set_first_free b0 metadata_cont
            else ws_buffer_append b0 (epdu_text_lines_header (Some "Metadata"%string)) in
  set_buf (ws_buffer_append b1 (mo_text o))
          (with_io s' (set_blf_data
                         (set_current_real_seek_pos
                            (mo_next o)
                            (set_start_of_last_obj (mo_start o) (blf_data t))) t)).

(** What the emitted record and the session hold when a sequence ends. *)
Definition metadata_emitted (t' : blf_params_t) (first : Z) (last : metadata_object)
           (contents : list byte) : Prop :=
  ws_buffer_contents (buf t') = contents
  /\ rec_type (rec t') = REC_TYPE_PACKET
  /\ pkt_encap (rec t') = WTAP_ENCAP_WIRESHARK_UPPER_PDU
  /\ rec_caplen (rec t') = to_guint32 (Z.of_nat (length contents))
  /\ rec_len (rec t') = to_guint32 (Z.of_nat (length contents))
  /\ start_of_last_obj (blf_data t') = first
  /\ current_real_seek_pos (blf_data t') = mo_next last.

(** [tmp->real_start_pos <= pos && pos < tmp->real_start_pos + (gint64)tmp->real_length] *)
Definition container_holds (tmp : blf_log_container_t) (pos : Z) : Prop :=
  real_start_pos tmp <= pos < to_gint64 (real_start_pos tmp + to_gint64 (real_length tmp)).

(** The [n] bytes of the buffer from [ws_buffer_start_ptr]. *)
Definition buffer_start_bytes (b : Buffer) (n : Z) : list byte :=
  firstn (Z.to_nat n) (skipn (Z.to_nat (b_start b)) (b_data b)).


(** The interface ids of the registry are the indices of the interface
    descriptions the reader has added to [wth->interface_data]. *)
Definition registry_ok (s : blf_params_t) : Prop :=
  Z.of_nat (length (interface_data (wth s))) = next_interface_id (blf_data s)
  /\ forall ht key item,
       channel_to_iface_ht (blf_data s) = Some ht ->
       g_hash_table_lookup ht key = Some item ->
       0 <= ife_interface_id item < next_interface_id (blf_data s).

(** ** What the reads leave unchanged *)

Lemma blf_keep_refl d : blf_keep d d.
Proof. repeat split. Qed.

Lemma read_frame_refl s : read_frame s s.
Proof. repeat split. Qed.

Lemma read_frame_trans s1 s2 s3 : read_frame s1 s2 -> read_frame s2 s3 -> read_frame s1 s3.
Proof.
  intros (A1 & A2 & A3 & (A4 & A5) & B1 & B2 & B3 & B4 & B5 & B6 & B7)
         (C1 & C2 & C3 & (C4 & C5) & D1 & D2 & D3 & D4 & D5 & D6 & D7).
  repeat split; congruence.
Qed.

Lemma read_frame_set_err e s : read_frame s (set_err e s).
Proof. repeat split. Qed.

Lemma read_frame_set_fh f s : same_file (fh s) f -> read_frame s (set_fh f s).
Proof. intros [? ?]. repeat split; assumption. Qed.

Lemma same_file_seek f off f' : file_seek f off = Some f' -> same_file f f'.
Proof.
  unfold file_seek. destruct (off <? 0); [discriminate|]. intros [= <-]. now split.
Qed.

Lemma same_file_read f n : same_file f (snd (wtap_read_bytes_or_eof f n)).
Proof. unfold wtap_read_bytes_or_eof. destruct (n <=? _); now split. Qed.

Lemma same_file_trans f1 f2 f3 : same_file f1 f2 -> same_file f2 f3 -> same_file f1 f3.
Proof. intros [? ?] [? ?]; split; congruence. Qed.

Lemma map_uncached_replace_nth n l tmp d :
  nth_error l n = Some tmp ->
  map uncached (replace_nth n l (set_real_data tmp d)) = map uncached l.
Proof.
  revert n; induction l as [|h t IH]; intros [|n] H; cbn in *; try discriminate.
  - injection H as ->. reflexivity.
  - now rewrite IH.
Qed.

Lemma length_replace_nth {A} n (l : list A) a : length (replace_nth n l a) = length l.
Proof. revert n; induction l; intros [|n]; cbn; auto. Qed.

Lemma pull_frame i s :
  let r := blf_pull_logcontainer_into_memory i s in
  read_frame s (snd r) /\ (fst r = true -> err (snd r) = err s).
Proof.
  cbv zeta. unfold blf_pull_logcontainer_into_memory, fail_with, bind, modify, ret.
  repeat match goal with
  | |- context [if ?b then _ else _] => destruct b eqn:?
  | |- context [match nth_error ?l ?n with _ => _ end] => destruct (nth_error l n) eqn:?
  | |- context [match real_data ?c with _ => _ end] => destruct (real_data c) eqn:?
  | |- context [match file_seek ?f ?o with _ => _ end] => destruct (file_seek f o) eqn:?
  | |- context [match wtap_read_bytes_or_eof ?f ?n with _ => _ end] =>
      pose proof (same_file_read f n); destruct (wtap_read_bytes_or_eof f n) as [[?|?] ?] eqn:?
  | |- context [let (_, _) := inflate ?a ?b in _] => destruct (inflate a b) eqn:?
  end; cbn [fst snd];
  (split; [|try discriminate; try reflexivity]);
  repeat match goal with
  | H : file_seek _ _ = Some _ |- _ => apply same_file_seek in H
  end;
  try (apply read_frame_refl);
  try (eapply read_frame_trans; [|apply read_frame_set_err]);
  try (apply read_frame_refl);
  try (cbn [snd] in *; repeat split; cbn;
       try (eapply same_file_trans; eauto; fail);
       try (eapply proj1; eauto; fail); try (eapply proj2; eauto; fail);
       try (eapply proj1, same_file_trans; eauto; fail);
       try (eapply proj2, same_file_trans; eauto; fail);
       try (apply map_uncached_replace_nth; assumption); fail).
Qed.

Lemma to_guint32_sub_wrap count copied dl :
  0 <= dl < to_guint32 (count - copied) ->
  to_guint32 (count - to_guint32 (copied + dl)) = to_guint32 (count - copied) - dl.
Proof.
  unfold to_guint32. intros H.
  rewrite Zminus_mod_idemp_r.
  replace (count - (copied + dl)) with ((count - copied) - dl) by lia.
  rewrite <- Zminus_mod_idemp_l.
  apply Z.mod_small.
  pose proof (Z.mod_pos_bound (count - copied) (2 ^ 32) ltac:(lia)). lia.
Qed.

Lemma to_guint32_nonneg z : 0 <= to_guint32 z.
Proof. unfold to_guint32. apply Z.mod_pos_bound. lia. Qed.

Lemma length_file_bytes f p n : length (file_bytes f p n) = n.
Proof. unfold file_bytes. now rewrite length_map, length_seq. Qed.

Lemma wtap_read_bytes_or_eof_length f n bs f' :
  0 <= n -> wtap_read_bytes_or_eof f n = (inr bs, f') -> Z.of_nat (length bs) = n.
Proof.
  unfold wtap_read_bytes_or_eof. intros Hn.
  destruct (n <=? _); [|discriminate]. intros [= <- <-].
  rewrite length_file_bytes. lia.
Qed.

Lemma length_memcpy_from data off n : 0 <= n -> Z.of_nat (length (memcpy_from data off n)) = n.
Proof.
  intros Hn. unfold memcpy_from. rewrite length_firstn, length_app, repeat_length. lia.
Qed.

Lemma read_bytes_none_spec n : forall cur sib count copied acc s,
  let r := read_bytes_none n cur sib count copied acc s in
  read_frame s (snd r)
  /\ (forall bs, fst r = Some bs ->
        err (snd r) = err s
        /\ Z.of_nat (length bs) = Z.of_nat (length acc) + to_guint32 (count - copied)).
Proof.
  induction n as [|n IH]; intros cur sib count copied acc s; cbn [read_bytes_none].
  - split; [apply read_frame_refl|discriminate].
  - unfold fail_with, bind, modify, ret.
    destruct (blf_get_logcontainer_by_index _ _) as [c|];
      [|split; [apply read_frame_set_err|discriminate]].
    destruct (file_seek _ _) as [fh1|] eqn:Eseek;
      [|split; [apply read_frame_set_err|discriminate]].
    apply same_file_seek in Eseek.
    set (dl := to_guint32 (to_guint64 (real_length c - sib))).
    destruct (Z.ltb_spec dl (to_guint32 (count - copied))) as [Hlt|Hge].
    + pose proof (same_file_read fh1 dl) as Hsf.
      destruct (wtap_read_bytes_or_eof fh1 dl) as [[e|bs] fh2] eqn:Erd; cbn [snd] in Hsf.
      * split; [|discriminate]. cbn [snd].
        eapply read_frame_trans; [|apply read_frame_set_err].
        apply read_frame_set_fh. eapply same_file_trans; eauto.
      * specialize (IH (cur + 1) 0 count (to_guint32 (copied + dl)) (acc ++ bs) (set_fh fh2 s)).
        cbv zeta in IH. destruct IH as [IHf IHl].
        split.
        -- eapply read_frame_trans; [|exact IHf].
           apply read_frame_set_fh. eapply same_file_trans; eauto.
        -- intros bs' Hbs'. destruct (IHl bs' Hbs') as [He Hlen].
           split; [exact He|].
           rewrite Hlen, length_app, Nat2Z.inj_add.
           apply wtap_read_bytes_or_eof_length in Erd; [|apply to_guint32_nonneg].
           rewrite to_guint32_sub_wrap; [lia|].
           split; [apply to_guint32_nonneg|exact Hlt].
    + pose proof (same_file_read fh1 (to_guint32 (count - copied))) as Hsf.
      destruct (wtap_read_bytes_or_eof fh1 _) as [[e|bs] fh2] eqn:Erd; cbn [snd] in Hsf.
      * split; [|discriminate]. cbn [snd].
        eapply read_frame_trans; [|apply read_frame_set_err].
        apply read_frame_set_fh. eapply same_file_trans; eauto.
      * cbn [fst snd]. split.
        -- apply read_frame_set_fh. eapply same_file_trans; eauto.
        -- intros bs' [= <-]. split; [reflexivity|].
           rewrite length_app, Nat2Z.inj_add.
           apply wtap_read_bytes_or_eof_length in Erd; [lia|apply to_guint32_nonneg].
Qed.

Lemma read_bytes_zlib_spec n : forall cur sib count copied acc s,
  let r := read_bytes_zlib n cur sib count copied acc s in
  read_frame s (snd r)
  /\ (forall bs, fst r = Some bs ->
        err (snd r) = err s
        /\ Z.of_nat (length bs) = Z.of_nat (length acc) + to_guint32 (count - copied)).
Proof.
  induction n as [|n IH]; intros cur sib count copied acc s; cbn [read_bytes_zlib].
  - unfold fail_with, bind, modify, ret. split; [apply read_frame_set_err|discriminate].
  - unfold fail_with, bind, modify, ret.
    pose proof (pull_frame cur s) as Hp. cbv zeta in Hp.
    destruct (blf_pull_logcontainer_into_memory cur s) as [pulled s1].
    cbn [fst snd] in Hp. destruct Hp as [Hpf Hpe].
    destruct pulled; cbn [negb]; [|split; [exact Hpf|discriminate]].
    specialize (Hpe eq_refl).
    destruct (blf_get_logcontainer_by_index _ _) as [c|];
      [|split; [eapply read_frame_trans; [exact Hpf|apply read_frame_set_err]|discriminate]].
    destruct (real_data c) as [data|];
      [|split; [eapply read_frame_trans; [exact Hpf|apply read_frame_set_err]|discriminate]].
    set (dl := to_guint32 (to_guint64 (real_length c - sib))).
    destruct (Z.ltb_spec dl (to_guint32 (count - copied))) as [Hlt|Hge].
    + specialize (IH (cur + 1) 0 count (to_guint32 (copied + dl))
                     (acc ++ memcpy_from data sib dl) s1).
      cbv zeta in IH. destruct IH as [IHf IHl].
      split; [eapply read_frame_trans; eauto|].
      intros bs' Hbs'. destruct (IHl bs' Hbs') as [He Hlen].
      split; [congruence|].
      rewrite Hlen, length_app, Nat2Z.inj_add, length_memcpy_from by apply to_guint32_nonneg.
      rewrite to_guint32_sub_wrap; [lia|].
      split; [apply to_guint32_nonneg|exact Hlt].
    + cbn [fst snd]. split; [exact Hpf|].
      intros bs' [= <-]. split; [exact Hpe|].
      rewrite length_app, Nat2Z.inj_add, length_memcpy_from by apply to_guint32_nonneg. lia.
Qed.

Lemma to_guint32_idem z : to_guint32 (to_guint32 z) = to_guint32 z.
Proof. unfold to_guint32. apply Z.mod_mod. lia. Qed.

Lemma blf_read_bytes_or_eof_spec real_pos count s :
  let r := blf_read_bytes_or_eof real_pos count s in
  read_frame s (snd r)
  /\ (forall bs, fst r = Some bs ->
        err (snd r) = err s /\ Z.of_nat (length bs) = to_guint32 count).
Proof.
  cbv zeta. unfold blf_read_bytes_or_eof, fail_with, bind, modify, ret.
  destruct (blf_find_logcontainer_for_address _ _) as [[sc si]|];
    [|split; [apply read_frame_refl|discriminate]].
  destruct (blf_find_logcontainer_for_address _ _) as [[ec ei]|];
    [|split; [apply read_frame_refl|discriminate]].
  destruct (compression_method sc =? BLF_COMPRESSION_NONE).
  - match goal with |- context [read_bytes_none ?n ?a ?b ?c ?d ?e ?f] =>
      pose proof (read_bytes_none_spec n a b c d e f) as H end.
    cbv zeta in H. destruct H as [Hf Hl]. split; [exact Hf|].
    intros bs Hbs. destruct (Hl bs Hbs) as [He Hlen]. split; [exact He|].
    rewrite Hlen. cbn [length]. rewrite Z.sub_0_r, to_guint32_idem. reflexivity.
  - destruct (compression_method sc =? BLF_COMPRESSION_ZLIB).
    + match goal with |- context [read_bytes_zlib ?n ?a ?b ?c ?d ?e ?f] =>
        pose proof (read_bytes_zlib_spec n a b c d e f) as H end.
      cbv zeta in H. destruct H as [Hf Hl]. split; [exact Hf|].
      intros bs Hbs. destruct (Hl bs Hbs) as [He Hlen]. split; [exact He|].
      rewrite Hlen. cbn [length]. rewrite Z.sub_0_r, to_guint32_idem. reflexivity.
    + split; [apply read_frame_set_err|discriminate].
Qed.

Lemma blf_read_bytes_spec real_pos count s :
  let r := blf_read_bytes real_pos count s in
  read_frame s (snd r)
  /\ (forall bs, fst r = Some bs ->
        err (snd r) = err s /\ Z.of_nat (length bs) = to_guint32 count).
Proof.
  cbv zeta. unfold blf_read_bytes.
  pose proof (blf_read_bytes_or_eof_spec real_pos count s) as H. cbv zeta in H.
  destruct (blf_read_bytes_or_eof real_pos count s) as [[bs|] s1]; cbn [fst snd] in *.
  - exact H.
  - destruct H as [Hf _].
    destruct (wtap_err_eqb (err s1) NO_ERROR); cbn [fst snd];
      (split; [|discriminate]); [|exact Hf].
    eapply read_frame_trans; [exact Hf|apply read_frame_set_err].
Qed.

(** ** Reads depend on the file, the container index and [*err] only *)

Lemma io_eq_with_io s' t : io_eq s' (with_io s' t).
Proof. repeat split. Qed.

Lemma with_io_with_io s2 s1 t : with_io s2 (with_io s1 t) = with_io s2 t.
Proof. reflexivity. Qed.

Lemma with_io_self s t : io_eq s t -> with_io s t = t.
Proof.
  destruct s as [w r b f d e], t as [w' r' b' f' d' e'].
  destruct d as [x1 x2 x3 x4 x5 x6 x7], d' as [y1 y2 y3 y4 y5 y6 y7].
  unfold io_eq, with_io; cbn. intros (-> & -> & ->). reflexivity.
Qed.

Ltac split_io s t H :=
  destruct s as [?w ?r ?b ?f ?d ?e], t as [?w ?r ?b ?f ?d ?e];
  match goal with
  | H : io_eq (mkParams _ _ _ _ ?d1 _) (mkParams _ _ _ _ ?d2 _) |- _ =>
    destruct d1 as [?x1 ?x2 ?x3 ?x4 ?x5 ?x6 ?x7], d2 as [?x1 ?x2 ?x3 ?x4 ?x5 ?x6 ?x7];
    unfold io_eq in H; cbn in H; destruct H as (-> & -> & ->)
  end.

Lemma pull_congr i s t :
  io_eq s t ->
  blf_pull_logcontainer_into_memory i t
  = (fst (blf_pull_logcontainer_into_memory i s),
     with_io (snd (blf_pull_logcontainer_into_memory i s)) t).
Proof.
  intros H. split_io s t H.
  unfold blf_pull_logcontainer_into_memory, fail_with, bind, modify, ret, with_io.
  cbn [blf_data log_containers fh err current_log_container wth rec buf set_fh set_err
       set_blf_data set_log_containers].
  repeat match goal with
  | |- context [if ?b then _ else _] => destruct b eqn:?
  | |- context [match nth_error ?l ?n with _ => _ end] => destruct (nth_error l n) eqn:?
  | |- context [match real_data ?c with _ => _ end] => destruct (real_data c) eqn:?
  | |- context [match file_seek ?f ?o with _ => _ end] => destruct (file_seek f o) eqn:?
  | |- context [match wtap_read_bytes_or_eof ?f ?n with _ => _ end] =>
      destruct (wtap_read_bytes_or_eof f n) as [[?|?] ?] eqn:?
  | |- context [let (_, _) := inflate ?a ?b in _] => destruct (inflate a b) eqn:?
  end; reflexivity.
Qed.

Lemma with_io_set_err e s t : io_eq s t -> with_io (set_err e s) t = set_err e t.
Proof. intros H. split_io s t H. reflexivity. Qed.

Lemma with_io_set_fh f s t : io_eq s t -> with_io (set_fh f s) t = set_fh f t.
Proof. intros H. split_io s t H. reflexivity. Qed.

Lemma with_io_set_err_fh e f s t :
  io_eq s t -> with_io (set_err e (set_fh f s)) t = set_err e (set_fh f t).
Proof. intros H. split_io s t H. reflexivity. Qed.

Lemma io_eq_set_fh f s t : io_eq s t -> io_eq (set_fh f s) (set_fh f t).
Proof. intros (H1 & H2 & H3). repeat split; assumption. Qed.

Lemma read_bytes_none_congr n : forall cur sib count copied acc s t,
  io_eq s t ->
  read_bytes_none n cur sib count copied acc t
  = (fst (read_bytes_none n cur sib count copied acc s),
     with_io (snd (read_bytes_none n cur sib count copied acc s)) t).
Proof.
  induction n as [|n IH]; intros cur sib count copied acc s t H.
  - cbn. now rewrite with_io_self.
  - cbn [read_bytes_none].
    assert (Hget : blf_get_logcontainer_by_index (blf_data t) cur
                   = blf_get_logcontainer_by_index (blf_data s) cur).
    { unfold blf_get_logcontainer_by_index. destruct H as (_ & -> & _). reflexivity. }
    rewrite Hget. clear Hget.
    assert (Hfh : fh t = fh s) by (symmetry; apply H).
    rewrite Hfh. clear Hfh.
    cbv [fail_with bind modify ret]; cbv beta iota.
    destruct (blf_get_logcontainer_by_index _ _) as [c|];
      [|cbn [fst snd]; now rewrite with_io_set_err].
    destruct (file_seek _ _) as [fh1|];
      [|cbn [fst snd]; now rewrite with_io_set_err].
    match goal with |- context [if ?b then _ else _] => destruct b end.
    + destruct (wtap_read_bytes_or_eof fh1 _) as [[e|bs] fh2].
      * cbn [fst snd]. now rewrite with_io_set_err_fh.
      * rewrite (IH _ _ _ _ _ (set_fh fh2 s) (set_fh fh2 t)) by now apply io_eq_set_fh.
        reflexivity.
    + destruct (wtap_read_bytes_or_eof fh1 _) as [[e|bs] fh2]; cbn [fst snd].
      * now rewrite with_io_set_err_fh.
      * now rewrite with_io_set_fh.
Qed.

Lemma read_bytes_zlib_congr n : forall cur sib count copied acc s t,
  io_eq s t ->
  read_bytes_zlib n cur sib count copied acc t
  = (fst (read_bytes_zlib n cur sib count copied acc s),
     with_io (snd (read_bytes_zlib n cur sib count copied acc s)) t).
Proof.
  induction n as [|n IH]; intros cur sib count copied acc s t H.
  - cbn. cbv [fail_with bind modify ret]; cbv beta iota; cbn [fst snd].
    now rewrite with_io_set_err.
  - cbn [read_bytes_zlib].
    rewrite (pull_congr cur s t H).
    destruct (blf_pull_logcontainer_into_memory cur s) as [pulled s1]. cbn [fst snd].
    destruct pulled; cbn [negb]; [|reflexivity].
    assert (Hget : blf_get_logcontainer_by_index (blf_data (with_io s1 t)) cur
                   = blf_get_logcontainer_by_index (blf_data s1) cur) by reflexivity.
    rewrite Hget. clear Hget.
    cbv [fail_with bind modify ret]; cbv beta iota.
    destruct (blf_get_logcontainer_by_index _ _) as [c|]; [|reflexivity].
    destruct (real_data c) as [data|]; [|reflexivity].
    match goal with |- context [if ?b then _ else _] => destruct b end; [|reflexivity].
    rewrite (IH _ _ _ _ _ s1 (with_io s1 t)) by apply io_eq_with_io.
    reflexivity.
Qed.

Lemma blf_read_bytes_or_eof_congr real_pos count s t :
  io_eq s t ->
  blf_read_bytes_or_eof real_pos count t
  = (fst (blf_read_bytes_or_eof real_pos count s),
     with_io (snd (blf_read_bytes_or_eof real_pos count s)) t).
Proof.
  intros H. unfold blf_read_bytes_or_eof, blf_find_logcontainer_for_address.
  assert (Hcs : log_containers (blf_data t) = log_containers (blf_data s))
    by (symmetry; apply H).
  rewrite Hcs. clear Hcs.
  destruct (find_logcontainer_from _ 0 _) as [[sc si]|];
    [|cbn [fst snd]; now rewrite with_io_self].
  destruct (find_logcontainer_from _ 0 _) as [[ec ei]|];
    [|cbn [fst snd]; now rewrite with_io_self].
  destruct (compression_method sc =? BLF_COMPRESSION_NONE).
  - now apply read_bytes_none_congr.
  - destruct (compression_method sc =? BLF_COMPRESSION_ZLIB).
    + now apply read_bytes_zlib_congr.
    + cbv [fail_with bind modify ret]; cbv beta iota; cbn [fst snd].
      now rewrite with_io_set_err.
Qed.

Lemma blf_read_bytes_congr real_pos count s t :
  io_eq s t ->
  blf_read_bytes real_pos count t
  = (fst (blf_read_bytes real_pos count s),
     with_io (snd (blf_read_bytes real_pos count s)) t).
Proof.
  intros H. unfold blf_read_bytes.
  rewrite (blf_read_bytes_or_eof_congr real_pos count s t H).
  destruct (blf_read_bytes_or_eof real_pos count s) as [[bs|] s1]; cbn [fst snd].
  - reflexivity.
  - change (err (with_io s1 t)) with (err s1).
    destruct (wtap_err_eqb (err s1) NO_ERROR); reflexivity.
Qed.

(** ** Reads never store [WTAP_ERR_BAD_FILE] *)

Lemma inflate_error_not_bad_file ret : inflate_error ret <> WTAP_ERR_BAD_FILE.
Proof.
  unfold inflate_error.
  repeat match goal with |- context [if ?b then _ else _] => destruct b end; discriminate.
Qed.

Lemma wtap_read_error_not_bad_file f n e f' :
  wtap_read_bytes_or_eof f n = (inl e, f') -> e <> WTAP_ERR_BAD_FILE.
Proof.
  unfold wtap_read_bytes_or_eof. destruct (n <=? _); [discriminate|].
  intros [= <- _]. destruct (0 <? _); discriminate.
Qed.

Lemma pull_no_bad_file i s : no_bad_file s (snd (blf_pull_logcontainer_into_memory i s)).
Proof.
  unfold no_bad_file, blf_pull_logcontainer_into_memory, fail_with, bind, modify, ret.
  intros H.
  repeat match goal with
  | |- context [if ?b then _ else _] => destruct b eqn:?
  | |- context [match nth_error ?l ?n with _ => _ end] => destruct (nth_error l n) eqn:?
  | |- context [match real_data ?c with _ => _ end] => destruct (real_data c) eqn:?
  | |- context [match file_seek ?f ?o with _ => _ end] => destruct (file_seek f o) eqn:?
  | |- context [match wtap_read_bytes_or_eof ?f ?n with _ => _ end] =>
      destruct (wtap_read_bytes_or_eof f n) as [[?|?] ?] eqn:?
  | |- context [let (_, _) := inflate ?a ?b in _] => destruct (inflate a b) eqn:?
  end; cbn [snd err set_err set_fh set_blf_data]; try exact H; try discriminate;
  try apply inflate_error_not_bad_file;
  try (eapply wtap_read_error_not_bad_file; eassumption).
Qed.

Lemma read_bytes_none_no_bad_file n : forall cur sib count copied acc s,
  no_bad_file s (snd (read_bytes_none n cur sib count copied acc s)).
Proof.
  induction n as [|n IH]; intros cur sib count copied acc s H; cbn [read_bytes_none].
  - exact H.
  - cbv [fail_with bind modify ret]; cbv beta iota.
    destruct (blf_get_logcontainer_by_index _ _) as [c|]; [|discriminate].
    destruct (file_seek _ _) as [fh1|]; [|discriminate].
    match goal with |- context [if ?b then _ else _] => destruct b end;
      destruct (wtap_read_bytes_or_eof fh1 _) as [[e|bs] fh2] eqn:E; cbn [snd err set_err];
      try (eapply wtap_read_error_not_bad_file; eassumption).
    + apply IH. exact H.
    + exact H.
Qed.

Lemma read_bytes_zlib_no_bad_file n : forall cur sib count copied acc s,
  no_bad_file s (snd (read_bytes_zlib n cur sib count copied acc s)).
Proof.
  induction n as [|n IH]; intros cur sib count copied acc s H; cbn [read_bytes_zlib].
  - discriminate.
  - pose proof (pull_no_bad_file cur s H) as Hp.
    destruct (blf_pull_logcontainer_into_memory cur s) as [pulled s1]. cbn [snd] in Hp.
    cbv [fail_with bind modify ret]; cbv beta iota.
    destruct pulled; cbn [negb]; [|exact Hp].
    destruct (blf_get_logcontainer_by_index _ _) as [c|]; [|discriminate].
    destruct (real_data c); [|discriminate].
    match goal with |- context [if ?b then _ else _] => destruct b end.
    + apply IH. exact Hp.
    + exact Hp.
Qed.

Lemma blf_read_bytes_no_bad_file real_pos count s :
  no_bad_file s (snd (blf_read_bytes real_pos count s)).
Proof.
  intros H. unfold blf_read_bytes.
  assert (H1 : err (snd (blf_read_bytes_or_eof real_pos count s)) <> WTAP_ERR_BAD_FILE).
  { unfold blf_read_bytes_or_eof.
    destruct (blf_find_logcontainer_for_address _ _) as [[sc si]|]; [|exact H].
    destruct (blf_find_logcontainer_for_address _ _) as [[ec ei]|]; [|exact H].
    destruct (_ =? BLF_COMPRESSION_NONE); [now apply read_bytes_none_no_bad_file|].
    destruct (_ =? BLF_COMPRESSION_ZLIB); [now apply read_bytes_zlib_no_bad_file|].
    discriminate. }
  destruct (blf_read_bytes_or_eof real_pos count s) as [[bs|] s1]; cbn [snd] in *;
    [exact H1|].
  destruct (wtap_err_eqb (err s1) NO_ERROR); [discriminate|exact H1].
Qed.

(** ** The record of a packet *)

Lemma blf_lookup_interface_rec pkt_encap channel hwchannel name s :
  rec (snd (blf_lookup_interface pkt_encap channel hwchannel name s)) = rec s
  /\ buf (snd (blf_lookup_interface pkt_encap channel hwchannel name s)) = buf s.
Proof.
  unfold blf_lookup_interface.
  destruct (channel_to_iface_ht (blf_data s)) as [ht|]; [|now split].
  destruct (g_hash_table_lookup ht _); [now split|].
  now split.
Qed.

Lemma blf_init_rec_ts flags raw encap ch hw caplen len s :
  ts (rec (snd (blf_init_rec flags raw encap ch hw caplen len s))) =
  let t := if flags =? BLF_TIMESTAMP_RESOLUTION_10US
           then to_guint64 (to_guint64 (raw * 10000) + start_offset_ns (blf_data s))
           else if flags =? BLF_TIMESTAMP_RESOLUTION_1NS
           then to_guint64 (raw + start_offset_ns (blf_data s)) else 0 in
  mkNstime (t / NS_PER_S) (t mod NS_PER_S).
Proof.
  unfold blf_init_rec.
  destruct (flags =? BLF_TIMESTAMP_RESOLUTION_10US);
    [|destruct (flags =? BLF_TIMESTAMP_RESOLUTION_1NS)];
  match goal with |- context [blf_lookup_interface ?a ?b ?c ?d ?e] =>
     destruct (blf_lookup_interface a b c d e) end; reflexivity.
Qed.

Theorem blf_init_rec_timestamp flags raw encap ch hw caplen len s :
  0 <= raw -> 0 <= start_offset_ns (blf_data s) ->
  let r := rec (snd (blf_init_rec flags raw encap ch hw caplen len s)) in
  let off := start_offset_ns (blf_data s) in
  0 <= nsecs (ts r) < 1000000000
  /\ (flags = 1 -> rec_total r = to_guint64 (raw * 10000 + off)
                   /\ (raw * 10000 + off < 2 ^ 64 ->
                       rec_total r = raw * 10000 + off /\ off <= rec_total r))
  /\ (flags = 2 -> rec_total r = to_guint64 (raw + off)
                   /\ (raw + off < 2 ^ 64 -> rec_total r = raw + off /\ off <= rec_total r))
  /\ (flags <> 1 -> flags <> 2 -> rec_total r = 0).
Proof.
  intros Hraw Hoff r off. subst r. unfold rec_total.
  rewrite blf_init_rec_ts. cbv zeta. fold off.
  unfold BLF_TIMESTAMP_RESOLUTION_10US, BLF_TIMESTAMP_RESOLUTION_1NS, NS_PER_S.
  cbn [secs nsecs].
  change (1000 * 1000 * 1000) with 1000000000.
  assert (Hdm : forall t, t / 1000000000 * 1000000000 + t mod 1000000000 = t).
  { intro t. pose proof (Z.div_mod t 1000000000). lia. }
  split; [apply Z.mod_pos_bound; lia|].
  rewrite Hdm.
  split; [|split].
  - intro; subst flags. cbn. unfold to_guint64. rewrite Zplus_mod_idemp_l.
    split; [reflexivity|]. intro Hlt. rewrite Z.mod_small; lia.
  - intro; subst flags. cbn. unfold to_guint64.
    split; [reflexivity|]. intro Hlt. rewrite Z.mod_small; lia.
  - intros H1 H2. destruct (Z.eqb_spec flags 1); [contradiction|].
    destruct (Z.eqb_spec flags 2); [contradiction|]. reflexivity.
Qed.

(** ** Inflation errors *)

Lemma pull_inflate_failure s i tmp compressed_data ret out :
  HAVE_ZLIB = true ->
  pull_reads s i tmp compressed_data ->
  inflateInit compressed_data = Z_OK ->
  inflate compressed_data (to_guint32 (real_length tmp)) = (ret, out) ->
  ret <> Z_STREAM_END ->
  let r := blf_pull_logcontainer_into_memory i s in
  fst r = false
  /\ (ret = Z_NEED_DICT \/ ret = Z_STREAM_ERROR \/ ret = Z_DATA_ERROR ->
      err (snd r) = WTAP_ERR_DECOMPRESS)
  /\ (ret = Z_MEM_ERROR -> err (snd r) = ENOMEM)
  /\ (ret <> Z_NEED_DICT -> ret <> Z_STREAM_ERROR -> ret <> Z_DATA_ERROR ->
      ret <> Z_MEM_ERROR -> err (snd r) = WTAP_ERR_INTERNAL).
Proof.
  intros Hz (Hi & Hnth & Hnone & Hcomp & Hseek & Hstart & Hds & Hoff & Hlen & Hread)
         Hinit Hinf Hret r.
  assert (Hr : r = (false, set_err (inflate_error ret)
                 (set_fh (snd (wtap_read_bytes_or_eof
                     (mkFILE (f_len (fh s)) (f_byte (fh s)) (to_gint64 (infile_data_start tmp)))
                     (to_guint32 (container_data_length tmp))))
                   (set_fh (mkFILE (f_len (fh s)) (f_byte (fh s))
                                   (to_gint64 (infile_data_start tmp))) s)))).
  { subst r. unfold blf_pull_logcontainer_into_memory.
    destruct (Z.leb_spec (Z.of_nat (length (log_containers (blf_data s)))) i); [lia|].
    rewrite Hnth, Hnone, Hcomp, Z.eqb_refl, Hz.
    unfold file_seek.
    destruct (Z.ltb_spec (to_gint64 (infile_data_start tmp)) 0); [lia|].
    destruct (Z.ltb_spec (infile_start_pos tmp) 0); [lia|].
    destruct (Z.ltb_spec (infile_data_start tmp) (to_guint64 (infile_start_pos tmp))); [lia|].
    fold (container_data_offset tmp).
    destruct (Z.ltb_spec (infile_length tmp) (container_data_offset tmp)); [lia|].
    fold (container_data_length tmp).
    destruct (Z.gtb_spec (container_data_length tmp) UINT_MAX); [lia|].
    destruct (wtap_read_bytes_or_eof _ _) as [[e|c] fh2] eqn:E; cbn in Hread; [discriminate|].
    injection Hread as ->.
    rewrite Hinit. cbn [Z.eqb negb Z_OK]. rewrite Hinf.
    destruct (Z.eqb_spec ret Z_STREAM_END); [contradiction|]. reflexivity. }
  rewrite Hr. cbn [fst snd]. unfold set_err at 1 2 3; cbn [err].
  split; [reflexivity|].
  unfold inflate_error.
  split; [|split].
  - intros [-> | [-> | ->]]; reflexivity.
  - intros ->; reflexivity.
  - intros H1 H2 H3 H4.
    destruct (Z.eqb_spec ret Z_NEED_DICT); [contradiction|].
    destruct (Z.eqb_spec ret Z_STREAM_ERROR); [contradiction|].
    destruct (Z.eqb_spec ret Z_MEM_ERROR); [contradiction|].
    destruct (Z.eqb_spec ret Z_DATA_ERROR); [contradiction|].
    destruct (ret =? Z_BUF_ERROR); [reflexivity|].
    destruct (ret =? Z_VERSION_ERROR); reflexivity.
Qed.

Lemma pull_without_zlib s i tmp :
  HAVE_ZLIB = false ->
  0 <= i < Z.of_nat (length (log_containers (blf_data s))) ->
  nth_error (log_containers (blf_data s)) (Z.to_nat i) = Some tmp ->
  real_data tmp = None ->
  compression_method tmp = BLF_COMPRESSION_ZLIB ->
  blf_pull_logcontainer_into_memory i s
  = (false, set_err WTAP_ERR_DECOMPRESSION_NOT_SUPPORTED s).
Proof.
  intros Hz Hi Hnth Hnone Hcomp.
  unfold blf_pull_logcontainer_into_memory.
  destruct (Z.leb_spec (Z.of_nat (length (log_containers (blf_data s)))) i); [lia|].
  now rewrite Hnth, Hnone, Hcomp, Z.eqb_refl, Hz.
Qed.

(** C9: when [inflate] gives a result other than Z_STREAM_END for the data
    of a zlib container, the pull fails, and [*err] is WTAP_ERR_DECOMPRESS
    (Decompress) for Z_NEED_DICT, Z_STREAM_ERROR and Z_DATA_ERROR, ENOMEM
    (OutOfMemory) for Z_MEM_ERROR, and WTAP_ERR_INTERNAL (Internal) for
    every other result, Z_BUF_ERROR and Z_VERSION_ERROR among them; built
    without zlib, the pull of a zlib container fails with
    WTAP_ERR_DECOMPRESSION_NOT_SUPPORTED (Unsupported). *)
Theorem blf_pull_inflate_error_mapping s i tmp :
  0 <= i < Z.of_nat (length (log_containers (blf_data s))) ->
  nth_error (log_containers (blf_data s)) (Z.to_nat i) = Some tmp ->
  real_data tmp = None ->
  compression_method tmp = BLF_COMPRESSION_ZLIB ->
  let r := blf_pull_logcontainer_into_memory i s in
  (HAVE_ZLIB = false ->
   fst r = false /\ err (snd r) = WTAP_ERR_DECOMPRESSION_NOT_SUPPORTED
   /\ kind_of_err (err (snd r)) = Unsupported)
  /\ (HAVE_ZLIB = true ->
      forall compressed_data ret out,
        pull_reads s i tmp compressed_data ->
        inflateInit compressed_data = Z_OK ->
        inflate compressed_data (to_guint32 (real_length tmp)) = (ret, out) ->
        ret <> Z_STREAM_END ->
        fst r = false
        /\ kind_of_err (err (snd r))
           = (if (ret =? Z_NEED_DICT) || (ret =? Z_STREAM_ERROR) || (ret =? Z_DATA_ERROR)
              then Decompress
              else if ret =? Z_MEM_ERROR then OutOfMemory
              else Internal)).
Proof.
  intros Hi Hnth Hnone Hcomp r. split.
  - intros Hz. subst r. rewrite (pull_without_zlib s i tmp Hz Hi Hnth Hnone Hcomp).
    repeat split.
  - intros Hz compressed_data ret out Hreads Hinit Hinf Hret.
    destruct (pull_inflate_failure s i tmp compressed_data ret out Hz Hreads Hinit Hinf Hret)
      as (Hf & Hd & Hm & Ho).
    fold r in Hf, Hd, Hm, Ho.
    split; [exact Hf|].
    destruct (Z.eqb_spec ret Z_NEED_DICT) as [E1|E1]; cbn [orb].
    { rewrite Hd by auto. reflexivity. }
    destruct (Z.eqb_spec ret Z_STREAM_ERROR) as [E2|E2]; cbn [orb].
    { rewrite Hd by auto. reflexivity. }
    destruct (Z.eqb_spec ret Z_DATA_ERROR) as [E3|E3]; cbn [orb].
    { rewrite Hd by auto. reflexivity. }
    destruct (Z.eqb_spec ret Z_MEM_ERROR) as [E4|E4].
    { rewrite Hm by auto. reflexivity. }
    rewrite Ho by auto. reflexivity.
Qed.

(** ** The scan for log containers *)

Lemma wtap_read_inr f n bs f' :
  wtap_read_bytes_or_eof f n = (inr bs, f') ->
  n <= Z.max 0 (f_len f - f_pos f)
  /\ f' = mkFILE (f_len f) (f_byte f) (f_pos f + n)
  /\ bs = file_bytes f (f_pos f) (Z.to_nat n).
Proof.
  unfold wtap_read_bytes_or_eof.
  destruct (Z.leb_spec n (Z.max 0 (f_len f - f_pos f))); [|discriminate].
  intros [= <- <-]. auto.
Qed.

Lemma to_guint64_small z : 0 <= z < 2 ^ 64 -> to_guint64 z = z.
Proof. unfold to_guint64. apply Z.mod_small. Qed.

Lemma to_gint64_small z : - 2 ^ 63 <= z < 2 ^ 63 -> to_gint64 z = z.
Proof. intros H. unfold to_gint64. rewrite Z.mod_small; lia. Qed.

Lemma to_guint16_bounds z : 0 <= to_guint16 z < 2 ^ 16.
Proof. unfold to_guint16. apply Z.mod_pos_bound. lia. Qed.

Lemma to_guint32_bounds z : 0 <= to_guint32 z < 2 ^ 32.
Proof. unfold to_guint32. apply Z.mod_pos_bound. lia. Qed.

Lemma to_guint64_bounds z : 0 <= to_guint64 z < 2 ^ 64.
Proof. unfold to_guint64. apply Z.mod_pos_bound. lia. Qed.

Lemma file_seek_nonneg f off :
  0 <= off -> file_seek f off = Some (mkFILE (f_len f) (f_byte f) off).
Proof. intros H. unfold file_seek. destruct (Z.ltb_spec off 0); [lia|reflexivity]. Qed.

Lemma object_skip_bounds bs :
  let header := fix_endianness_blf_blockheader (unpack_blockheader bs) in
  16 <= object_skip header < 2 ^ 32.
Proof.
  cbv zeta. unfold object_skip, MAX, fix_endianness_blf_blockheader.
  cbn [object_length header_length]. unfold GUINT32_FROM_LE, GUINT16_FROM_LE.
  pose proof (to_guint32_bounds (object_length (unpack_blockheader bs))).
  pose proof (to_guint16_bounds (header_length (unpack_blockheader bs))).
  destruct (Z.gtb_spec 16 (to_guint32 (object_length (unpack_blockheader bs))));
    match goal with |- context [?a >? ?b] => destruct (Z.gtb_spec a b) end; lia.
Qed.

(** What the inner loop finds, with fuel for every byte that is left. *)
Lemma blf_find_object_spec fuel : forall fh0,
  0 <= f_pos fh0 < 2 ^ 63 -> f_len fh0 <= 2 ^ 62 ->
  (Z.to_nat (f_len fh0 - f_pos fh0) < fuel)%nat ->
  exists r, blf_find_object fuel fh0 (f_pos fh0) = Some r
    /\ match r with
       | FO_eof fh1 | FO_seek_failed fh1 => same_file fh0 fh1
       | FO_found csp header fh1 =>
         f_pos fh0 <= csp /\ csp + 16 <= f_len fh0
         /\ fh1 = mkFILE (f_len fh0) (f_byte fh0) (csp + 16)
         /\ exists bs, header = fix_endianness_blf_blockheader (unpack_blockheader bs)
       end.
Proof.
  induction fuel as [|fuel IH]; intros fh0 Hpos Hlen Hfuel; [lia|].
  cbn [blf_find_object].
  destruct (wtap_read_bytes_or_eof fh0 sizeof_blockheader) as [[e|bs] fh1] eqn:Hread.
  - eexists; split; [reflexivity|].
    pose proof (same_file_read fh0 sizeof_blockheader) as H. now rewrite Hread in H.
  - apply wtap_read_inr in Hread. unfold sizeof_blockheader in Hread.
    destruct Hread as (Havail & -> & _).
    destruct (memcmp _ _).
    + rewrite (to_guint64_small (f_pos fh0 + 1)) by lia.
      rewrite (to_gint64_small (f_pos fh0 + 1)) by lia.
      rewrite file_seek_nonneg by lia.
      set (fh2 := mkFILE _ _ (f_pos fh0 + 1)).
      destruct (IH fh2) as (r & Hr & Hspec); subst fh2; cbn [f_pos f_len]; try lia.
      cbn [f_pos] in Hr. exists r. split; [exact Hr|].
      destruct r as [f|f|csp header f]; cbn [f_pos f_len f_byte] in Hspec.
      * destruct Hspec; split; assumption.
      * destruct Hspec; split; assumption.
      * destruct Hspec as (H1 & H2 & H3 & H4). repeat split; try lia; assumption.
    + eexists; split; [reflexivity|]. cbn [f_len f_byte].
      repeat split; try lia. exists bs. reflexivity.
Qed.

Lemma file_sorted_weaken lo lo' cs : lo <= lo' -> file_sorted lo' cs -> file_sorted lo cs.
Proof. destruct cs; cbn; [auto|]. intros H [H1 H2]. split; [lia|exact H2]. Qed.

(** The scan ends with the fuel [scan_fuel] gives it, and the descriptors
    it adds are laid out from the accumulator, in the order of the file. *)
Lemma scan_loop_spec fuel : forall current_real_start s,
  0 <= f_pos (fh s) < 2 ^ 63 -> f_len (fh s) <= 2 ^ 62 ->
  (Z.to_nat (f_len (fh s) - f_pos (fh s)) < fuel)%nat ->
  exists ok s' cs1,
    scan_loop fuel current_real_start s = Some (ok, s')
    /\ log_containers (blf_data s') = log_containers (blf_data s) ++ cs1
    /\ tiles_from current_real_start cs1
    /\ file_sorted (f_pos (fh s)) cs1
    /\ err s' = err s.
Proof.
  induction fuel as [|fuel IH]; intros start s Hpos Hlen Hfuel; [lia|].
  cbn [scan_loop]. unfold file_tell.
  rewrite (to_guint64_small (f_pos (fh s))) by lia.
  destruct (blf_find_object_spec (S fuel) (fh s) Hpos Hlen Hfuel) as (r & Hr & Hspec).
  rewrite Hr. clear Hr.
  assert (Hstop : forall ok f,
             exists ok' s' cs1,
               @Some (bool * blf_params_t) (ok, set_fh f s) = Some (ok', s')
               /\ log_containers (blf_data s') = log_containers (blf_data s) ++ cs1
               /\ tiles_from start cs1
               /\ file_sorted (f_pos (fh s)) cs1
               /\ err s' = err s).
  { intros ok f. exists ok, (set_fh f s), []. rewrite app_nil_r. repeat split. }
  destruct r as [f|f|csp header f]; try apply Hstop.
  destruct Hspec as (Hcsp & Hend & -> & bs & Hhdr).
  pose proof (object_skip_bounds bs) as Hskip. cbv zeta in Hskip. rewrite <- Hhdr in Hskip.
  destruct (negb (header_type header =? BLF_HEADER_TYPE_DEFAULT)); [apply Hstop|].
  rewrite (to_guint64_small (csp + object_skip header)) by lia.
  rewrite (to_gint64_small (csp + object_skip header)) by lia.
  destruct (object_type header =? BLF_OBJTYPE_LOG_CONTAINER).
  - destruct (Z.ltb_spec (header_length header) sizeof_blockheader) as [|Hhl];
      [apply Hstop|].
    unfold sizeof_blockheader in Hhl.
    assert (Hhlb : header_length header < 2 ^ 16).
    { rewrite Hhdr. cbn [fix_endianness_blf_blockheader header_length].
      apply to_guint16_bounds. }
    match goal with |- context [match ?sk with Some _ => _ | None => _ end] =>
      assert (Hsk : sk = Some (mkFILE (f_len (fh s)) (f_byte (fh s))
                                      (csp + header_length header))) end.
    { destruct (Z.gtb_spec (to_guint64 (header_length header - sizeof_blockheader)) 0)
        as [Hgt|Hgt].
      - rewrite (to_guint64_small (csp + header_length header)) by lia.
        rewrite (to_gint64_small (csp + header_length header)) by lia.
        rewrite file_seek_nonneg by lia. reflexivity.
      - unfold sizeof_blockheader in Hgt. rewrite to_guint64_small in Hgt by lia.
        f_equal. f_equal. lia. }
    rewrite Hsk. clear Hsk.
    destruct (wtap_read_bytes_or_eof _ sizeof_logcontainerheader) as [[e|lbs] fh3] eqn:Hread;
      [apply Hstop|].
    apply wtap_read_inr in Hread. cbn [f_len f_pos f_byte] in Hread.
    unfold sizeof_logcontainerheader in Hread. destruct Hread as (Havail & -> & _).
    cbn [f_len f_pos f_byte file_tell].
    rewrite file_seek_nonneg by lia.
    match goal with |- context [scan_loop fuel ?st ?s1] =>
      destruct (IH st s1) as (ok & s' & cs1 & Hrun & Hcs & Htiles & Hsorted & Herr);
        [cbn [fh set_fh set_blf_data f_pos f_len]; lia ..|] end.
    rewrite Hrun.
    match type of Hcs with context [blf_add_logcontainer ?tmp _] =>
      exists ok, s', (tmp :: cs1) end.
    split; [reflexivity|].
    split.
    { rewrite Hcs. cbn [set_blf_data set_fh blf_data blf_add_logcontainer log_containers
                        set_log_containers].
      rewrite <- app_assoc. reflexivity. }
    cbn [fh set_fh set_blf_data f_pos] in Hsorted.
    cbn [tiles_from file_sorted real_start_pos real_length infile_start_pos].
    rewrite (to_gint64_small csp) by lia.
    assert (Hrl : 0 <= lc_uncompressed_size
                         (fix_endianness_blf_logcontainerheader
                            (unpack_logcontainerheader lbs)) < 2 ^ 32).
    { cbn [fix_endianness_blf_logcontainerheader lc_uncompressed_size].
      apply to_guint32_bounds. }
    repeat split; try lia; try assumption.
    + apply (file_sorted_weaken _ (csp + object_skip header)); [lia|exact Hsorted].
  - rewrite file_seek_nonneg by lia.
    match goal with |- context [scan_loop fuel ?st ?s1] =>
      destruct (IH st s1) as (ok & s' & cs1 & Hrun & Hcs & Htiles & Hsorted & Herr);
        [cbn [fh set_fh f_pos f_len]; lia ..|] end.
    rewrite Hrun. exists ok, s', cs1.
    cbn [fh set_fh f_pos blf_data] in *.
    repeat split; try assumption.
    apply (file_sorted_weaken _ (csp + object_skip header)); [lia|exact Hsorted].
Qed.

Lemma tiles_from_exact cs : forall start i c d,
  0 <= start -> start + total_real_length cs < 2 ^ 63 ->
  tiles_from start cs -> adjacent cs i c d ->
  real_start_pos c + real_length c = real_start_pos d
  /\ real_start_pos c <= real_start_pos d.
Proof.
  induction cs as [|c0 cs IH]; intros start i c d Hs Htot Ht [Hc Hd].
  - destruct i; discriminate.
  - cbn [tiles_from] in Ht. destruct Ht as (Hstart & Hlen & Ht).
    unfold total_real_length in Htot. cbn [fold_right] in Htot.
    fold (total_real_length cs) in Htot.
    assert (Hnn : 0 <= total_real_length cs).
    { clear - Ht. revert Ht. generalize (to_guint64 (start + real_length c0)).
      induction cs as [|c1 cs IH]; intros z Ht; [cbn; lia|].
      destruct Ht as (_ & Hl & Ht). specialize (IH _ Ht).
      unfold total_real_length in *. cbn [fold_right]. lia. }
    rewrite (to_guint64_small (start + real_length c0)) in Ht by lia.
    destruct i as [|i].
    + cbn in Hc. injection Hc as <-.
      destruct cs as [|c1 cs']; [discriminate|]. cbn in Hd. injection Hd as <-.
      destruct Ht as (Hstart1 & _ & _).
      rewrite Hstart, Hstart1, !to_gint64_small by lia. lia.
    + apply (IH (start + real_length c0) i c d); try lia; try assumption.
      split; assumption.
Qed.

Lemma file_sorted_adjacent cs : forall lo i c d,
  file_sorted lo cs -> adjacent cs i c d -> infile_start_pos c < infile_start_pos d.
Proof.
  induction cs as [|c0 cs IH]; intros lo i c d Hs [Hc Hd].
  - destruct i; discriminate.
  - destruct Hs as [Hlo Hs]. destruct i as [|i].
    + cbn in Hc. injection Hc as <-.
      destruct cs as [|c1 cs']; [discriminate|]. cbn in Hd. injection Hd as <-.
      destruct Hs as [H1 _]. lia.
    + apply (IH _ i c d Hs). split; assumption.
Qed.

(** C1: the scan of a file shorter than 2^62 bytes ends within the fuel
    [scan_fuel] gives it, and the descriptors it builds start at virtual
    offset 0, follow the accumulator of the scan (a 64-bit unsigned sum
    stored in a signed field), and are in the order of the file; as long
    as the virtual lengths add up to less than 2^63, adjacent descriptors
    tile the virtual space exactly, [Ci.start + Ci.length = Ci+1.start],
    and are in virtual order as well. *)
Theorem blf_scan_tiles_virtual_space s :
  log_containers (blf_data s) = [] ->
  0 <= f_pos (fh s) < 2 ^ 63 -> f_len (fh s) <= 2 ^ 62 ->
  exists ok s',
    scan_loop (scan_fuel (fh s)) 0 s = Some (ok, s')
    /\ blf_scan_file_for_logcontainers s = (ok, s')
    /\ let cs := log_containers (blf_data s') in
       tiles_from 0 cs
       /\ (forall c, nth_error cs 0 = Some c -> real_start_pos c = 0)
       /\ (forall i c d, adjacent cs i c d -> infile_start_pos c < infile_start_pos d)
       /\ (total_real_length cs < 2 ^ 63 ->
           forall i c d, adjacent cs i c d ->
             real_start_pos c + real_length c = real_start_pos d
             /\ real_start_pos c <= real_start_pos d).
Proof.
  intros Hnil Hpos Hlen.
  destruct (scan_loop_spec (scan_fuel (fh s)) 0 s Hpos Hlen)
    as (ok & s' & cs1 & Hrun & Hcs & Htiles & Hsorted & _).
  { unfold scan_fuel. lia. }
  exists ok, s'. split; [exact Hrun|].
  split; [unfold blf_scan_file_for_logcontainers; now rewrite Hrun|].
  rewrite Hnil in Hcs. cbn [app] in Hcs. cbv zeta. rewrite Hcs.
  split; [exact Htiles|].
  split.
  { intros c Hc. destruct cs1 as [|c0 cs]; [discriminate|]. cbn in Hc. injection Hc as <-.
    destruct Htiles as (H & _). rewrite H. reflexivity. }
  split.
  { intros i c d. apply (file_sorted_adjacent cs1 _ i c d Hsorted). }
  intros Htot i c d. apply (tiles_from_exact cs1 0 i c d); [lia|lia|exact Htiles].
Qed.

(** ** Buffers, records and the Ethernet decoders *)

Lemma ws_buffer_append_contents b bs :
  buf_wf b ->
  buf_wf (ws_buffer_append b bs)
  /\ ws_buffer_contents (ws_buffer_append b bs) = ws_buffer_contents b ++ bs.
Proof.
  intros [[H0 H1] H2].
  unfold buf_wf, ws_buffer_append, ws_buffer_contents, write_at; cbn [b_data b_start b_first_free].
  replace (Z.to_nat (b_first_free b) - length (b_data b))%nat with 0%nat by lia.
  cbn [repeat app].
  split.
  - repeat split; try lia.
    rewrite !length_app, length_firstn, length_skipn. lia.
  - set (ff := Z.to_nat (b_first_free b)). set (st := Z.to_nat (b_start b)).
    assert (Hst : (st <= ff)%nat) by (subst st ff; lia).
    assert (Hff : (ff <= length (b_data b))%nat) by (subst ff; lia).
    replace (Z.to_nat (b_first_free b + Z.of_nat (length bs) - b_start b))
      with ((ff - st) + length bs)%nat by (subst st ff; lia).
    replace (Z.to_nat (b_first_free b - b_start b)) with (ff - st)%nat by (subst st ff; lia).
    rewrite skipn_app, length_firstn, Nat.min_l by exact Hff.
    replace (st - ff)%nat with 0%nat by lia. cbn [skipn].
    rewrite app_assoc, firstn_app.
    rewrite length_app, length_skipn, length_firstn, Nat.min_l by exact Hff.
    replace (ff - st + length bs - (ff - st + length bs))%nat with 0%nat by lia.
    cbn [firstn]. rewrite app_nil_r.
    rewrite firstn_all2 by (rewrite length_app, length_skipn, length_firstn; lia).
    f_equal.
    rewrite skipn_firstn_comm. reflexivity.
Qed.

Lemma buffer_fill_end_append bs n s :
  Z.of_nat (length bs) = n ->
  snd (buffer_fill_end bs n s) = set_buf (ws_buffer_append (buf s) bs) s.
Proof. intros <-. reflexivity. Qed.

Lemma hi8_be x : hi8 x = byte.of_Z (x / 256).
Proof.
  unfold hi8. apply byte.unsigned_inj. rewrite !byte.unsigned_of_Z. unfold byte.wrap.
  change 0xff00 with (Z.shiftl (Z.ones 8) 8).
  replace (x / 256) with (Z.shiftr x 8) by (rewrite Z.shiftr_div_pow2 by lia; reflexivity).
  rewrite Z.shiftr_land, Z.shiftr_shiftl_l by lia. cbn [Z.sub Z.shiftl Z.opp Z.pos_sub].
  rewrite Z.shiftl_0_r, Z.land_ones by lia. apply Z.mod_mod. lia.
Qed.

Lemma lo8_be x : lo8 x = byte.of_Z x.
Proof.
  unfold lo8. apply byte.unsigned_inj. rewrite !byte.unsigned_of_Z. unfold byte.wrap.
  change 0x00ff with (Z.ones 8). rewrite Z.land_ones by lia. apply Z.mod_mod. lia.
Qed.

(** What the emission of a record leaves as it was. *)
Lemma blf_lookup_interface_frame pkt_encap channel hwchannel name s :
  let s' := snd (blf_lookup_interface pkt_encap channel hwchannel name s) in
  rec s' = rec s /\ buf s' = buf s /\ fh s' = fh s /\ err s' = err s
  /\ start_of_last_obj (blf_data s') = start_of_last_obj (blf_data s)
  /\ current_real_seek_pos (blf_data s') = current_real_seek_pos (blf_data s)
  /\ start_offset_ns (blf_data s') = start_offset_ns (blf_data s)
  /\ current_log_container (blf_data s') = current_log_container (blf_data s)
  /\ log_containers (blf_data s') = log_containers (blf_data s).
Proof.
  cbv zeta. unfold blf_lookup_interface.
  destruct (channel_to_iface_ht (blf_data s)) as [ht|]; [|repeat split].
  destruct (g_hash_table_lookup ht _); repeat split.
Qed.

Lemma blf_init_rec_frame flags raw encap ch hw caplen len s :
  let s' := snd (blf_init_rec flags raw encap ch hw caplen len s) in
  buf s' = buf s /\ fh s' = fh s /\ err s' = err s
  /\ start_of_last_obj (blf_data s') = start_of_last_obj (blf_data s)
  /\ current_real_seek_pos (blf_data s') = current_real_seek_pos (blf_data s)
  /\ start_offset_ns (blf_data s') = start_offset_ns (blf_data s)
  /\ current_log_container (blf_data s') = current_log_container (blf_data s)
  /\ log_containers (blf_data s') = log_containers (blf_data s).
Proof.
  cbv zeta. unfold blf_init_rec.
  destruct (flags =? BLF_TIMESTAMP_RESOLUTION_10US);
    [|destruct (flags =? BLF_TIMESTAMP_RESOLUTION_1NS)];
  match goal with |- context [blf_lookup_interface ?a ?b ?c ?d ?e] =>
    pose proof (blf_lookup_interface_frame a b c d e) as H;
    destruct (blf_lookup_interface a b c d e) as [id s1] end;
  cbv zeta in H; cbn [snd] in *; cbn [buf fh err set_rec blf_data] in *; tauto.
Qed.

Lemma blf_init_rec_lengths flags raw encap ch hw caplen len s :
  let r := rec (snd (blf_init_rec flags raw encap ch hw caplen len s)) in
  rec_type r = REC_TYPE_PACKET /\ rec_caplen r = to_guint32 caplen
  /\ rec_len r = to_guint32 len /\ pkt_encap r = encap /\ block r = [].
Proof.
  cbv zeta. unfold blf_init_rec.
  destruct (flags =? BLF_TIMESTAMP_RESOLUTION_10US);
    [|destruct (flags =? BLF_TIMESTAMP_RESOLUTION_1NS)];
  match goal with |- context [blf_lookup_interface ?a ?b ?c ?d ?e] =>
     destruct (blf_lookup_interface a b c d e) end; repeat split.
Qed.

Lemma to_guint16_range z : 0 <= to_guint16 z < 2 ^ 16.
Proof. unfold to_guint16. apply Z.mod_pos_bound. lia. Qed.

Lemma to_guint32_small z : 0 <= z < 2 ^ 32 -> to_guint32 z = z.
Proof. unfold to_guint32. apply Z.mod_small. Qed.

(** The run of [blf_read_ethernetframe] once the header is read: the
    outcome is that of the read of the payload. *)
Lemma blf_read_ethernetframe_run block_start data_start object_length flags ts s hdr s1 :
  header_too_long block_start data_start object_length sizeof_ethernetframeheader = false ->
  blf_read_bytes data_start sizeof_ethernetframeheader s = (Some hdr, s1) ->
  let h := fix_endianness_blf_ethernetframeheader (unpack_ethernetframeheader hdr) in
  let r := blf_read_ethernetframe block_start data_start object_length flags ts s in
  let rd := blf_read_bytes (data_start + sizeof_ethernetframeheader) (eth_payloadlength h) s1 in
  match fst rd with
  | None => fst r = false /\ err (snd r) = err (snd rd)
  | Some payload =>
    fst r = true
    /\ err (snd r) = err s
    /\ Z.of_nat (length payload) = eth_payloadlength h
    /\ (buf_wf (buf s) ->
        ws_buffer_contents (buf (snd r))
        = ws_buffer_contents (buf s) ++ canonical_ethernet_frame h payload)
    /\ rec_caplen (rec (snd r)) = (if eth_vlan h then 18 else 14) + eth_payloadlength h
    /\ rec_len (rec (snd r)) = (if eth_vlan h then 18 else 14) + eth_payloadlength h
    /\ pkt_encap (rec (snd r)) = WTAP_ENCAP_ETHERNET
  end.
Proof.
  intros Hlong Hhdr h r rd. subst r rd.
  unfold blf_read_ethernetframe. rewrite Hlong, Hhdr.
  pose proof (blf_read_bytes_spec data_start sizeof_ethernetframeheader s) as Hrd.
  cbv zeta in Hrd. rewrite Hhdr in Hrd. cbn [fst snd] in Hrd.
  destruct Hrd as [(_ & _ & Hbuf1 & _) Herr1]. specialize (Herr1 hdr eq_refl).
  destruct Herr1 as [Herr1 _].
  fold h. fold (eth_vlan h).
  remember (if eth_vlan h
            then (array_bytes 6 (eth_dst_addr h) ++ array_bytes 6 (eth_src_addr h))
                 ++ [hi8 (eth_tpid h); lo8 (eth_tpid h); hi8 (eth_tci h); lo8 (eth_tci h);
                     hi8 (eth_ethtype h); lo8 (eth_ethtype h)]
            else (array_bytes 6 (eth_dst_addr h) ++ array_bytes 6 (eth_src_addr h))
                 ++ [hi8 (eth_ethtype h); lo8 (eth_ethtype h)]) as tmpbuf.
  remember (if eth_vlan h then to_guint32 (18 + eth_payloadlength h)
            else to_guint32 (14 + eth_payloadlength h)) as caplen.
  remember (set_buf (ws_buffer_append (buf s1) tmpbuf) s1) as s2.
  assert (Hio : io_eq s1 s2) by (subst s2; repeat split).
  rewrite (blf_read_bytes_congr _ _ s1 s2 Hio).
  pose proof (blf_read_bytes_spec (data_start + sizeof_ethernetframeheader)
                                  (eth_payloadlength h) s1) as Hrd2.
  cbv zeta in Hrd2.
  destruct (blf_read_bytes (data_start + sizeof_ethernetframeheader)
                           (eth_payloadlength h) s1) as [[payload|] s3];
    cbn [fst snd] in *; [|split; reflexivity].
  destruct Hrd2 as [_ Hlen]. destruct (Hlen payload eq_refl) as [Herr3 Hlen']. clear Hlen.
  assert (Hpl : 0 <= eth_payloadlength h < 2 ^ 16) by (subst h; apply to_guint16_range).
  rewrite to_guint32_small in Hlen' by lia.
  cbv [bind ret]; cbv beta iota.
  rewrite (surjective_pairing (buffer_fill_end _ _ _)).
  rewrite buffer_fill_end_append by exact Hlen'.
  match goal with |- context [blf_init_rec ?a ?b ?c ?d ?e ?f ?g ?st] =>
    pose proof (blf_init_rec_frame a b c d e f g st) as Hfr;
    pose proof (blf_init_rec_lengths a b c d e f g st) as Hrl;
    destruct (blf_init_rec a b c d e f g st) as [[] s5] end.
  cbv zeta in Hfr, Hrl. cbn [snd] in Hfr, Hrl.
  destruct Hfr as (Hb5 & _ & He5 & _). destruct Hrl as (_ & Hcl & Hl & Henc & _).
  cbn [fst snd blf_add_direction_option wtap_block_add_uint32_option modify_rec modify
       buf rec err set_rec rec_caplen rec_len pkt_encap].
  rewrite Hb5, Hcl, Hl, Henc, He5.
  cbn [buf err set_buf with_io].
  assert (Hcap : to_guint32 caplen = (if eth_vlan h then 18 else 14) + eth_payloadlength h).
  { subst caplen. destruct (eth_vlan h); rewrite !to_guint32_small; try reflexivity;
      rewrite ?to_guint32_small; lia. }
  rewrite Hcap.
  split; [reflexivity|]. split; [congruence|]. split; [exact Hlen'|].
  split; [|repeat split].
  intros Hwf.
  destruct (ws_buffer_append_contents (buf s1) tmpbuf) as [Hwf2 Hc2];
    [rewrite Hbuf1; exact Hwf|].
  subst s2. cbn [buf set_buf].
  destruct (ws_buffer_append_contents (ws_buffer_append (buf s1) tmpbuf) payload Hwf2)
    as [_ Hc3].
  rewrite Hc3, Hc2, Hbuf1, <- app_assoc. f_equal.
  unfold canonical_ethernet_frame. fold (eth_vlan h). subst tmpbuf.
  unfold be16. rewrite <- !hi8_be, <- !lo8_be.
  destruct (eth_vlan h); rewrite <- ?app_assoc; reflexivity.
Qed.


(** C10: once its header is read, the ETHERNET_FRAME decoder does what the
    read of [payloadlength] bytes at [data_start + sizeof(header)] does,
    whatever [object_length] is: it never sets WTAP_ERR_BAD_FILE, it emits
    the frame with the bytes the stream has there, or fails with the error
    of that read.  The ETHERNET_FRAME_EX decoder, in contrast, fails with
    WTAP_ERR_BAD_FILE when the frame length exceeds the bytes that remain
    in the object. *)
Theorem blf_read_ethernetframe_unchecked block_start data_start object_length flags ts s :
  (forall hdr s1,
     header_too_long block_start data_start object_length sizeof_ethernetframeheader = false ->
     blf_read_bytes data_start sizeof_ethernetframeheader s = (Some hdr, s1) ->
     let h := fix_endianness_blf_ethernetframeheader (unpack_ethernetframeheader hdr) in
     let r := blf_read_ethernetframe block_start data_start object_length flags ts s in
     let rd :=
       blf_read_bytes (data_start + sizeof_ethernetframeheader) (eth_payloadlength h) s1 in
     (err s <> WTAP_ERR_BAD_FILE -> err (snd r) <> WTAP_ERR_BAD_FILE)
     /\ match fst rd with
        | Some payload =>
          fst r = true
          /\ Z.of_nat (length payload) = eth_payloadlength h
          /\ (buf_wf (buf s) ->
              ws_buffer_contents (buf (snd r))
              = ws_buffer_contents (buf s) ++ canonical_ethernet_frame h payload)
        | None => fst r = false /\ err (snd r) = err (snd rd)
        end)
  /\ (forall hdr s1,
        header_too_long block_start data_start object_length sizeof_ethernetframeheader_ex
        = false ->
        blf_read_bytes data_start sizeof_ethernetframeheader_ex s = (Some hdr, s1) ->
        let h := fix_endianness_blf_ethernetframeheader_ex
                   (unpack_ethernetframeheader_ex hdr) in
        to_guint64 (to_gint64 (object_length - to_gint64 (data_start - block_start))
                    - sizeof_ethernetframeheader_ex) < ethex_frame_length h ->
        blf_read_ethernetframe_ext block_start data_start object_length flags ts s
        = (false, set_err WTAP_ERR_BAD_FILE s1)).
Proof.
  split.
  - intros hdr s1 Hlong Hhdr h r rd.
    pose proof (blf_read_ethernetframe_run _ _ _ flags ts _ _ _ Hlong Hhdr) as Hrun.
    cbv zeta in Hrun. fold h r rd in Hrun.
    pose proof (blf_read_bytes_spec data_start sizeof_ethernetframeheader s) as Hs1.
    cbv zeta in Hs1. rewrite Hhdr in Hs1. cbn [fst snd] in Hs1.
    destruct Hs1 as [_ Hs1]. destruct (Hs1 hdr eq_refl) as [He1 _].
    pose proof (blf_read_bytes_no_bad_file (data_start + sizeof_ethernetframeheader)
                                           (eth_payloadlength h) s1) as Hnb.
    fold rd in Hnb. unfold no_bad_file in Hnb. rewrite He1 in Hnb.
    destruct (fst rd) as [payload|].
    + destruct Hrun as (Hf & He & Hlen & Hc & _).
      split; [intros Hs; now rewrite He|]. auto.
    + destruct Hrun as (Hf & He). split; [intros Hs; rewrite He; auto|auto].
  - intros hdr s1 Hlong Hhdr h Hshort.
    unfold blf_read_ethernetframe_ext. rewrite Hlong, Hhdr. fold h.
    destruct (Z.ltb_spec (to_guint64 (to_gint64 (object_length
                 - to_gint64 (data_start - block_start))
                 - sizeof_ethernetframeheader_ex)) (ethex_frame_length h)); [|lia].
    reflexivity.
Qed.




(** ** The frame of the decoders *)

Lemma decoder_frame_refl s : decoder_frame s s.
Proof. repeat split. Qed.

Lemma decoder_frame_trans s1 s2 s3 :
  decoder_frame s1 s2 -> decoder_frame s2 s3 -> decoder_frame s1 s3.
Proof.
  intros ((A1 & A2) & A3 & A4 & A5 & A6 & A7) ((B1 & B2) & B3 & B4 & B5 & B6 & B7).
  repeat split; congruence.
Qed.

Lemma read_frame_decoder_frame s s' : read_frame s s' -> decoder_frame s s'.
Proof.
  intros (_ & _ & _ & Hf & H1 & H2 & H3 & H4 & _ & _ & H7). repeat split; try assumption;
    apply Hf.
Qed.

Lemma keeps_ret {A : Type} (a : A) : keeps (ret a).
Proof. intros s. apply decoder_frame_refl. Qed.

Lemma keeps_bind {A B : Type} (m : M A) (k : A -> M B) :
  keeps m -> (forall a, keeps (k a)) -> keeps (bind m k).
Proof.
  intros Hm Hk s. unfold bind. specialize (Hm s).
  destruct (m s) as [a s1]. apply (decoder_frame_trans _ _ _ Hm (Hk a s1)).
Qed.

Lemma keeps_fail_with {A : Type} e (a : A) : keeps (fail_with e a).
Proof. intros s. repeat split. Qed.

Lemma keeps_modify_buf f : keeps (modify_buf f).
Proof. intros s. repeat split. Qed.

Lemma keeps_modify_rec f : keeps (modify_rec f).
Proof. intros s. repeat split. Qed.

Lemma keeps_buffer_fill_end bs n : keeps (buffer_fill_end bs n).
Proof. apply keeps_modify_buf. Qed.

Lemma keeps_buffer_fill_start bs : keeps (buffer_fill_start bs).
Proof. apply keeps_modify_buf. Qed.

Lemma keeps_buffer_append bs : keeps (buffer_append bs).
Proof. apply keeps_modify_buf. Qed.

Lemma keeps_add_uint32_option o : keeps (wtap_block_add_uint32_option o).
Proof. apply keeps_modify_rec. Qed.

Lemma keeps_add_direction_option d : keeps (blf_add_direction_option d).
Proof. apply keeps_modify_rec. Qed.

Lemma keeps_blf_read_bytes pos count : keeps (blf_read_bytes pos count).
Proof.
  intros s. apply read_frame_decoder_frame.
  pose proof (blf_read_bytes_spec pos count s) as H. cbv zeta in H. apply H.
Qed.

Lemma keeps_blf_read_bytes_or_eof pos count : keeps (blf_read_bytes_or_eof pos count).
Proof.
  intros s. apply read_frame_decoder_frame.
  pose proof (blf_read_bytes_or_eof_spec pos count s) as H. cbv zeta in H. apply H.
Qed.

Lemma keeps_blf_lookup_interface e c h n : keeps (blf_lookup_interface e c h n).
Proof.
  intros s. pose proof (blf_lookup_interface_frame e c h n s) as H. cbv zeta in H.
  destruct H as (_ & _ & Hf & _ & H1 & H2 & H3 & H4 & H5).
  repeat split; try assumption; now rewrite ?Hf, ?H5.
Qed.

Lemma keeps_blf_init_rec flags raw encap ch hw caplen len :
  keeps (blf_init_rec flags raw encap ch hw caplen len).
Proof.
  intros s. pose proof (blf_init_rec_frame flags raw encap ch hw caplen len s) as H.
  cbv zeta in H. destruct H as (_ & Hf & _ & H1 & H2 & H3 & H4 & H5).
  repeat split; try assumption; now rewrite ?Hf, ?H5.
Qed.

Lemma decoder_frame_set_buf b s s' : decoder_frame s s' -> decoder_frame (set_buf b s) s'.
Proof. exact (fun H => H). Qed.

Lemma decoder_frame_set_err e s s' : decoder_frame s s' -> decoder_frame (set_err e s) s'.
Proof. exact (fun H => H). Qed.

Create HintDb frame.
#[local] Hint Resolve keeps_ret keeps_fail_with keeps_modify_buf keeps_modify_rec
  keeps_buffer_fill_end keeps_buffer_fill_start keeps_buffer_append
  keeps_add_uint32_option keeps_add_direction_option keeps_blf_read_bytes
  keeps_blf_read_bytes_or_eof keeps_blf_lookup_interface keeps_blf_init_rec : frame.

(** One step through the body of a decoder: a test is split, a call is
    replaced by its result with the frame it keeps. *)
Ltac keeps_tac :=
  lazymatch goal with
  | |- keeps (bind _ _) => apply keeps_bind; [keeps_tac | intros ?; keeps_tac]
  | |- keeps (match ?x with _ => _ end) => destruct x; keeps_tac
  | |- keeps (if ?b then _ else _) => destruct b; keeps_tac
  | _ => solve [auto with frame]
  end.

Ltac frame_call m s1 :=
  let H := fresh "Hframe" in
  assert (H : decoder_frame s1 (snd (m s1)))
    by (let K := fresh in assert (K : keeps m) by keeps_tac; exact (K s1));
  let r := fresh "r" in
  let s2 := fresh "s" in
  destruct (m s1) as [r s2]; cbn [snd] in H.

Ltac frame_step :=
  lazymatch goal with
  | |- decoder_frame _ (snd (if ?b then _ else _)) => destruct b
  | |- decoder_frame _ (snd (match ?x with _ => _ end)) =>
    lazymatch x with
    | ?m ?s1 =>
      lazymatch type of s1 with
      | blf_params_t => frame_call m s1
      | _ => destruct x
      end
    | _ => destruct x
    end
  | |- decoder_frame _ (snd (?m ?s1)) =>
    lazymatch type of s1 with
    | blf_params_t => frame_call m s1
    end
  end.

Ltac frame_done :=
  cbn [snd];
  repeat match goal with
         | H : decoder_frame _ _ |- _ => revert H
         end;
  unfold decoder_frame, same_file;
  cbn [fh blf_data set_buf set_rec set_err];
  repeat (match goal with
          | |- context [if ?b then _ else _] => destruct b
          end; cbn [fh blf_data set_buf set_rec set_err]);
  intros; intuition congruence.

Ltac frame_tac := intros ?s; cbv beta zeta; repeat (frame_step; cbv beta zeta); frame_done.

Lemma keeps_blf_read_ethernetframe bs ds ol flags ts :
  keeps (blf_read_ethernetframe bs ds ol flags ts).
Proof. unfold blf_read_ethernetframe. frame_tac. Qed.

Lemma keeps_blf_read_ethernetframe_ext bs ds ol flags ts :
  keeps (blf_read_ethernetframe_ext bs ds ol flags ts).
Proof. unfold blf_read_ethernetframe_ext. frame_tac. Qed.

Lemma keeps_blf_read_wlanframe bs ds ol flags ts :
  keeps (blf_read_wlanframe bs ds ol flags ts).
Proof. unfold blf_read_wlanframe. frame_tac. Qed.

Lemma keeps_blf_can_fill_buf_and_rec canid pl plv start flags ts ch :
  keeps (blf_can_fill_buf_and_rec canid pl plv start flags ts ch).
Proof. unfold blf_can_fill_buf_and_rec. frame_tac. Qed.

#[local] Hint Resolve keeps_blf_can_fill_buf_and_rec : frame.

Lemma keeps_blf_read_canmessage bs ds ol flags ts m2 :
  keeps (blf_read_canmessage bs ds ol flags ts m2).
Proof. unfold blf_read_canmessage. frame_tac. Qed.

Lemma keeps_blf_read_canfdmessage bs ds ol flags ts :
  keeps (blf_read_canfdmessage bs ds ol flags ts).
Proof. unfold blf_read_canfdmessage. frame_tac. Qed.

Lemma keeps_blf_read_canfdmessage64 bs ds ol flags ts :
  keeps (blf_read_canfdmessage64 bs ds ol flags ts).
Proof. unfold blf_read_canfdmessage64. frame_tac. Qed.

Lemma keeps_blf_read_canerror bs ds ol flags ts :
  keeps (blf_read_canerror bs ds ol flags ts).
Proof. unfold blf_read_canerror. frame_tac. Qed.

Lemma keeps_blf_read_canerrorext bs ds ol flags ts :
  keeps (blf_read_canerrorext bs ds ol flags ts).
Proof. unfold blf_read_canerrorext. frame_tac. Qed.

Lemma keeps_blf_read_canfderror64 bs ds ol flags ts :
  keeps (blf_read_canfderror64 bs ds ol flags ts).
Proof. unfold blf_read_canfderror64. frame_tac. Qed.

Lemma keeps_flexray_emit tmpbuf pl plv start flags ts ch dir :
  keeps (flexray_emit tmpbuf pl plv start flags ts ch dir).
Proof. unfold flexray_emit. frame_tac. Qed.

#[local] Hint Resolve keeps_flexray_emit : frame.

Lemma keeps_blf_read_flexraydata bs ds ol flags ts :
  keeps (blf_read_flexraydata bs ds ol flags ts).
Proof. unfold blf_read_flexraydata. frame_tac. Qed.

Lemma keeps_blf_read_flexraymessage bs ds ol flags ts :
  keeps (blf_read_flexraymessage bs ds ol flags ts).
Proof. unfold blf_read_flexraymessage. frame_tac. Qed.

Lemma keeps_blf_read_flexrayrcvmessageex bs ds ol flags ts ext :
  keeps (blf_read_flexrayrcvmessageex bs ds ol flags ts ext).
Proof. unfold blf_read_flexrayrcvmessageex. frame_tac. Qed.

Lemma keeps_blf_read_linmessage bs ds ol flags ts :
  keeps (blf_read_linmessage bs ds ol flags ts).
Proof. unfold blf_read_linmessage. frame_tac. Qed.

Lemma keeps_blf_read_apptextmessage bs ds ol flags ts mc :
  keeps (blf_read_apptextmessage bs ds ol flags ts mc).
Proof. unfold blf_read_apptextmessage. frame_tac. Qed.

Lemma keeps_blf_read_ethernet_status bs ds ol flags ts :
  keeps (blf_read_ethernet_status bs ds ol flags ts).
Proof. unfold blf_read_ethernet_status. frame_tac. Qed.

Lemma keeps_blf_read_log_object_header h2 ds : keeps (blf_read_log_object_header h2 ds).
Proof. unfold blf_read_log_object_header. frame_tac. Qed.

Lemma keeps_blf_read_log_object_header2 h2 ds : keeps (blf_read_log_object_header2 h2 ds).
Proof. unfold blf_read_log_object_header2. frame_tac. Qed.

Lemma keeps_blf_read_log_object_header3 h2 ds : keeps (blf_read_log_object_header3 h2 ds).
Proof. unfold blf_read_log_object_header3. frame_tac. Qed.

#[local] Hint Resolve keeps_blf_read_log_object_header keeps_blf_read_log_object_header2
  keeps_blf_read_log_object_header3 : frame.

Lemma keeps_blf_read_any_log_object_header sp header :
  keeps (blf_read_any_log_object_header sp header).
Proof. unfold blf_read_any_log_object_header. frame_tac. Qed.

Lemma keeps_blf_find_block fuel : forall sp, keeps (blf_find_block fuel sp).
Proof.
  induction fuel as [|fuel IH]; intros sp s; [apply decoder_frame_refl|].
  cbn [blf_find_block].
  pose proof (keeps_blf_read_bytes_or_eof sp sizeof_blockheader s) as H.
  destruct (blf_read_bytes_or_eof sp sizeof_blockheader s) as [[bs|] s1]; cbn [snd] in H.
  - destruct (memcmp _ _); [|exact H].
    apply (decoder_frame_trans _ _ _ H (IH _ s1)).
  - destruct (wtap_err_eqb _ _); exact H.
Qed.

(** Every decoder of the dispatch keeps the frame. *)
Lemma keeps_blf_dispatch sp header flags ts decoder :
  blf_dispatch sp header flags ts = Some decoder -> keeps decoder.
Proof.
  unfold blf_dispatch.
  repeat match goal with
         | |- (if ?b then _ else _) = Some _ -> _ => destruct b
         end;
    intros [= <-];
    auto using keeps_fail_with, keeps_blf_read_ethernetframe, keeps_blf_read_ethernetframe_ext,
      keeps_blf_read_wlanframe, keeps_blf_read_canmessage, keeps_blf_read_canerror,
      keeps_blf_read_canerrorext, keeps_blf_read_canfdmessage, keeps_blf_read_canfdmessage64,
      keeps_blf_read_canfderror64, keeps_blf_read_flexraydata, keeps_blf_read_flexraymessage,
      keeps_blf_read_flexrayrcvmessageex, keeps_blf_read_linmessage,
      keeps_blf_read_ethernet_status.
Qed.


(** ** The result of the scan

    C8: a block whose header_type is not 1 ends the scan, which returns
    FALSE and leaves the descriptors found so far and the caller's [*err]
    as they were; [blf_open] does not look at the result of the scan: once
    the file header with the magic LOGG is read it returns WTAP_OPEN_MINE
    with [*err] untouched. *)
Theorem blf_open_ignores_unknown_header_type :
  (forall fuel current_real_start s current_start_pos header fh1,
      blf_find_object (S fuel) (fh s) (to_guint64 (file_tell (fh s)))
      = Some (FO_found current_start_pos header fh1) ->
      header_type header <> BLF_HEADER_TYPE_DEFAULT ->
      scan_loop (S fuel) current_real_start s = Some (false, set_fh fh1 s))
  /\ (forall wth0 fh0 random_fh0 err0 bs fh1,
         wtap_read_bytes_or_eof fh0 sizeof_fileheader = (inr bs, fh1) ->
         memcmp (fh_magic (fix_endianness_blf_fileheader (unpack_fileheader bs))) blf_magic
         = false ->
         exists w, blf_open wth0 fh0 random_fh0 err0 = (WTAP_OPEN_MINE, err0, Some w)).
Proof.
  split.
  - intros fuel start s csp header fh1 Hfind Htype.
    cbn [scan_loop]. rewrite Hfind.
    destruct (Z.eqb_spec (header_type header) BLF_HEADER_TYPE_DEFAULT); [contradiction|].
    reflexivity.
  - intros wth0 fh0 rfh err0 bs fh1 Hread Hmagic.
    unfold blf_open. rewrite Hread, Hmagic.
    destruct (blf_scan_file_for_logcontainers _) as [ok params'].
    eexists. reflexivity.
Qed.

(** ** Random reads *)

(** X16: [blf_seek_read] runs [blf_read_block], which stores the end of an
    object, [start_pos + MAX(MAX(16, object_length), header_length)], in
    the cursor [current_real_seek_pos] as soon as the headers of the object
    are decoded.  When no block is found or the log object header cannot
    be read, the random read fails and leaves the cursor as it was; once
    the headers of the object at [start_pos] are read, a random read that
    ends with that object (one of the packet types, or an APP_TEXT object
    that is not a channel description and does not continue) leaves the
    cursor at the end of the object. *)
Theorem blf_seek_read_moves_cursor fuel w seek_off rec0 buf0 err0 :
  let s0 := mkParams (ss_wth w) rec0 (set_first_free buf0 (b_start buf0))
                     (ss_random_fh w) (ss_priv w) err0 in
  let cursor o := current_real_seek_pos (ss_priv (ro_session o)) in
  forall fb s1,
    blf_find_block (S fuel) seek_off s0 = (Some fb, s1) ->
    match fb with
    | FB_failed =>
      exists o, blf_seek_read (S fuel) w seek_off rec0 buf0 err0 = Some o
                /\ ro_ok o = false
                /\ cursor o = current_real_seek_pos (ss_priv w)
    | FB_found start_pos header =>
      forall lh s3,
        blf_read_any_log_object_header
          start_pos header
          (set_blf_data (set_start_of_last_obj start_pos (blf_data s1)) s1) = (lh, s3) ->
        match lh with
        | None =>
          exists o, blf_seek_read (S fuel) w seek_off rec0 buf0 err0 = Some o
                    /\ ro_ok o = false
                    /\ cursor o = current_real_seek_pos (ss_priv w)
        | Some (flags, object_timestamp) =>
          let next := to_gint64 (start_pos + object_skip header) in
          let s4 := set_blf_data (set_current_real_seek_pos next (blf_data s3)) s3 in
          (forall decoder,
              blf_dispatch start_pos header flags object_timestamp = Some decoder ->
              exists o, blf_seek_read (S fuel) w seek_off rec0 buf0 err0 = Some o
                        /\ ro_ok o = fst (decoder s4)
                        /\ cursor o = next)
          /\ (forall result s5,
                 blf_dispatch start_pos header flags object_timestamp = None ->
                 object_type header = BLF_OBJTYPE_APP_TEXT ->
                 blf_read_apptextmessage start_pos (to_gint64 (start_pos + header_length header))
                                         (object_length header) flags object_timestamp 0 s4
                 = (result, s5) ->
                 result = BLF_APPTEXT_FAILED \/ result = BLF_APPTEXT_COMMENT
                 \/ result = BLF_APPTEXT_METADATA \/ result = BLF_APPTEXT_ATTACHMENT
                 \/ result = BLF_APPTEXT_TRACELINE ->
                 exists o, blf_seek_read (S fuel) w seek_off rec0 buf0 err0 = Some o
                           /\ cursor o = next)
        end
    end.
Proof.
  intros s0 cursor fb s1 Hfind.
  pose proof (keeps_blf_find_block (S fuel) seek_off s0) as Hk1.
  rewrite Hfind in Hk1. cbn [snd] in Hk1.
  assert (Hc1 : current_real_seek_pos (blf_data s1) = current_real_seek_pos (ss_priv w))
    by apply Hk1.
  unfold blf_seek_read, blf_read_block.
  cbn [blf_read_block_loop]. cbn [buf].
  change (set_buf (set_first_free buf0 (b_start buf0))
                  (mkParams (ss_wth w) rec0 buf0 (ss_random_fh w) (ss_priv w) err0)) with s0.
  rewrite Hfind.
  destruct fb as [|start_pos header].
  - eexists. split; [reflexivity|]. split; [reflexivity|]. exact Hc1.
  - intros lh s3 Hlh. rewrite Hlh.
    pose proof (keeps_blf_read_any_log_object_header start_pos header
                  (set_blf_data (set_start_of_last_obj start_pos (blf_data s1)) s1)) as Hk3.
    rewrite Hlh in Hk3. cbn [snd] in Hk3.
    destruct lh as [[flags ts]|].
    + cbv zeta. split.
      * intros decoder Hd. rewrite Hd.
        pose proof (keeps_blf_dispatch _ _ _ _ _ Hd) as Hkd.
        match goal with |- context [decoder ?st] => specialize (Hkd st);
          destruct (decoder st) as [ok s5] end.
        cbn [snd] in Hkd. eexists. split; [reflexivity|]. split; [reflexivity|].
        subst cursor. cbn [ro_session ss_priv].
        destruct Hkd as (_ & _ & Hc & _). rewrite Hc. reflexivity.
      * intros result s5 Hd Htype Happ Hres. rewrite Hd.
        rewrite Htype, Z.eqb_refl.
        change (0 =? 0) with true. cbn [negb andb].
        rewrite Happ.
        pose proof (keeps_blf_read_apptextmessage start_pos
                      (to_gint64 (start_pos + header_length header))
                      (object_length header) flags ts 0) as Hka.
        specialize (Hka (set_blf_data
                           (set_current_real_seek_pos
                              (to_gint64 (start_pos + object_skip header)) (blf_data s3)) s3)).
        rewrite Happ in Hka. cbn [snd] in Hka.
        destruct Hka as (_ & _ & Hc & _). cbn in Hc.
        assert (Hs6 : forall (b : bool),
                   current_real_seek_pos
                     (blf_data (if b
                                then set_blf_data (set_start_of_last_obj 0 (blf_data s5)) s5
                                else s5))
                   = to_gint64 (start_pos + object_skip header)).
        { intros [|]; cbn; exact Hc. }
        destruct (Z.eqb_spec result BLF_APPTEXT_FAILED).
        { eexists. split; [reflexivity|]. apply Hs6. }
        destruct ((result =? BLF_APPTEXT_COMMENT) || (result =? BLF_APPTEXT_METADATA)
                  || (result =? BLF_APPTEXT_ATTACHMENT) || (result =? BLF_APPTEXT_TRACELINE))
                 eqn:Hterm.
        { eexists. split; [reflexivity|]. apply Hs6. }
        exfalso. destruct Hres as [ -> | [ -> | [ -> | [ -> | -> ] ] ] ];
          rewrite ?Z.eqb_refl, ?orb_true_r in Hterm; try discriminate; contradiction.
    + eexists. split; [reflexivity|]. split; [reflexivity|].
      subst cursor. cbn [ro_session ss_priv].
      destruct Hk3 as (_ & _ & Hc & _). rewrite Hc. exact Hc1.
Qed.

(** ** Sequences of metadata objects *)

Lemma blf_find_block_congr fuel : forall sp s t,
  io_eq s t ->
  blf_find_block fuel sp t
  = (fst (blf_find_block fuel sp s), with_io (snd (blf_find_block fuel sp s)) t).
Proof.
  induction fuel as [|fuel IH]; intros sp s t H.
  - cbn. now rewrite with_io_self.
  - cbn [blf_find_block].
    rewrite (blf_read_bytes_or_eof_congr sp sizeof_blockheader s t H).
    destruct (blf_read_bytes_or_eof sp sizeof_blockheader s) as [[bs|] s1]; cbn [fst snd].
    + destruct (memcmp _ _); [|reflexivity].
      rewrite (IH _ s1 (with_io s1 t)) by apply io_eq_with_io.
      now rewrite with_io_with_io.
    + change (err (with_io s1 t)) with (err s1).
      destruct (wtap_err_eqb (err s1) WTAP_ERR_SHORT_READ); reflexivity.
Qed.

Lemma blf_read_log_object_header_congr h2 ds s t :
  io_eq s t ->
  blf_read_log_object_header h2 ds t
  = (fst (blf_read_log_object_header h2 ds s),
     with_io (snd (blf_read_log_object_header h2 ds s)) t).
Proof.
  intros H. unfold blf_read_log_object_header.
  destruct (_ <? _).
  - cbn. now rewrite with_io_set_err.
  - rewrite (blf_read_bytes_or_eof_congr _ _ s t H).
    destruct (blf_read_bytes_or_eof _ _ s) as [[bs|] s1]; reflexivity.
Qed.

Lemma blf_read_log_object_header2_congr h2 ds s t :
  io_eq s t ->
  blf_read_log_object_header2 h2 ds t
  = (fst (blf_read_log_object_header2 h2 ds s),
     with_io (snd (blf_read_log_object_header2 h2 ds s)) t).
Proof.
  intros H. unfold blf_read_log_object_header2.
  destruct (_ <? _).
  - cbn. now rewrite with_io_set_err.
  - rewrite (blf_read_bytes_or_eof_congr _ _ s t H).
    destruct (blf_read_bytes_or_eof _ _ s) as [[bs|] s1]; reflexivity.
Qed.

Lemma blf_read_log_object_header3_congr h2 ds s t :
  io_eq s t ->
  blf_read_log_object_header3 h2 ds t
  = (fst (blf_read_log_object_header3 h2 ds s),
     with_io (snd (blf_read_log_object_header3 h2 ds s)) t).
Proof.
  intros H. unfold blf_read_log_object_header3.
  destruct (_ <? _).
  - cbn. now rewrite with_io_set_err.
  - rewrite (blf_read_bytes_or_eof_congr _ _ s t H).
    destruct (blf_read_bytes_or_eof _ _ s) as [[bs|] s1]; reflexivity.
Qed.

Lemma blf_read_any_log_object_header_congr sp header s t :
  io_eq s t ->
  blf_read_any_log_object_header sp header t
  = (fst (blf_read_any_log_object_header sp header s),
     with_io (snd (blf_read_any_log_object_header sp header s)) t).
Proof.
  intros H. unfold blf_read_any_log_object_header.
  destruct (_ =? BLF_HEADER_TYPE_DEFAULT).
  { rewrite (blf_read_log_object_header_congr _ _ s t H).
    destruct (blf_read_log_object_header _ _ s) as [[h|] s1]; reflexivity. }
  destruct (_ =? BLF_HEADER_TYPE_2).
  { rewrite (blf_read_log_object_header2_congr _ _ s t H).
    destruct (blf_read_log_object_header2 _ _ s) as [[h|] s1]; reflexivity. }
  destruct (_ =? BLF_HEADER_TYPE_3).
  { rewrite (blf_read_log_object_header3_congr _ _ s t H).
    destruct (blf_read_log_object_header3 _ _ s) as [[h|] s1]; reflexivity. }
  cbn. now rewrite with_io_set_err.
Qed.

(** The labels of the switch on the result of [blf_read_apptextmessage]
    that the metadata objects meet. *)
Lemma apptext_labels :
  BLF_APPTEXT_METADATA <> BLF_APPTEXT_CHANNEL
  /\ BLF_APPTEXT_METADATA <> BLF_APPTEXT_FAILED
  /\ BLF_APPTEXT_METADATA <> BLF_APPTEXT_CONT
  /\ BLF_APPTEXT_CONT <> BLF_APPTEXT_FAILED
  /\ BLF_APPTEXT_CONT <> BLF_APPTEXT_COMMENT
  /\ BLF_APPTEXT_CONT <> BLF_APPTEXT_ATTACHMENT
  /\ BLF_APPTEXT_CONT <> BLF_APPTEXT_TRACELINE.
Proof.
  pose proof apptext_labels_distinct as H.
  repeat match type of H with
         | NoDup (_ :: _) =>
           apply NoDup_cons_iff in H;
           let H1 := fresh "Hn" in destruct H as [H1 H]; cbn [In] in H1
         end.
  repeat split; intro E; rewrite ?E in *; tauto.
Qed.

Lemma apptext_metadata_step bs ds ol flags ts mc s2 t hb s3 text s' :
  io_eq s2 t ->
  header_too_long bs ds ol sizeof_apptext = false ->
  blf_read_bytes ds sizeof_apptext s2 = (Some hb, s3) ->
  let a := fix_endianness_blf_apptext_header (unpack_apptext hb) in
  source a = BLF_APPTEXT_METADATA ->
  blf_read_bytes (ds + sizeof_apptext) (textLength a) s3 = (Some text, s') ->
  blf_read_apptextmessage bs ds ol flags ts mc t
  = let b1 := if negb (mc =? 0) then set_first_free (buf t) mc
              else ws_buffer_append (buf t) (epdu_text_lines_header (Some "Metadata"%string)) in
    let t4 := set_buf (ws_buffer_append b1 text) (with_io s' t) in
    if Z.land (reservedAppText1 a) 0x00ffffff >? textLength a
    then (BLF_APPTEXT_CONT, t4)
    else (blf_init_rec flags ts WTAP_ENCAP_WIRESHARK_UPPER_PDU 0 UINT16_MAX
                       (to_guint32 (ws_buffer_length (buf t4)))
                       (to_guint32 (ws_buffer_length (buf t4))) ;;;
          ret BLF_APPTEXT_METADATA)%blf t4.
Proof.
  intros Hio Hlong Hhdr a Hsrc Htext.
  unfold blf_read_apptextmessage. rewrite Hlong.
  rewrite (blf_read_bytes_congr _ _ s2 t Hio), Hhdr. cbn [fst snd]. fold a.
  rewrite Hsrc, Z.eqb_refl. cbn [negb andb]. rewrite andb_false_r.
  rewrite (blf_read_bytes_congr _ _ s3 (with_io s3 t)) by apply io_eq_with_io.
  rewrite Htext. cbn [fst snd]. rewrite with_io_with_io.
  destruct (Z.eqb_spec BLF_APPTEXT_METADATA BLF_APPTEXT_CHANNEL) as [E|_];
    [exfalso; exact (proj1 apptext_labels E)|].
  cbv zeta.
  destruct (negb (mc =? 0)); reflexivity.
Qed.

Lemma metadata_loop_step fuel p o s s' t lms mc :
  metadata_object_reads (S fuel) p o s s' ->
  io_eq s t ->
  blf_read_block_loop (S fuel) p lms mc t
  = let t5 := metadata_pass o s' t mc in
    if mo_continues o then
      blf_read_block_loop fuel (mo_next o) (if mc =? 0 then mo_start o else lms)
                          (b_first_free (buf t5)) t5
    else
      let t6 := snd (blf_init_rec (mo_flags o) (mo_timestamp o)
                                  WTAP_ENCAP_WIRESHARK_UPPER_PDU 0 UINT16_MAX
                                  (to_guint32 (ws_buffer_length (buf t5)))
                                  (to_guint32 (ws_buffer_length (buf t5))) t5) in
      (Some true,
       if negb (mc =? 0)
       then set_blf_data (set_start_of_last_obj lms (blf_data t6)) t6
       else t6).
Proof.
  intros (s1 & s2 & hb & s3 & Hfind & Htype & Hdisp & Hlh & Hlong & Hhdr & Ha & Hsrc & Htext)
         Hio.
  cbn [blf_read_block_loop].
  set (t0 := set_buf (set_first_free (buf t) (b_start (buf t))) t).
  assert (Hio0 : io_eq s t0) by exact Hio.
  rewrite (blf_find_block_congr (S fuel) p s t0 Hio0), Hfind. cbn [fst snd].
  set (t2 := set_blf_data _ (with_io s1 t0)).
  assert (Hio2 : io_eq s1 t2) by (subst t2; repeat split).
  rewrite (blf_read_any_log_object_header_congr _ _ s1 t2 Hio2), Hlh. cbn [fst snd].
  rewrite Hdisp, Htype, Z.eqb_refl. cbn [negb]. rewrite andb_false_r.
  set (t4 := set_blf_data _ (with_io s2 t2)).
  assert (Hio4 : io_eq s2 t4) by (subst t4; repeat split).
  fold (mo_data_start o).
  rewrite Ha in Hsrc, Htext.
  rewrite (apptext_metadata_step (mo_start o) (mo_data_start o) (object_length (mo_header o))
             (mo_flags o) (mo_timestamp o) mc s2 t4 hb s3 (mo_text o) s'
             Hio4 Hlong Hhdr Hsrc Htext).
  rewrite <- Ha. fold (mo_continues o). fold (mo_next o).
  assert (Hpass : set_buf
                    (ws_buffer_append
                       (if negb (mc =? 0) then set_first_free (buf t4) mc
                        else ws_buffer_append (buf t4)
                               (epdu_text_lines_header (Some "Metadata"%string)))
                       (mo_text o)) (with_io s' t4)
                  = metadata_pass o s' t mc) by reflexivity.
  cbv zeta. rewrite Hpass.
  destruct (mo_continues o).
  - rewrite Z.eqb_refl. cbn [negb andb].
    destruct (Z.eqb_spec BLF_APPTEXT_CONT BLF_APPTEXT_FAILED) as [E|_];
      [exfalso; exact (proj1 (proj2 (proj2 (proj2 apptext_labels))) E)|].
    destruct (Z.eqb_spec BLF_APPTEXT_CONT BLF_APPTEXT_COMMENT) as [E|_];
      [exfalso; apply apptext_labels in E; exact E|].
    destruct (Z.eqb_spec BLF_APPTEXT_CONT BLF_APPTEXT_METADATA) as [E|_];
      [exfalso; symmetry in E; apply apptext_labels in E; exact E|].
    destruct (Z.eqb_spec BLF_APPTEXT_CONT BLF_APPTEXT_ATTACHMENT) as [E|_];
      [exfalso; apply apptext_labels in E; exact E|].
    destruct (Z.eqb_spec BLF_APPTEXT_CONT BLF_APPTEXT_TRACELINE) as [E|_];
      [exfalso; apply apptext_labels in E; exact E|].
    cbn [orb]. reflexivity.
  - cbv [bind ret]; cbv beta iota.
    destruct (blf_init_rec _ _ _ _ _ _ _ (metadata_pass o s' t mc)) as [[] t6].
    cbn [fst snd].
    destruct (Z.eqb_spec BLF_APPTEXT_METADATA BLF_APPTEXT_CONT) as [E|_];
      [exfalso; apply apptext_labels in E; exact E|].
    rewrite Z.eqb_refl. cbn [negb andb].
    destruct (Z.eqb_spec BLF_APPTEXT_METADATA BLF_APPTEXT_FAILED) as [E|_];
      [exfalso; apply apptext_labels in E; exact E|].
    rewrite orb_true_r. cbn [orb].
    destruct (negb (mc =? 0)); reflexivity.
Qed.

Lemma ws_buffer_length_contents b :
  buf_wf b -> ws_buffer_length b = Z.of_nat (length (ws_buffer_contents b)).
Proof.
  intros [[H0 H1] H2]. unfold ws_buffer_length, ws_buffer_contents.
  rewrite length_firstn, length_skipn. lia.
Qed.

Lemma buffer_reset b :
  buf_wf b ->
  buf_wf (set_first_free b (b_start b))
  /\ ws_buffer_contents (set_first_free b (b_start b)) = [].
Proof.
  intros [[H0 H1] H2]. split.
  - unfold buf_wf, set_first_free; cbn. lia.
  - unfold ws_buffer_contents, set_first_free; cbn. now rewrite Z.sub_diag.
Qed.

Lemma buffer_restore b : set_first_free (set_first_free b (b_start b)) (b_first_free b) = b.
Proof. destruct b; reflexivity. Qed.

Lemma metadata_pass_facts o s' t mc :
  let t5 := metadata_pass o s' t mc in
  io_eq s' t5
  /\ start_of_last_obj (blf_data t5) = mo_start o
  /\ current_real_seek_pos (blf_data t5) = mo_next o.
Proof. repeat split. Qed.

Lemma metadata_last_facts o s' t mc lms b acc :
  buf (metadata_pass o s' t mc) = ws_buffer_append b (mo_text o) ->
  buf_wf b -> ws_buffer_contents b = acc ->
  let t5 := metadata_pass o s' t mc in
  let t6 := snd (blf_init_rec (mo_flags o) (mo_timestamp o)
                              WTAP_ENCAP_WIRESHARK_UPPER_PDU 0 UINT16_MAX
                              (to_guint32 (ws_buffer_length (buf t5)))
                              (to_guint32 (ws_buffer_length (buf t5))) t5) in
  metadata_emitted (if negb (mc =? 0)
                    then set_blf_data (set_start_of_last_obj lms (blf_data t6)) t6
                    else t6)
                   (if negb (mc =? 0) then lms else mo_start o) o (acc ++ mo_text o).
Proof.
  intros Hbuf Hwf Hacc t5 t6.
  destruct (ws_buffer_append_contents b (mo_text o) Hwf) as [Hwf5 Hc5].
  pose proof (blf_init_rec_frame (mo_flags o) (mo_timestamp o)
                WTAP_ENCAP_WIRESHARK_UPPER_PDU 0 UINT16_MAX
                (to_guint32 (ws_buffer_length (buf t5)))
                (to_guint32 (ws_buffer_length (buf t5))) t5) as Hfr.
  pose proof (blf_init_rec_lengths (mo_flags o) (mo_timestamp o)
                WTAP_ENCAP_WIRESHARK_UPPER_PDU 0 UINT16_MAX
                (to_guint32 (ws_buffer_length (buf t5)))
                (to_guint32 (ws_buffer_length (buf t5))) t5) as Hrl.
  cbv zeta in Hfr, Hrl. fold t6 in Hfr, Hrl.
  destruct Hfr as (Hb6 & _ & _ & Hs6 & Hc6 & _).
  destruct Hrl as (Hty & Hcl & Hl & Henc & _).
  assert (Hlen : to_guint32 (to_guint32 (ws_buffer_length (buf t5)))
                 = to_guint32 (Z.of_nat (length (acc ++ mo_text o)))).
  { rewrite to_guint32_idem. subst t5. rewrite Hbuf.
    rewrite (ws_buffer_length_contents _ Hwf5), Hc5, Hacc. reflexivity. }
  rewrite Hlen in Hcl, Hl.
  assert (Hcont : ws_buffer_contents (buf t6) = acc ++ mo_text o).
  { rewrite Hb6. subst t5. rewrite Hbuf, Hc5, Hacc. reflexivity. }
  unfold metadata_emitted.
  destruct (negb (mc =? 0)); cbn [buf rec blf_data set_blf_data set_start_of_last_obj
                                  start_of_last_obj current_real_seek_pos];
    repeat split; try assumption; try (rewrite Hc6; reflexivity);
    try (rewrite Hs6; reflexivity).
Qed.

Lemma last_cons {A : Type} (rest : list A) : forall o o', last (o' :: rest) o = last rest o'.
Proof.
  induction rest as [|a rest IH]; intros o o'; [reflexivity|].
  change (last (o' :: a :: rest) o) with (last (a :: rest) o).
  rewrite (IH o a), (IH o' a). reflexivity.
Qed.

(** The objects after the first of a sequence. *)
Lemma metadata_loop_rest rest : forall fuel p o s s' t lms mc acc,
  metadata_sequence fuel p o rest s s' ->
  io_eq s t ->
  mc <> 0 -> b_first_free (buf t) = mc -> buf_wf (buf t) ->
  ws_buffer_contents (buf t) = acc ->
  exists t',
    blf_read_block_loop fuel p lms mc t = (Some true, t')
    /\ metadata_emitted t' lms (last rest o) (acc ++ concat (map mo_text (o :: rest))).
Proof.
  induction rest as [|o' rest IH]; intros fuel p o s s' t lms mc acc Hseq Hio Hmc Hff Hwf Hacc.
  - cbn [metadata_sequence] in Hseq. destruct Hseq as [Hreads Hcont].
    destruct fuel as [|fuel].
    { destruct Hreads as (s1 & _ & _ & _ & Hfind & _). discriminate Hfind. }
    rewrite (metadata_loop_step fuel p o s s' t lms mc Hreads Hio). cbv zeta.
    rewrite Hcont. eexists. split; [reflexivity|].
    destruct (Z.eqb_spec mc 0) as [|_]; [contradiction|].
    cbn [map concat last]. rewrite app_nil_r.
    pose proof (metadata_last_facts o s' t mc lms (buf t) acc) as H.
    destruct (Z.eqb_spec mc 0) as [|_]; [contradiction|]. cbn [negb] in H.
    apply H; try assumption.
    unfold metadata_pass. destruct (Z.eqb_spec mc 0) as [|_]; [contradiction|].
    cbn [negb buf set_buf]. rewrite <- Hff, buffer_restore. reflexivity.
  - cbn [metadata_sequence] in Hseq. destruct fuel as [|fuel]; [contradiction|].
    destruct Hseq as (s1 & Hreads & Hcont & Hseq).
    rewrite (metadata_loop_step fuel p o s s1 t lms mc Hreads Hio). cbv zeta.
    rewrite Hcont.
    destruct (Z.eqb_spec mc 0) as [|_]; [contradiction|].
    assert (Hbuf : buf (metadata_pass o s1 t mc) = ws_buffer_append (buf t) (mo_text o)).
    { unfold metadata_pass. destruct (Z.eqb_spec mc 0) as [|_]; [contradiction|].
      cbn [negb buf set_buf]. rewrite <- Hff, buffer_restore. reflexivity. }
    destruct (ws_buffer_append_contents (buf t) (mo_text o) Hwf) as [Hwf5 Hc5].
    destruct (IH fuel (mo_next o) o' s1 s' (metadata_pass o s1 t mc) lms
                 (b_first_free (buf (metadata_pass o s1 t mc))) (acc ++ mo_text o) Hseq)
      as (t' & Hrun & Hem).
    + apply metadata_pass_facts.
    + rewrite Hbuf. cbn [ws_buffer_append b_first_free].
      destruct Hwf as [[H0 H1] H2]. lia.
    + reflexivity.
    + rewrite Hbuf. exact Hwf5.
    + rewrite Hbuf, Hc5, Hacc. reflexivity.
    + exists t'. split; [exact Hrun|].
      rewrite last_cons. cbn [map concat] in Hem |- *.
      rewrite <- app_assoc in Hem. exact Hem.
Qed.

(** C2: [blf_read_block] on a sequence of consecutive APP_TEXT objects with
    source METADATA, each of which but the last continues, that is, has
    [(reservedAppText1 & 0x00ffffff) > textLength]: no object that
    continues makes the function return; at the object that does not it
    returns TRUE once, with one record of encapsulation upper-PDU whose
    buffer holds the export header and the texts of all the objects in
    order and whose captured and wire length are that many bytes, with
    [start_of_last_obj] at the first object of the sequence and the cursor
    after the last. *)
Theorem blf_read_block_metadata_sequence fuel p o rest s s' :
  metadata_sequence fuel p o rest s s' ->
  buf_wf (buf s) ->
  epdu_text_lines_header (Some "Metadata"%string) <> [] ->
  exists t',
    blf_read_block fuel p s = (Some true, t')
    /\ metadata_emitted t' (mo_start o) (last rest o)
                        (epdu_text_lines_header (Some "Metadata"%string)
                         ++ concat (map mo_text (o :: rest)))
    /\ (forall o1, In o1 (removelast (o :: rest)) -> mo_continues o1 = true)
    /\ mo_continues (last rest o) = false.
Proof.
  intros Hseq Hwf Hhdr.
  assert (Hio : io_eq s s) by repeat split.
  destruct (buffer_reset (buf s) Hwf) as [Hwf0 Hc0].
  destruct (ws_buffer_append_contents _ (epdu_text_lines_header (Some "Metadata"%string)) Hwf0)
    as [Hwf1 Hc1].
  rewrite Hc0 in Hc1. cbn [app] in Hc1.
  assert (Hbuf : forall s1,
             buf (metadata_pass o s1 s 0)
             = ws_buffer_append
                 (ws_buffer_append (set_first_free (buf s) (b_start (buf s)))
                                   (epdu_text_lines_header (Some "Metadata"%string)))
                 (mo_text o)) by reflexivity.
  assert (Hconts : forall fuel p o rest s s',
             metadata_sequence fuel p o rest s s' ->
             (forall o1, In o1 (removelast (o :: rest)) -> mo_continues o1 = true)
             /\ mo_continues (last rest o) = false).
  { clear. intros fuel p o rest. revert fuel p o.
    induction rest as [|o' rest IH]; intros fuel p o s s' Hseq.
    - cbn [metadata_sequence] in Hseq. destruct Hseq as [_ Hc].
      split; [intros o1 []|exact Hc].
    - cbn [metadata_sequence] in Hseq. destruct fuel as [|fuel]; [contradiction|].
      destruct Hseq as (s1 & _ & Hc & Hseq). destruct (IH _ _ _ _ _ Hseq) as [H1 H2].
      split.
      + intros o1 Hin. change (o :: o' :: rest) with ([o] ++ o' :: rest) in Hin.
        rewrite removelast_app in Hin by discriminate. destruct Hin as [<-|Hin]; auto.
      + rewrite last_cons. exact H2. }
  destruct (Hconts _ _ _ _ _ _ Hseq) as [Hall Hlast].
  unfold blf_read_block.
  destruct rest as [|o' rest].
  - cbn [metadata_sequence] in Hseq. destruct Hseq as [Hreads Hcont].
    destruct fuel as [|fuel].
    { destruct Hreads as (s1 & _ & _ & _ & Hfind & _). discriminate Hfind. }
    rewrite (metadata_loop_step fuel p o s s' s 0 0 Hreads Hio). cbv zeta.
    rewrite Hcont. eexists. split; [reflexivity|].
    split; [|split; assumption].
    cbn [map concat last]. rewrite app_nil_r.
    apply (metadata_last_facts o s' s 0 0 _ _ (Hbuf s') Hwf1 Hc1).
  - cbn [metadata_sequence] in Hseq. destruct fuel as [|fuel]; [contradiction|].
    destruct Hseq as (s1 & Hreads & Hcont & Hseq).
    rewrite (metadata_loop_step fuel p o s s1 s 0 0 Hreads Hio). cbv zeta.
    rewrite Hcont. cbn [Z.eqb].
    destruct (ws_buffer_append_contents _ (mo_text o) Hwf1) as [Hwf5 Hc5].
    destruct (metadata_loop_rest rest fuel (mo_next o) o' s1 s' (metadata_pass o s1 s 0)
                (mo_start o) (b_first_free (buf (metadata_pass o s1 s 0)))
                (epdu_text_lines_header (Some "Metadata"%string) ++ mo_text o) Hseq)
      as (t' & Hrun & Hem).
    + apply metadata_pass_facts.
    + rewrite Hbuf. cbn [ws_buffer_append b_first_free set_first_free].
      destruct Hwf as [[H0 H1] H2].
      assert (0 < Z.of_nat (length (epdu_text_lines_header (Some "Metadata"%string)))).
      { destruct (epdu_text_lines_header _); [contradiction|cbn [length]; lia]. }
      lia.
    + reflexivity.
    + rewrite Hbuf. exact Hwf5.
    + rewrite Hbuf, Hc5, Hc1. reflexivity.
    + exists t'. split; [exact Hrun|]. split; [|split; assumption].
      rewrite last_cons. cbn [map concat] in Hem |- *.
      rewrite <- app_assoc in Hem. exact Hem.
Qed.

(** ** Further properties of the reader *)

(** *** The virtual reader *)

Lemma find_logcontainer_from_spec cs : forall i0 pos,
  match find_logcontainer_from cs i0 pos with
  | Some (tmp, i) =>
    i0 <= i /\ nth_error cs (Z.to_nat (i - i0)) = Some tmp /\ container_holds tmp pos
    /\ (forall j c, (j < Z.to_nat (i - i0))%nat -> nth_error cs j = Some c ->
                    ~ container_holds c pos)
  | None => forall c, In c cs -> ~ container_holds c pos
  end.
Proof.
  induction cs as [|tmp cs IH]; intros i0 pos; cbn [find_logcontainer_from].
  - intros c [].
  - destruct (Z.leb_spec (real_start_pos tmp) pos) as [H1|H1]; cbn [andb].
    + destruct (Z.ltb_spec pos (to_gint64 (real_start_pos tmp + to_gint64 (real_length tmp))))
        as [H2|H2].
      * rewrite Z.sub_diag. cbn. repeat split; try lia.
      * specialize (IH (i0 + 1) pos).
        destruct (find_logcontainer_from cs (i0 + 1) pos) as [[c i]|].
        -- destruct IH as (Hi & Hn & Hh & Hfirst).
           replace (Z.to_nat (i - i0)) with (S (Z.to_nat (i - (i0 + 1)))) by lia.
           cbn [nth_error]. split; [lia|]. split; [exact Hn|]. split; [exact Hh|].
           intros [|j] c' Hj Hc'; cbn in Hc'.
           ++ injection Hc' as <-. unfold container_holds. lia.
           ++ apply (Hfirst j c'); [lia|assumption].
        -- intros c [<-|Hin]; [unfold container_holds; lia|auto].
    + specialize (IH (i0 + 1) pos).
      destruct (find_logcontainer_from cs (i0 + 1) pos) as [[c i]|].
      * destruct IH as (Hi & Hn & Hh & Hfirst).
        replace (Z.to_nat (i - i0)) with (S (Z.to_nat (i - (i0 + 1)))) by lia.
        cbn [nth_error]. split; [lia|]. split; [exact Hn|]. split; [exact Hh|].
        intros [|j] c' Hj Hc'; cbn in Hc'.
        -- injection Hc' as <-. unfold container_holds. lia.
        -- apply (Hfirst j c'); [lia|assumption].
      * intros c [<-|Hin]; [unfold container_holds; lia|auto].
Qed.

Lemma find_logcontainer_for_address_spec d pos :
  match blf_find_logcontainer_for_address d pos with
  | Some (tmp, i) =>
    0 <= i < Z.of_nat (length (log_containers d))
    /\ blf_get_logcontainer_by_index d i = Some tmp
    /\ container_holds tmp pos
    /\ (forall j c, 0 <= j < i -> blf_get_logcontainer_by_index d j = Some c ->
                    ~ container_holds c pos)
  | None => forall c, In c (log_containers d) -> ~ container_holds c pos
  end.
Proof.
  unfold blf_find_logcontainer_for_address.
  pose proof (find_logcontainer_from_spec (log_containers d) 0 pos) as H.
  destruct (find_logcontainer_from (log_containers d) 0 pos) as [[tmp i]|]; [|exact H].
  destruct H as (Hi & Hn & Hh & Hfirst). rewrite Z.sub_0_r in *.
  assert (Hlt : (Z.to_nat i < length (log_containers d))%nat)
    by (apply nth_error_Some; congruence).
  assert (Hget : forall j, 0 <= j < Z.of_nat (length (log_containers d)) ->
                 blf_get_logcontainer_by_index d j = nth_error (log_containers d) (Z.to_nat j)).
  { intros j Hj. unfold blf_get_logcontainer_by_index.
    destruct (Z.ltb_spec j 0); [lia|].
    destruct (Z.leb_spec (Z.of_nat (length (log_containers d))) j); [lia|]. reflexivity. }
  split; [lia|]. split; [rewrite Hget by lia; exact Hn|]. split; [exact Hh|].
  intros j c Hj Hc. rewrite Hget in Hc by lia.
  apply (Hfirst (Z.to_nat j) c); [lia|exact Hc].
Qed.

(** X1: [blf_find_logcontainer_for_address] gives the first descriptor of
    the index whose virtual range holds the address, with its index, and
    fails exactly when no range holds it. *)
Theorem blf_find_logcontainer_for_address_first d pos :
  match blf_find_logcontainer_for_address d pos with
  | Some (tmp, i) =>
    0 <= i < Z.of_nat (length (log_containers d))
    /\ blf_get_logcontainer_by_index d i = Some tmp
    /\ container_holds tmp pos
    /\ (forall j c, 0 <= j < i -> blf_get_logcontainer_by_index d j = Some c ->
                    ~ container_holds c pos)
  | None => forall c, In c (log_containers d) -> ~ container_holds c pos
  end.
Proof. apply find_logcontainer_for_address_spec. Qed.

Lemma to_guint32_sub_mod a b : to_guint32 (to_guint32 a - to_guint32 b) = to_guint32 (a - b).
Proof. unfold to_guint32. now rewrite <- Zminus_mod. Qed.

(** X2: a read of [count] bytes that lies within one uncompressed
    container returns the [count] bytes of the file at [infile_data_start]
    plus the offset of the address in the container, and leaves the file
    handle after them; nothing else of the state changes. *)
Theorem blf_read_bytes_or_eof_uncompressed pos count s tmp tmp' i :
  blf_find_logcontainer_for_address (blf_data s) pos = Some (tmp, i) ->
  blf_find_logcontainer_for_address (blf_data s) (pos + count - 1) = Some (tmp', i) ->
  compression_method tmp = BLF_COMPRESSION_NONE ->
  0 < count < 2 ^ 32 ->
  0 <= real_start_pos tmp -> 0 <= real_length tmp < 2 ^ 32 ->
  real_start_pos tmp + real_length tmp < 2 ^ 63 ->
  0 <= infile_data_start tmp -> infile_data_start tmp + real_length tmp < 2 ^ 63 ->
  let off := infile_data_start tmp + (pos - real_start_pos tmp) in
  off + count <= f_len (fh s) ->
  blf_read_bytes_or_eof pos count s
  = (Some (file_bytes (fh s) off (Z.to_nat count)),
     set_fh (mkFILE (f_len (fh s)) (f_byte (fh s)) (off + count)) s).
Proof.
  intros Hstart Hend Hcomp Hcount Hrs Hrl Hsum Hids Hidsum off Hfile.
  pose proof (find_logcontainer_for_address_spec (blf_data s) pos) as H1.
  rewrite Hstart in H1. destruct H1 as (Hi & Hget & [Hlo Hhi] & _).
  pose proof (find_logcontainer_for_address_spec (blf_data s) (pos + count - 1)) as H2.
  rewrite Hend in H2. destruct H2 as (_ & Hget' & [_ Hhi'] & _).
  assert (tmp' = tmp) by congruence. subst tmp'.
  rewrite (to_gint64_small (real_length tmp)) in Hhi, Hhi' by lia.
  rewrite (to_gint64_small (real_start_pos tmp + real_length tmp)) in Hhi, Hhi' by lia.
  unfold blf_read_bytes_or_eof.
  rewrite (to_guint64_small pos) by lia.
  rewrite (to_gint64_small pos) by lia.
  rewrite (to_guint32_small count) by lia.
  rewrite Hstart.
  rewrite (to_guint64_small (pos + count - 1)) by lia.
  rewrite (to_gint64_small (pos + count - 1)) by lia.
  rewrite Hend, Hcomp, Z.eqb_refl.
  replace (Z.to_nat (i - i + 1)) with 1%nat by lia.
  cbn [read_bytes_none]. rewrite Hget.
  rewrite to_guint32_sub_mod, (to_guint32_small (pos - real_start_pos tmp)) by lia.
  rewrite (to_guint64_small (real_length tmp - (pos - real_start_pos tmp))) by lia.
  rewrite (to_guint32_small (real_length tmp - (pos - real_start_pos tmp))) by lia.
  rewrite (to_guint64_small (infile_data_start tmp + (pos - real_start_pos tmp))) by lia.
  rewrite (to_gint64_small (infile_data_start tmp + (pos - real_start_pos tmp))) by lia.
  fold off. rewrite file_seek_nonneg by (subst off; lia).
  rewrite Z.sub_0_r, (to_guint32_small count) by lia.
  destruct (Z.ltb_spec (real_length tmp - (pos - real_start_pos tmp)) count); [lia|].
  unfold wtap_read_bytes_or_eof. cbn [f_len f_pos f_byte].
  destruct (Z.leb_spec count (Z.max 0 (f_len (fh s) - off))); [|lia].
  reflexivity.
Qed.

Lemma wtap_err_eqb_eq a b : wtap_err_eqb a b = true <-> a = b.
Proof. destruct a, b; cbn; split; congruence. Qed.

(** X3: [blf_read_bytes] returns all of the bytes asked for or fails:
    on success the result has [count] bytes (as an [unsigned int]) and
    [*err] is as before; on failure [*err] is set, to WTAP_ERR_SHORT_READ
    when the read itself has stored no error.  Either way the read
    leaves the record, the buffer, the cursor, the registry and the
    descriptors as they were, but for the data it has cached. *)
Theorem blf_read_bytes_all_or_error real_pos count s :
  let r := blf_read_bytes real_pos count s in
  read_frame s (snd r)
  /\ match fst r with
     | Some bs => Z.of_nat (length bs) = to_guint32 count /\ err (snd r) = err s
     | None => err (snd r) <> NO_ERROR
     end.
Proof.
  cbv zeta. pose proof (blf_read_bytes_spec real_pos count s) as [Hf Hs]. cbv zeta in Hs.
  split; [exact Hf|].
  destruct (fst (blf_read_bytes real_pos count s)) as [bs|] eqn:Hr.
  - destruct (Hs bs eq_refl). split; assumption.
  - revert Hr. unfold blf_read_bytes.
    destruct (blf_read_bytes_or_eof real_pos count s) as [[bs|] s1]; [discriminate|].
    intros _. destruct (wtap_err_eqb (err s1) NO_ERROR) eqn:He; cbn [snd].
    + discriminate.
    + intros E. apply wtap_err_eqb_eq in E. congruence.
Qed.

(** X4: a read looks at nothing but the file handle, the container index
    and [*err]: in two states that agree on these it returns the same
    bytes, and leaves the same handle, index and [*err]. *)
Theorem blf_read_bytes_independent real_pos count s t :
  io_eq s t ->
  blf_read_bytes real_pos count t
  = (fst (blf_read_bytes real_pos count s),
     with_io (snd (blf_read_bytes real_pos count s)) t).
Proof. apply blf_read_bytes_congr. Qed.

(** X5: after a successful [blf_pull_logcontainer_into_memory] the
    descriptor at the index is the one from before with its data cached,
    [real_length] bytes of it when the call has inflated them; the other
    descriptors are as they were, and a second pull of the same container
    succeeds without reading or changing anything. *)
Theorem blf_pull_logcontainer_into_memory_caches i s s1 :
  0 <= i ->
  blf_pull_logcontainer_into_memory i s = (true, s1) ->
  exists tmp0 data,
    blf_get_logcontainer_by_index (blf_data s) i = Some tmp0
    /\ blf_get_logcontainer_by_index (blf_data s1) i = Some (set_real_data tmp0 (Some data))
    /\ (real_data tmp0 = None -> length data = Z.to_nat (real_length tmp0))
    /\ (forall j, 0 <= j -> j <> i ->
          blf_get_logcontainer_by_index (blf_data s1) j
          = blf_get_logcontainer_by_index (blf_data s) j)
    /\ blf_pull_logcontainer_into_memory i s1 = (true, s1).
Proof.
  intros Hi. unfold blf_pull_logcontainer_into_memory, blf_get_logcontainer_by_index.
  destruct (Z.leb_spec (Z.of_nat (length (log_containers (blf_data s)))) i) as [Hle|Hlt];
    [discriminate|].
  destruct (Z.ltb_spec i 0) as [?|_]; [lia|]. cbn [orb].
  destruct (nth_error (log_containers (blf_data s)) (Z.to_nat i)) as [tmp|] eqn:Hn;
    [|discriminate].
  destruct (real_data tmp) as [data|] eqn:Hd.
  - intros [= <-]. exists tmp, data.
    destruct (Z.leb_spec (Z.of_nat (length (log_containers (blf_data s)))) i); [lia|].
    rewrite Hn, Hd.
    split; [reflexivity|]. split; [|split; [discriminate|split; reflexivity]].
    f_equal. destruct tmp; simpl in Hd; subst; reflexivity.
  - destruct (compression_method tmp =? BLF_COMPRESSION_ZLIB); [|discriminate].
    destruct HAVE_ZLIB; [|discriminate].
    destruct (file_seek _ _) as [fh1|]; [|discriminate].
    repeat match goal with
           | |- (if ?b then _ else _) = _ -> _ => destruct b; [discriminate|]
           end.
    destruct (wtap_read_bytes_or_eof fh1 _) as [[e|cd] fh2]; [discriminate|].
    destruct (negb _); [discriminate|].
    destruct (inflate _ _) as [ret out].
    destruct (negb _); [discriminate|].
    destruct (negb _); [discriminate|].
    intros [= <-].
    cbn [blf_data set_blf_data set_fh set_log_containers log_containers].
    exists tmp, (inflated_buffer (real_length tmp) out).
    rewrite length_replace_nth.
    destruct (Z.leb_spec (Z.of_nat (length (log_containers (blf_data s)))) i); [lia|].
    assert (Hnth : forall (l : list blf_log_container_t) n a x,
               nth_error l n = Some x -> nth_error (replace_nth n l a) n = Some a).
    { induction l as [|y l IH]; intros [|n] a x; cbn; try discriminate; auto.
      intros. eapply IH; eassumption. }
    assert (Hoth : forall (l : list blf_log_container_t) n m a,
               n <> m -> nth_error (replace_nth n l a) m = nth_error l m).
    { induction l as [|y l IH]; intros [|n] [|m] a Hne; cbn; try reflexivity;
        try congruence. apply IH. congruence. }
    rewrite (Hnth _ _ _ _ Hn).
    split; [reflexivity|]. split; [reflexivity|].
    split.
    { intros _. unfold inflated_buffer.
      rewrite length_firstn, length_app, repeat_length. lia. }
    split.
    { intros j Hj Hne. rewrite Hoth by lia. reflexivity. }
    cbn [real_data set_real_data]. reflexivity.
Qed.

(** *** The interface registry *)

Lemma to_guint16_small z : 0 <= z < 2 ^ 16 -> to_guint16 z = z.
Proof. unfold to_guint16. apply Z.mod_small. Qed.

Lemma land_shiftl_small a b n : 0 <= n -> 0 <= b < 2 ^ n -> Z.land (Z.shiftl a n) b = 0.
Proof.
  intros Hn Hb. apply Z.bits_inj'. intros k Hk. rewrite Z.land_spec, Z.bits_0.
  destruct (Z.ltb_spec k n).
  - rewrite Z.shiftl_spec_low by lia. reflexivity.
  - destruct (Z.eq_dec b 0) as [->|Hb0]; [rewrite Z.bits_0; apply andb_false_r|].
    rewrite (Z.bits_above_log2 b k), andb_false_r; [reflexivity|lia|].
    apply Z.log2_lt_pow2; [lia|].
    pose proof (Z.pow_le_mono_r 2 n k ltac:(lia) ltac:(lia)). lia.
Qed.

Lemma lor_disjoint_add a b n :
  0 <= n -> 0 <= b < 2 ^ n -> Z.lor (Z.shiftl a n) b = a * 2 ^ n + b.
Proof.
  intros Hn Hb. pose proof (land_shiftl_small a b n Hn Hb) as H0.
  rewrite <- (Z.lxor_lor _ _ H0), <- (Z.add_nocarry_lxor _ _ H0).
  now rewrite Z.shiftl_mul_pow2.
Qed.

Lemma blf_calc_key_value_sum pkt_encap channel hwchannel :
  - 2 ^ 31 <= pkt_encap < 2 ^ 31 -> 0 <= channel < 2 ^ 16 -> 0 <= hwchannel < 2 ^ 16 ->
  blf_calc_key_value pkt_encap channel hwchannel
  = pkt_encap * 2 ^ 32 + hwchannel * 2 ^ 16 + channel.
Proof.
  intros He Hc Hh. unfold blf_calc_key_value.
  replace (Z.lor (Z.shiftl pkt_encap 32) (Z.shiftl hwchannel 16))
    with (Z.shiftl (Z.lor (Z.shiftl pkt_encap 16) hwchannel) 16).
  2:{ rewrite Z.shiftl_lor, Z.shiftl_shiftl by lia. reflexivity. }
  rewrite (lor_disjoint_add pkt_encap hwchannel 16) by lia.
  rewrite (lor_disjoint_add (pkt_encap * 2 ^ 16 + hwchannel) channel 16) by lia.
  rewrite to_gint64_small by lia. lia.
Qed.

(** X6: the key of the registry tells the triples apart: two triples of an
    [int] and two [guint16] with the same key are the same triple. *)
Theorem blf_calc_key_value_injective e c h e' c' h' :
  - 2 ^ 31 <= e < 2 ^ 31 -> 0 <= c < 2 ^ 16 -> 0 <= h < 2 ^ 16 ->
  - 2 ^ 31 <= e' < 2 ^ 31 -> 0 <= c' < 2 ^ 16 -> 0 <= h' < 2 ^ 16 ->
  blf_calc_key_value e c h = blf_calc_key_value e' c' h' ->
  e = e' /\ c = c' /\ h = h'.
Proof.
  intros He Hc Hh He' Hc' Hh'.
  rewrite !blf_calc_key_value_sum by assumption. lia.
Qed.

Lemma g_hash_table_lookup_insert {V : Type} (ht : list (Z * V)) key v :
  g_hash_table_lookup (g_hash_table_insert ht key v) key = Some v.
Proof.
  unfold g_hash_table_lookup, g_hash_table_insert. cbn [find fst snd].
  now rewrite Z.eqb_refl.
Qed.

Lemma g_hash_table_lookup_insert_other {V : Type} (ht : list (Z * V)) key key' v :
  key' <> key ->
  g_hash_table_lookup (g_hash_table_insert ht key v) key' = g_hash_table_lookup ht key'.
Proof.
  intros Hne. unfold g_hash_table_lookup, g_hash_table_insert. cbn [find fst snd].
  destruct (Z.eqb_spec key key') as [E|_]; [congruence|].
  induction ht as [|[k x] ht IH]; [reflexivity|].
  cbn [filter find fst snd].
  destruct (Z.eqb_spec k key) as [->|Hk]; cbn [negb].
  - destruct (Z.eqb_spec key key'); [congruence|]. exact IH.
  - cbn [find fst]. destruct (Z.eqb_spec k key'); [reflexivity|exact IH].
Qed.

(** X7: a second lookup of the same triple gives the interface id of the
    first and adds no interface: the state is left as the first lookup
    left it. *)
Theorem blf_lookup_interface_again pkt_encap channel hwchannel name name' s :
  0 <= channel < 2 ^ 16 ->
  let r := blf_lookup_interface pkt_encap channel hwchannel name s in
  blf_lookup_interface pkt_encap channel hwchannel name' (snd r) = r.
Proof.
  intros Hc r. subst r. unfold blf_lookup_interface.
  destruct (channel_to_iface_ht (blf_data s)) as [ht|] eqn:Hht; cbn [snd].
  2:{ rewrite Hht. reflexivity. }
  destruct (g_hash_table_lookup ht _) as [item|] eqn:Hl; cbn [snd].
  - rewrite Hht, Hl. reflexivity.
  - unfold blf_add_interface. rewrite Hht. cbn [snd blf_data set_blf_data set_ifaces
                                              channel_to_iface_ht].
    rewrite (to_guint16_small channel) by lia.
    rewrite g_hash_table_lookup_insert. reflexivity.
Qed.

(** X8: the lookup of one triple leaves the entries of the other triples
    as they were. *)
Theorem blf_lookup_interface_other pkt_encap channel hwchannel name s ht key' :
  0 <= channel < 2 ^ 16 ->
  channel_to_iface_ht (blf_data s) = Some ht ->
  key' <> blf_calc_key_value pkt_encap channel hwchannel ->
  exists ht',
    channel_to_iface_ht (blf_data (snd (blf_lookup_interface pkt_encap channel hwchannel
                                                             name s))) = Some ht'
    /\ g_hash_table_lookup ht' key' = g_hash_table_lookup ht key'.
Proof.
  intros Hc Hht Hne. unfold blf_lookup_interface. rewrite Hht.
  destruct (g_hash_table_lookup ht _) as [item|] eqn:Hl; cbn [snd].
  - exists ht. split; [exact Hht|reflexivity].
  - unfold blf_add_interface. rewrite Hht.
    cbn [snd blf_data set_blf_data set_ifaces channel_to_iface_ht].
    eexists. split; [reflexivity|].
    rewrite (to_guint16_small channel) by lia.
    now apply g_hash_table_lookup_insert_other.
Qed.

(** X9: the interface ids are indices into [wth->interface_data]: when
    the number of interface descriptions is [next_interface_id] and every
    id of the registry is below it, this is so after a lookup as well,
    the id the lookup returns is the index of an interface description,
    and for a triple that was not registered it is the index of the
    description the lookup has appended, whose encapsulation is
    [pkt_encap]. *)
Theorem blf_lookup_interface_registry pkt_encap channel hwchannel name s ht :
  registry_ok s ->
  channel_to_iface_ht (blf_data s) = Some ht ->
  next_interface_id (blf_data s) < 2 ^ 32 - 1 ->
  let r := blf_lookup_interface pkt_encap channel hwchannel name s in
  registry_ok (snd r)
  /\ 0 <= fst r < Z.of_nat (length (interface_data (wth (snd r))))
  /\ (g_hash_table_lookup ht (blf_calc_key_value pkt_encap channel hwchannel) = None ->
      exists idb,
        nth_error (interface_data (wth (snd r))) (Z.to_nat (fst r)) = Some idb
        /\ idb_wtap_encap idb = pkt_encap
        /\ interface_data (wth (snd r)) = interface_data (wth s) ++ [idb]).
Proof.
  intros [Hlen Hids] Hht Hnext r. subst r. unfold blf_lookup_interface. rewrite Hht.
  destruct (g_hash_table_lookup ht _) as [item|] eqn:Hl; cbn [fst snd].
  - split; [split; assumption|]. split; [|discriminate].
    rewrite Hlen. eapply Hids; eassumption.
  - unfold blf_add_interface, registry_ok. rewrite Hht.
    cbn [fst snd wth blf_data set_blf_data set_wth set_ifaces interface_data
         next_interface_id channel_to_iface_ht ife_interface_id].
    rewrite length_app. cbn [length].
    assert (Hn : to_guint32 (next_interface_id (blf_data s) + 1)
                 = next_interface_id (blf_data s) + 1) by (apply to_guint32_small; lia).
    split; [|split].
    + split; [rewrite Hn; lia|].
      intros ht' key item' [= <-] Hl'. rewrite Hn.
      match type of Hl' with
        g_hash_table_lookup (g_hash_table_insert _ ?k _) _ = _ =>
        destruct (Z.eq_dec key k) as [->|Hne] end.
      * rewrite g_hash_table_lookup_insert in Hl'. injection Hl' as <-.
        cbn [ife_interface_id]. lia.
      * rewrite g_hash_table_lookup_insert_other in Hl' by exact Hne.
        specialize (Hids ht key item' Hht Hl'). lia.
    + lia.
    + intros _. eexists. split; [|split; [|reflexivity]].
      * rewrite <- Hlen, Nat2Z.id, nth_error_app2, Nat.sub_diag by lia. reflexivity.
      * reflexivity.
Qed.

(** *** Opening a file *)






(** *** The demultiplexer *)

(** X11: the search for a block of [blf_read_block] ends at the first
    address from [start_pos] on where sixteen bytes of the stream can be
    read and begin with LOBJ: the header it gives is the one read there,
    the block headers read at the addresses before lack the magic, and
    the search leaves [*err] and all of the state but the file position
    and the cached data as they were. *)
Theorem blf_find_block_first fuel : forall start_pos s p header s',
  blf_find_block fuel start_pos s = (Some (FB_found p header), s') ->
  0 <= start_pos -> start_pos + Z.of_nat fuel < 2 ^ 63 ->
  start_pos <= p < start_pos + Z.of_nat fuel
  /\ magic header = blf_obj_magic
  /\ read_frame s s' /\ err s' = err s
  /\ (exists s1 bs,
         read_frame s s1
         /\ blf_read_bytes_or_eof p sizeof_blockheader s1 = (Some bs, s')
         /\ header = fix_endianness_blf_blockheader (unpack_blockheader bs))
  /\ (forall q, start_pos <= q < p ->
        exists sq bs,
          read_frame s sq
          /\ fst (blf_read_bytes_or_eof q sizeof_blockheader sq) = Some bs
          /\ magic (fix_endianness_blf_blockheader (unpack_blockheader bs))
             <> blf_obj_magic).
Proof.
  induction fuel as [|fuel IH]; intros start_pos s p header s'; [discriminate|].
  cbn [blf_find_block]. intros Hrun H0 Hfuel.
  pose proof (blf_read_bytes_or_eof_spec start_pos sizeof_blockheader s) as [Hf Hs].
  cbv zeta in Hs.
  destruct (blf_read_bytes_or_eof start_pos sizeof_blockheader s) as [[bs|] s1] eqn:Hread;
    cbn [fst snd] in *.
  2:{ destruct (wtap_err_eqb _ _); discriminate. }
  destruct (Hs bs eq_refl) as [He _].
  unfold memcmp in Hrun.
  destruct (list_eq_dec Byte.byte_eq_dec _ blf_obj_magic) as [Heq|Hne]; cbn [negb] in Hrun.
  - injection Hrun as <- <- <-.
    split; [lia|]. split; [exact Heq|]. split; [exact Hf|]. split; [exact He|].
    split.
    + exists s, bs. split; [apply read_frame_refl|]. split; [exact Hread|reflexivity].
    + intros q Hq. lia.
  - rewrite (to_gint64_small (start_pos + 1)) in Hrun by lia.
    destruct (IH (start_pos + 1) s1 p header s' Hrun) as (Hp & Hm & Hf' & He' & Hlast & Hbefore);
      [lia|lia|].
    split; [lia|]. split; [exact Hm|].
    split; [eapply read_frame_trans; eassumption|]. split; [congruence|].
    split.
    + destruct Hlast as (s2 & bs2 & Hf2 & Hr2 & Hh).
      exists s2, bs2. split; [eapply read_frame_trans; eassumption|]. split; assumption.
    + intros q Hq. destruct (Z.eq_dec q start_pos) as [->|Hneq].
      * exists s, bs. split; [apply read_frame_refl|]. rewrite Hread. split; [reflexivity|exact Hne].
      * destruct (Hbefore q) as (sq & bsq & Hfq & Hrq & Hmq); [lia|].
        exists sq, bsq. split; [eapply read_frame_trans; eassumption|]. split; assumption.
Qed.

(** X12: at the end of the stream, when no container holds the cursor,
    [blf_read] fails without a data offset and leaves the session, the
    record and the cursor as they were; the buffer is emptied, and [*err]
    is as before, or 0 when it was WTAP_ERR_SHORT_READ. *)
Theorem blf_read_end_of_stream fuel w rec0 buf0 err0 :
  blf_find_logcontainer_for_address
    (ss_priv w) (to_gint64 (to_guint64 (current_real_seek_pos (ss_priv w)))) = None ->
  blf_read (S fuel) w rec0 buf0 err0
  = Some (mkOutcome false None w rec0 (set_first_free buf0 (b_start buf0))
                    (if wtap_err_eqb err0 WTAP_ERR_SHORT_READ then NO_ERROR else err0)).
Proof.
  intros H. destruct w as [w f rf d]. cbn [ss_priv] in H.
  unfold blf_read, blf_read_block.
  cbn [blf_read_block_loop blf_find_block ss_wth ss_fh ss_priv ss_random_fh blf_data buf].
  unfold blf_read_bytes_or_eof. cbn [blf_data set_buf]. rewrite H.
  cbv [set_buf]. cbn [err wth rec fh blf_data buf].
  destruct (wtap_err_eqb err0 WTAP_ERR_SHORT_READ); reflexivity.
Qed.


(** *** The decoders *)

Lemma write_at_read data off bs :
  firstn (length bs) (skipn off (write_at data off bs)) = bs.
Proof.
  unfold write_at.
  rewrite app_assoc, skipn_app.
  assert (Hlen : length (firstn off data ++ repeat Byte.x00 (off - length data)) = off).
  { rewrite length_app, length_firstn, repeat_length. lia. }
  rewrite Hlen, Nat.sub_diag. cbn [skipn].
  rewrite skipn_all2 by lia. cbn [app].
  rewrite firstn_app, Nat.sub_diag, firstn_all. cbn [firstn]. apply app_nil_r.
Qed.

(** X14: when the ETHERNET_FRAME_EX decoder succeeds, the frame is the
    [frame_length] bytes of the stream after the header, which do not
    exceed what the object has left; they are written at the start of
    the buffer, whose start and end are not moved; the captured and the
    original length are [frame_length], the encapsulation is Ethernet,
    and the record gets the hardware channel as its queue and then the
    direction. *)
Theorem blf_read_ethernetframe_ext_frame block_start data_start object_length flags ts s :
  fst (blf_read_ethernetframe_ext block_start data_start object_length flags ts s) = true ->
  exists hdr s1 frame,
    blf_read_bytes data_start sizeof_ethernetframeheader_ex s = (Some hdr, s1)
    /\ let h := fix_endianness_blf_ethernetframeheader_ex (unpack_ethernetframeheader_ex hdr) in
       let r := snd (blf_read_ethernetframe_ext block_start data_start object_length flags ts s) in
       stream_bytes s1 (data_start + sizeof_ethernetframeheader_ex) (ethex_frame_length h)
       = Some frame
       /\ ethex_frame_length h
          <= to_guint64 (to_gint64 (object_length - to_gint64 (data_start - block_start))
                         - sizeof_ethernetframeheader_ex)
       /\ buffer_start_bytes (buf r) (ethex_frame_length h) = frame
       /\ b_start (buf r) = b_start (buf s)
       /\ b_first_free (buf r) = b_first_free (buf s)
       /\ rec_caplen (rec r) = ethex_frame_length h
       /\ rec_len (rec r) = ethex_frame_length h
       /\ pkt_encap (rec r) = WTAP_ENCAP_ETHERNET
       /\ block (rec r) = [OPT_PKT_QUEUE (ethex_hw_channel h);
                           OPT_EPB_FLAGS (if ethex_direction h =? BLF_DIR_RX then 1
                                          else if (ethex_direction h =? BLF_DIR_TX)
                                                  || (ethex_direction h =? BLF_DIR_TX_RQ)
                                               then 2 else 0)].
Proof.
  unfold blf_read_ethernetframe_ext.
  destruct (header_too_long _ _ _ _); [discriminate|].
  pose proof (blf_read_bytes_spec data_start sizeof_ethernetframeheader_ex s) as Hrd.
  cbv zeta in Hrd.
  destruct (blf_read_bytes data_start sizeof_ethernetframeheader_ex s) as [[hdr|] s1];
    cbn [fst snd] in *; [|discriminate].
  destruct Hrd as [(_ & _ & Hb1 & _) _].
  set (h := fix_endianness_blf_ethernetframeheader_ex (unpack_ethernetframeheader_ex hdr)).
  destruct (Z.ltb_spec (to_guint64 (to_gint64 (object_length
                         - to_gint64 (data_start - block_start))
                         - sizeof_ethernetframeheader_ex)) (ethex_frame_length h)) as [|Hfit];
    [discriminate|].
  pose proof (blf_read_bytes_spec (data_start + sizeof_ethernetframeheader_ex)
                                  (ethex_frame_length h) s1) as Hrd2.
  cbv zeta in Hrd2.
  destruct (blf_read_bytes (data_start + sizeof_ethernetframeheader_ex)
                           (ethex_frame_length h) s1) as [[frame|] s2] eqn:Hread2;
    cbn [fst snd] in *; [|discriminate].
  destruct Hrd2 as [(_ & _ & Hb2 & _) Hlen]. destruct (Hlen frame eq_refl) as [_ Hlen'].
  assert (Hfl : 0 <= ethex_frame_length h < 2 ^ 16) by (subst h; apply to_guint16_range).
  rewrite to_guint32_small in Hlen' by lia.
  intros _. exists hdr, s1, frame. split; [reflexivity|]. cbv zeta. fold h.
  cbv [bind ret]; cbv beta iota.
  rewrite (surjective_pairing (buffer_fill_start _ _)).
  match goal with |- context [blf_init_rec ?a ?b ?c ?d ?e ?f ?g ?st] =>
    pose proof (blf_init_rec_frame a b c d e f g st) as Hfr;
    pose proof (blf_init_rec_lengths a b c d e f g st) as Hrl;
    destruct (blf_init_rec a b c d e f g st) as [[] s5] end.
  cbv zeta in Hfr, Hrl. cbn [snd] in Hfr, Hrl.
  destruct Hfr as (Hb5 & _). destruct Hrl as (_ & Hcl & Hl & Henc & Hblk).
  cbn [fst snd blf_add_direction_option wtap_block_add_uint32_option modify_rec modify
       buf rec set_rec rec_caplen rec_len pkt_encap block].
  rewrite Hb5, Hcl, Hl, Henc, Hblk.
  cbn [buffer_fill_start modify_buf modify snd buf set_buf b_start b_first_free b_data].
  rewrite Hb2, Hb1, !to_guint32_small by lia.
  split; [unfold stream_bytes; rewrite Hread2; reflexivity|]. split; [exact Hfit|].
  split.
  { unfold buffer_start_bytes. cbn [b_start b_data].
    rewrite <- Hlen', Nat2Z.id. apply write_at_read. }
  repeat split.
Qed.




Lemma to_guint8_bounds z : 0 <= to_guint8 z < 2 ^ 8.
Proof. unfold to_guint8. apply Z.mod_pos_bound. lia. Qed.

Lemma to_guint8_le z : 0 <= z -> to_guint8 z <= z.
Proof. intros H. unfold to_guint8. apply Z.mod_le; lia. Qed.

Lemma flexray_emit_lengths tmpbuf pl plv start flags ts ch dir s :
  fst (flexray_emit tmpbuf pl plv start flags ts ch dir s) = true ->
  let r := rec (snd (flexray_emit tmpbuf pl plv start flags ts ch dir s)) in
  rec_caplen r = to_guint32 (7 + plv) /\ rec_len r = to_guint32 (7 + pl)
  /\ pkt_encap r = WTAP_ENCAP_FLEXRAY.
Proof.
  unfold flexray_emit.
  assert (Hfin : forall payload s2,
             let r := rec (snd ((buffer_fill_end payload plv ;;;
                                 (blf_init_rec flags ts WTAP_ENCAP_FLEXRAY ch UINT16_MAX
                                               (7 + plv) (7 + pl) ;;;
                                  blf_add_direction_option dir ;;; ret true))%blf s2)) in
             rec_caplen r = to_guint32 (7 + plv) /\ rec_len r = to_guint32 (7 + pl)
             /\ pkt_encap r = WTAP_ENCAP_FLEXRAY).
  { intros payload s2. cbv [bind ret]; cbv beta iota.
    rewrite (surjective_pairing (buffer_fill_end _ _ _)).
    match goal with |- context [blf_init_rec ?a ?b ?c ?d ?e ?f ?g ?st] =>
      pose proof (blf_init_rec_lengths a b c d e f g st) as Hrl;
      destruct (blf_init_rec a b c d e f g st) as [[] s5] end.
    cbv zeta in Hrl. cbn [snd] in Hrl. destruct Hrl as (_ & Hcl & Hl & Henc & _).
    cbn. auto. }
  destruct (plv >? 0).
  - destruct (blf_read_bytes start plv _) as [[payload|] s2]; [|discriminate].
    intros _. apply Hfin.
  - intros _. apply Hfin.
Qed.

(** X17: the FlexRay decoders capture no more payload than the object has
    after the header of its type, and no more than the length the header
    declares. *)
Theorem blf_read_flexray_within_object block_start data_start object_length flags ts s :
  0 <= data_start - block_start < 2 ^ 62 -> 0 <= object_length < 2 ^ 62 ->
  (0 <= sizeof_flexraydata < 2 ^ 31 ->
   let r := blf_read_flexraydata block_start data_start object_length flags ts s in
   fst r = true ->
   rec_caplen (rec (snd r)) <= 7 + (object_length - (data_start - block_start)
                                    - sizeof_flexraydata)
   /\ rec_caplen (rec (snd r)) <= rec_len (rec (snd r)))
  /\ (0 <= sizeof_flexraymessage < 2 ^ 31 ->
      let r := blf_read_flexraymessage block_start data_start object_length flags ts s in
      fst r = true ->
      rec_caplen (rec (snd r)) <= 7 + (object_length - (data_start - block_start)
                                       - sizeof_flexraymessage)
      /\ rec_caplen (rec (snd r)) <= rec_len (rec (snd r))).
Proof.
  intros Hds Hol.
  assert (Hclamp : forall size pl,
             0 <= size < 2 ^ 31 ->
             header_too_long block_start data_start object_length size = false ->
             let left := to_guint64 (to_gint64 (object_length
                                                - to_gint64 (data_start - block_start))
                                     - size) in
             let plv := if to_guint8 pl >? left then to_guint8 left else to_guint8 pl in
             0 <= plv <= object_length - (data_start - block_start) - size
             /\ plv <= to_guint8 pl /\ to_guint8 pl < 2 ^ 8).
  { intros size pl Hsize Hlong left plv. subst left plv.
    unfold header_too_long in Hlong.
    rewrite (to_gint64_small (data_start - block_start)) in * by lia.
    rewrite (to_gint64_small (data_start - block_start + size)) in Hlong by lia.
    apply Z.ltb_ge in Hlong.
    rewrite (to_gint64_small (object_length - (data_start - block_start))) by lia.
    rewrite (to_guint64_small (object_length - (data_start - block_start) - size)) by lia.
    pose proof (to_guint8_bounds pl).
    pose proof (to_guint8_bounds (object_length - (data_start - block_start) - size)).
    pose proof (to_guint8_le (object_length - (data_start - block_start) - size)).
    destruct (Z.gtb_spec (to_guint8 pl) (object_length - (data_start - block_start) - size));
      lia. }
  split.
  - intros Hsize r. subst r. unfold blf_read_flexraydata.
    destruct (header_too_long _ _ _ sizeof_flexraydata) eqn:Hlong; [discriminate|].
    destruct (blf_read_bytes data_start sizeof_flexraydata s) as [[bs|] s1]; [|discriminate].
    cbv zeta.
    match goal with |- context [flexray_emit ?a ?b ?c ?d ?e ?f ?g ?h ?st] =>
      pose proof (flexray_emit_lengths a b c d e f g h st) as Hl end.
    intros Hok. destruct (Hl Hok) as (Hcl & Hln & _). rewrite Hcl, Hln.
    match goal with |- context [to_guint8 ?pl >? _] =>
      destruct (Hclamp sizeof_flexraydata pl Hsize Hlong) as (H1 & H2 & H3) end.
    cbv zeta in H1, H2. rewrite !to_guint32_small by lia. lia.
  - intros Hsize r. subst r. unfold blf_read_flexraymessage.
    destruct (header_too_long _ _ _ sizeof_flexraymessage) eqn:Hlong; [discriminate|].
    destruct (blf_read_bytes data_start sizeof_flexraymessage s) as [[bs|] s1]; [|discriminate].
    cbv zeta.
    match goal with |- context [flexray_emit ?a ?b ?c ?d ?e ?f ?g ?h ?st] =>
      pose proof (flexray_emit_lengths a b c d e f g h st) as Hl end.
    intros Hok. destruct (Hl Hok) as (Hcl & Hln & _). rewrite Hcl, Hln.
    match goal with |- context [to_guint8 ?pl >? _] =>
      destruct (Hclamp sizeof_flexraymessage pl Hsize Hlong) as (H1 & H2 & H3) end.
    cbv zeta in H1, H2. rewrite !to_guint32_small by lia. lia.
Qed.

End Properties.

(** * The statements on the sample files *)

Module Examples.
Import Reference.
Import Samples.

(** ** The scan of the file of 2^31 + 2 containers *)

Lemma giant_file_bytes k c n :
  file_bytes (giant_at (32 * k + c)) (32 * k + c) n
  = map (fun i => nth (Z.to_nat ((c + Z.of_nat i) mod 32)) giant_block Byte.x00) (seq 0 n).
Proof.
  unfold file_bytes. apply map_ext. intros i. cbn [f_byte giant_at].
  do 2 f_equal.
  replace (32 * k + c + Z.of_nat i) with (c + Z.of_nat i + k * 32) by lia.
  apply Z_mod_plus_full.
Qed.

Lemma giant_read k c :
  0 <= 32 * k + c -> 32 * k + c + 16 <= 32 * giant_count ->
  wtap_read_bytes_or_eof (giant_at (32 * k + c)) 16
  = (inr (map (fun i => nth (Z.to_nat ((c + Z.of_nat i) mod 32)) giant_block Byte.x00)
              (seq 0 16)),
     giant_at (32 * k + c + 16)).
Proof.
  intros H0 H1. unfold wtap_read_bytes_or_eof. cbn [f_len f_pos f_byte giant_at].
  destruct (Z.leb_spec 16 (Z.max 0 (32 * giant_count - (32 * k + c)))); [|lia].
  change (Z.to_nat 16) with 16%nat. rewrite giant_file_bytes. reflexivity.
Qed.

Lemma giant_blf_containers k :
  log_containers (giant_blf k) = map (fun i => giant_container (Z.of_nat i)) (seq 0 k).
Proof.
  induction k as [|k IH]; [reflexivity|].
  rewrite seq_S, map_app. cbn [giant_blf blf_add_logcontainer log_containers
                               set_log_containers map Nat.add].
  rewrite IH. reflexivity.
Qed.

Lemma giant_step fuel k :
  Z.of_nat k < giant_count ->
  scan_loop (S fuel) (to_guint64 (Z.of_nat k * 0xFFFFFFFF)) (giant_state k)
  = scan_loop fuel (to_guint64 (Z.of_nat (S k) * 0xFFFFFFFF)) (giant_state (S k)).
Proof.
  intros Hk. unfold giant_count in Hk.
  cbn [scan_loop]. unfold giant_state at 1 2. cbn [fh].
  change (file_tell (giant_at (32 * Z.of_nat k))) with (32 * Z.of_nat k).
  rewrite (to_guint64_small (32 * Z.of_nat k)) by lia.
  cbn [blf_find_object].
  change sizeof_blockheader with 16.
  replace (giant_at (32 * Z.of_nat k)) with (giant_at (32 * Z.of_nat k + 0))
    by (f_equal; lia).
  rewrite giant_read by (unfold giant_count; lia).
  match goal with |- context [fix_endianness_blf_blockheader (unpack_blockheader ?bs)] =>
    change (fix_endianness_blf_blockheader (unpack_blockheader bs))
      with (mkBlockHeader blf_obj_magic 16 1 32 10) end.
  cbv beta iota delta [magic header_type object_type header_length object_length].
  replace (memcmp blf_obj_magic blf_obj_magic) with false by reflexivity.
  replace (negb (1 =? BLF_HEADER_TYPE_DEFAULT)) with false by reflexivity.
  replace (10 =? BLF_OBJTYPE_LOG_CONTAINER) with true by reflexivity.
  replace (16 <? 16) with false by reflexivity.
  replace (to_guint64 (16 - 16) >? 0) with false by reflexivity.
  cbv iota.
  change sizeof_logcontainerheader with 16.
  replace (32 * Z.of_nat k + 0 + 16) with (32 * Z.of_nat k + 16) by lia.
  rewrite giant_read by (unfold giant_count; lia).
  match goal with
    |- context [fix_endianness_blf_logcontainerheader (unpack_logcontainerheader ?bs)] =>
    change (fix_endianness_blf_logcontainerheader (unpack_logcontainerheader bs))
      with (mkLogContainerHeader 0 0 0 0xFFFFFFFF 0) end.
  cbv beta iota delta [lc_uncompressed_size lc_compression_method].
  change (file_tell (giant_at (32 * Z.of_nat k + 16 + 16))) with (32 * Z.of_nat k + 16 + 16).
  replace (object_skip (mkBlockHeader blf_obj_magic 16 1 32 10)) with 32 by reflexivity.
  rewrite (to_guint64_small (32 * Z.of_nat k + 32)) by lia.
  rewrite (to_gint64_small (32 * Z.of_nat k + 32)) by lia.
  rewrite file_seek_nonneg by lia.
  f_equal.
  - unfold to_guint64. rewrite Zplus_mod_idemp_l. f_equal. lia.
  - unfold giant_state, set_blf_data, set_fh.
    cbv beta iota delta [wth rec buf fh blf_data err]. cbn [giant_blf].
    f_equal.
    + unfold giant_at. cbv beta iota delta [f_len f_byte]. f_equal. lia.
    + f_equal. unfold giant_container.
      rewrite (to_gint64_small (32 * Z.of_nat k)) by lia.
      rewrite (to_guint64_small (32 * Z.of_nat k + 16 + 16)) by lia.
      f_equal; lia.
Qed.

Lemma giant_run n : forall fuel k,
  Z.of_nat (k + n) <= giant_count ->
  scan_loop (n + fuel) (to_guint64 (Z.of_nat k * 0xFFFFFFFF)) (giant_state k)
  = scan_loop fuel (to_guint64 (Z.of_nat (k + n) * 0xFFFFFFFF)) (giant_state (k + n)).
Proof.
  induction n as [|n IH]; intros fuel k Hk.
  - rewrite Nat.add_0_r. reflexivity.
  - cbn [Nat.add]. rewrite giant_step by lia.
    rewrite IH by lia. replace (S k + n)%nat with (k + S n)%nat by lia. reflexivity.
Qed.

Lemma giant_end fuel k start :
  Z.of_nat k = giant_count ->
  scan_loop (S fuel) start (giant_state k)
  = Some (true, set_fh (giant_at (32 * giant_count)) (giant_state k)).
Proof.
  intros Hk. cbn [scan_loop]. unfold giant_state at 1. cbn [fh].
  cbn [blf_find_object]. unfold wtap_read_bytes_or_eof.
  cbn [f_len f_pos f_byte giant_at]. rewrite Hk.
  replace (32 * giant_count - 32 * giant_count) with 0 by lia.
  replace (sizeof_blockheader <=? Z.max 0 0) with false by reflexivity.
  replace (0 <? Z.max 0 0) with false by reflexivity.
  replace (32 * giant_count + Z.max 0 0) with (32 * giant_count) by lia.
  reflexivity.
Qed.

Lemma giant_scan :
  blf_scan_file_for_logcontainers giant_params
  = (true, set_fh (giant_at (32 * giant_count)) (giant_state (Z.to_nat giant_count))).
Proof.
  unfold blf_scan_file_for_logcontainers.
  replace (scan_fuel (fh giant_params))
    with (Z.to_nat giant_count + S (Z.to_nat (31 * giant_count)))%nat
    by (unfold scan_fuel, giant_params, giant_file, giant_at, giant_count;
        cbv beta iota delta [fh f_len f_pos]; lia).
  change giant_params with (giant_state 0).
  change 0 with (to_guint64 (Z.of_nat 0 * 0xFFFFFFFF)) at 1.
  rewrite giant_run by (unfold giant_count; lia).
  rewrite Nat.add_0_l. rewrite giant_end by (unfold giant_count; lia). reflexivity.
Qed.

Lemma giant_nth k n :
  (k < n)%nat ->
  nth_error (log_containers (giant_blf n)) k = Some (giant_container (Z.of_nat k)).
Proof.
  intros Hk. rewrite giant_blf_containers.
  rewrite nth_error_map, nth_error_seq.
  destruct (Nat.ltb_spec k n); [reflexivity|lia].
Qed.

(** C1, counterexample: in the file of 2^31 + 2 containers of 2^32 - 1
    virtual bytes each, the scan succeeds, and the descriptors number 2^31
    and 2^31 + 1 are adjacent but do not tile: the virtual start of the
    second is negative, below that of the first. *)
Lemma blf_scan_giant_file_wraps :
  exists s' c d,
    blf_scan_file_for_logcontainers giant_params = (true, s')
    /\ adjacent (log_containers (blf_data s')) (Z.to_nat (2 ^ 31)) c d
    /\ real_start_pos c + real_length c <> real_start_pos d
    /\ real_start_pos d < 0.
Proof.
  exists (set_fh (giant_at (32 * giant_count)) (giant_state (Z.to_nat giant_count))),
         (giant_container (2 ^ 31)), (giant_container (2 ^ 31 + 1)).
  split; [exact giant_scan|].
  split.
  { unfold adjacent, set_fh, giant_state. cbv beta iota delta [blf_data].
    rewrite !giant_nth by (unfold giant_count; lia).
    rewrite Nat2Z.inj_succ, Z2Nat.id by lia.
    split; reflexivity. }
  split; vm_compute; [discriminate|reflexivity].
Qed.

(** C1, instance: the scan of [eth_pair_file] gives two descriptors, in
    the order of the file; the first starts at virtual offset 0 and the
    second where the first ends. *)
Lemma blf_scan_tiles_virtual_space_witness :
  let s := scan_params eth_pair_file in
  let c := mkContainer 144 100 176 0 68 (-1) G_MAXUINT64 0 None in
  let d := mkContainer 244 100 276 68 68 (-1) G_MAXUINT64 0 None in
  exists s',
    blf_scan_file_for_logcontainers s = (true, s')
    /\ log_containers (blf_data s') = [c; d]
    /\ adjacent (log_containers (blf_data s')) 0 c d
    /\ tiles_from 0 (log_containers (blf_data s'))
    /\ real_start_pos c = 0
    /\ infile_start_pos c < infile_start_pos d
    /\ real_start_pos c + real_length c = real_start_pos d
    /\ real_start_pos c <= real_start_pos d.
Proof.
  intros s c d.
  destruct (blf_scan_tiles_virtual_space s) as (ok & s' & Hrun & Hscan & Htiles & H0 & Hfile & Hvirt).
  - reflexivity.
  - vm_compute. split; [discriminate|reflexivity].
  - vm_compute. discriminate.
  - assert (Hcs : log_containers (blf_data (snd (blf_scan_file_for_logcontainers s))) = [c; d])
      by (vm_compute; reflexivity).
    assert (Hok : fst (blf_scan_file_for_logcontainers s) = true) by (vm_compute; reflexivity).
    rewrite Hscan in Hcs, Hok. cbn [fst snd] in Hcs, Hok. subst ok.
    assert (Hadj : adjacent (log_containers (blf_data s')) 0 c d)
      by (rewrite Hcs; split; reflexivity).
    exists s'. split; [exact Hscan|]. split; [exact Hcs|]. split; [exact Hadj|].
    split; [exact Htiles|].
    split; [apply H0; rewrite Hcs; reflexivity|].
    split; [exact (Hfile 0%nat c d Hadj)|].
    apply (Hvirt) with (i := 0%nat); [rewrite Hcs; vm_compute; reflexivity|exact Hadj].
Defined.

(** C4, counterexample: the record of an object whose timestamp flags
    are 0 has the timestamp zero, below the start offset of the file. *)
Lemma blf_init_rec_unknown_flags_below_offset :
  exists o,
    first_read eth_flag0_file = Some o
    /\ ro_ok o = true
    /\ rec_total (ro_rec o) = 0
    /\ start_offset_ns (ss_priv (ro_session o)) = 1577836801005000000
    /\ rec_total (ro_rec o) < start_offset_ns (ss_priv (ro_session o)).
Proof.
  eexists. split; [vm_compute; reflexivity|].
  repeat split.
Qed.

(** C4, instance: a timestamp of 5 at a resolution of 10 microseconds. *)
Lemma blf_init_rec_timestamp_witness :
  let s := params_of_file eth_file in
  let r := rec (snd (blf_init_rec 1 5 1 1 0 22 22 s)) in
  let off := start_offset_ns (blf_data s) in
  0 <= nsecs (ts r) < 1000000000
  /\ (1 = 1 -> rec_total r = to_guint64 (5 * 10000 + off)
                /\ (5 * 10000 + off < 2 ^ 64 ->
                    rec_total r = 5 * 10000 + off /\ off <= rec_total r))
  /\ (1 = 2 -> rec_total r = to_guint64 (5 + off)
                /\ (5 + off < 2 ^ 64 -> rec_total r = 5 + off /\ off <= rec_total r))
  /\ (1 <> 1 -> 1 <> 2 -> rec_total r = 0).
Proof.
  apply (blf_init_rec_timestamp 1 5 1 1 0 22 22 (params_of_file eth_file)).
  - lia.
  - vm_compute. discriminate.
Defined.


(** C6: the CAN_FD_MESSAGE object of [canfd_file] ends with its header,
    and the frame emitted for it holds eight bytes of payload, the first
    bytes of the next object; the CAN_FD_MESSAGE_64 object of
    [canfd64_file] has eight bytes after its header, and the frame emitted
    for it holds 48 bytes of payload, 40 of them from the next object. *)
Theorem blf_read_canfd_payload_exceeds_object :
  summary (first_read canfd_file)
  = Some (true, [0; 0; 1; 35; 8; 0; 0; 0; 76; 79; 66; 74; 32; 0; 1; 0], 16, NO_ERROR, 52)
  /\ summary (first_read canfd64_file)
     = Some (true,
             [0; 0; 1; 35; 64; 0; 0; 0; 1; 2; 3; 4; 5; 6; 7; 8; 76; 79; 66; 74;
              32; 0; 1; 0; 68; 0; 0; 0; 71; 0; 0; 0; 1; 0; 0; 0; 0; 0; 0; 0; 6;
              0; 0; 0; 0; 0; 0; 0; 102; 119; 136; 153; 170; 187; 1; 0],
             56, NO_ERROR, 80).
Proof. split; vm_compute; reflexivity. Qed.


(** C8, counterexample: the first block of [bad_header_type_file] has
    header_type 2; the scan returns FALSE, and [blf_open] returns
    WTAP_OPEN_MINE with no error. *)
Lemma blf_open_unknown_header_type_is_mine :
  fst (blf_scan_file_for_logcontainers (scan_params bad_header_type_file)) = false
  /\ fst (blf_open w0 (file_of_list bad_header_type_file)
                   (file_of_list bad_header_type_file) NO_ERROR)
     = (WTAP_OPEN_MINE, NO_ERROR).
Proof. split; vm_compute; reflexivity. Qed.

(** C8, instance: [blf_open] on that file. *)
Lemma blf_open_ignores_unknown_header_type_witness :
  exists w,
    blf_open w0 (file_of_list bad_header_type_file) (file_of_list bad_header_type_file)
             NO_ERROR
    = (WTAP_OPEN_MINE, NO_ERROR, Some w).
Proof.
  apply (proj2 blf_open_ignores_unknown_header_type w0
               (file_of_list bad_header_type_file) (file_of_list bad_header_type_file)
               NO_ERROR
               (file_bytes (file_of_list bad_header_type_file) 0
                           (Z.to_nat sizeof_fileheader))
               (mkFILE (f_len (file_of_list bad_header_type_file))
                       (f_byte (file_of_list bad_header_type_file)) sizeof_fileheader)).
  - reflexivity.
  - vm_compute. reflexivity.
Defined.

(** C9, counterexample: the container of [zlib_empty_file] declares two
    bytes of inflated data and holds no compressed data; [inflate] has no
    input to make progress with and gives Z_BUF_ERROR, and the pull fails
    with WTAP_ERR_INTERNAL, which is neither Decompress nor OutOfMemory.
    The same holds for the stream of [zlib_cut_file], cut before its end,
    on which [inflate] gives Z_OK. *)
Lemma blf_pull_buf_error_is_internal :
  let r := blf_pull_logcontainer_into_memory 0 (params_of_file zlib_empty_file) in
  let r' := blf_pull_logcontainer_into_memory 0 (params_of_file zlib_cut_file) in
  fst (inflate [] 2) = Z_BUF_ERROR
  /\ fst r = false
  /\ err (snd r) = WTAP_ERR_INTERNAL
  /\ kind_of_err (err (snd r)) <> Decompress
  /\ kind_of_err (err (snd r)) <> OutOfMemory
  /\ fst (inflate (firstn 8 (zlib_stream (bz [0xde; 0xad]))) 2) = Z_OK
  /\ fst r' = false
  /\ err (snd r') = WTAP_ERR_INTERNAL.
Proof.
  cbv zeta. split; [reflexivity|]. split; [vm_compute; reflexivity|].
  split; [vm_compute; reflexivity|]. split; [vm_compute; discriminate|].
  split; [vm_compute; discriminate|].
  split; [vm_compute; reflexivity|]. split; vm_compute; reflexivity.
Qed.

(** C9, instance: the four bytes of the container of [zlib_short_file]
    are no zlib stream, [inflate] gives Z_DATA_ERROR on them and the pull
    fails with Decompress; the data of [zlib_empty_file] gives Z_BUF_ERROR
    and Internal; and in a build without zlib the pull fails with
    Unsupported. *)
Lemma blf_pull_inflate_error_mapping_witness :
  let tmp := mkContainer 144 36 176 0 2 (-1) G_MAXUINT64 2 None in
  let r := blf_pull_logcontainer_into_memory 0 (params_of_file zlib_short_file) in
  let r0 := blf_pull_logcontainer_into_memory 0 (params_of_file zlib_empty_file) in
  let r' := blf_pull_logcontainer_into_memory
              (host_env := host_with false Zlib.inflate) 0 (params_of_file zlib_short_file) in
  (pull_reads (params_of_file zlib_short_file) 0 tmp (bz [1; 2; 3; 4])
   /\ inflate (bz [1; 2; 3; 4]) 2 = (Z_DATA_ERROR, [])
   /\ fst r = false /\ kind_of_err (err (snd r)) = Decompress)
  /\ (inflate [] 2 = (Z_BUF_ERROR, [])
      /\ fst r0 = false /\ kind_of_err (err (snd r0)) = Internal)
  /\ (fst r' = false /\ err (snd r') = WTAP_ERR_DECOMPRESSION_NOT_SUPPORTED
      /\ kind_of_err (err (snd r')) = Unsupported).
Proof.
  intros tmp r r0 r'.
  assert (Hreads : pull_reads (params_of_file zlib_short_file) 0 tmp (bz [1; 2; 3; 4])).
  { vm_compute. repeat split; try discriminate; reflexivity. }
  assert (Hreads0 : pull_reads (params_of_file zlib_empty_file) 0
                               (mkContainer 144 32 176 0 2 (-1) G_MAXUINT64 2 None) []).
  { vm_compute. repeat split; try discriminate; reflexivity. }
  split; [|split].
  - split; [exact Hreads|]. split; [reflexivity|].
    refine (proj2 (blf_pull_inflate_error_mapping (params_of_file zlib_short_file) 0 tmp
                     _ _ _ _) eq_refl (bz [1; 2; 3; 4]) Z_DATA_ERROR [] Hreads
                  eq_refl eq_refl _).
    + vm_compute. split; [discriminate|reflexivity].
    + vm_compute. reflexivity.
    + reflexivity.
    + reflexivity.
    + vm_compute. discriminate.
  - split; [reflexivity|].
    refine (proj2 (blf_pull_inflate_error_mapping (params_of_file zlib_empty_file) 0
                     (mkContainer 144 32 176 0 2 (-1) G_MAXUINT64 2 None)
                     _ _ _ _) eq_refl [] Z_BUF_ERROR [] Hreads0 eq_refl eq_refl _).
    + vm_compute. split; [discriminate|reflexivity].
    + vm_compute. reflexivity.
    + reflexivity.
    + reflexivity.
    + vm_compute. discriminate.
  - refine (proj1 (blf_pull_inflate_error_mapping
                     (host_env := host_with false Zlib.inflate)
                     (params_of_file zlib_short_file) 0 tmp _ _ _ _) eq_refl).
    + vm_compute. split; [discriminate|reflexivity].
    + vm_compute. reflexivity.
    + reflexivity.
    + reflexivity.
Defined.

(** C10, instance: the ETHERNET_FRAME object of [eth_long_file] declares
    eight bytes of payload and ends after four; the decoder reads the
    eight bytes, four of them the magic of the next object. *)
Lemma blf_read_ethernetframe_unchecked_witness :
  let s := params_of_file eth_long_file in
  let hdr := match fst (blf_read_bytes 32 sizeof_ethernetframeheader s) with
             | Some bs => bs
             | None => []
             end in
  let s1 := snd (blf_read_bytes 32 sizeof_ethernetframeheader s) in
  let h := fix_endianness_blf_ethernetframeheader (unpack_ethernetframeheader hdr) in
  let r := blf_read_ethernetframe 0 32 68 1 5 s in
  let rd := blf_read_bytes (32 + sizeof_ethernetframeheader) (eth_payloadlength h) s1 in
  68 - (32 - 0) - sizeof_ethernetframeheader < eth_payloadlength h
  /\ (err s <> WTAP_ERR_BAD_FILE -> err (snd r) <> WTAP_ERR_BAD_FILE)
  /\ match fst rd with
     | Some payload =>
       fst r = true
       /\ Z.of_nat (length payload) = eth_payloadlength h
       /\ (buf_wf (buf s) ->
           ws_buffer_contents (buf (snd r))
           = ws_buffer_contents (buf s) ++ canonical_ethernet_frame h payload)
     | None => fst r = false /\ err (snd r) = err (snd rd)
     end.
Proof.
  cbv zeta. split; [vm_compute; reflexivity|].
  apply (proj1 (blf_read_ethernetframe_unchecked 0 32 68 1 5 (params_of_file eth_long_file))).
  - vm_compute. reflexivity.
  - vm_compute. reflexivity.
Defined.

(** C3: in the session on [eth2_file] two sequential reads give the
    objects at 0 and 68 and leave the cursor at 136, the end of the data.
    The random read at 0, the offset the first read gave, moves the cursor
    back to 68, and the sequential read that follows gives the object at
    68 a second time; without the random read it finds the end of the
    file. *)
Theorem blf_seek_read_rewinds_cursor :
  exists o1 o2 o3 o4 o5,
    blf_read 10 (session_of eth2_file) rec0 buf0 NO_ERROR = Some o1
    /\ ro_ok o1 = true /\ ro_data_offset o1 = Some 0
    /\ blf_read 10 (ro_session o1) rec0 buf0 NO_ERROR = Some o2
    /\ ro_ok o2 = true /\ ro_data_offset o2 = Some 68
    /\ current_real_seek_pos (ss_priv (ro_session o2)) = 136
    /\ blf_seek_read 10 (ro_session o2) 0 rec0 buf0 NO_ERROR = Some o3
    /\ ro_ok o3 = true /\ ro_rec o3 = ro_rec o1 /\ ro_buf o3 = ro_buf o1
    /\ current_real_seek_pos (ss_priv (ro_session o3)) = 68
    /\ blf_read 10 (ro_session o3) rec0 buf0 NO_ERROR = Some o4
    /\ ro_ok o4 = true /\ ro_data_offset o4 = Some 68
    /\ ro_rec o4 = ro_rec o2 /\ ro_buf o4 = ro_buf o2
    /\ blf_read 10 (ro_session o2) rec0 buf0 NO_ERROR = Some o5
    /\ ro_ok o5 = false.
Proof.
  do 5 eexists.
  split; [vm_compute; reflexivity|]. split; [reflexivity|]. split; [reflexivity|].
  split; [vm_compute; reflexivity|]. split; [reflexivity|]. split; [reflexivity|].
  split; [reflexivity|].
  split; [vm_compute; reflexivity|]. split; [reflexivity|]. split; [reflexivity|].
  split; [reflexivity|]. split; [reflexivity|].
  split; [vm_compute; reflexivity|]. split; [reflexivity|]. split; [reflexivity|].
  split; [reflexivity|]. split; [reflexivity|].
  split; [vm_compute; reflexivity|]. reflexivity.
Qed.

(** X16, instance: the random read of the second object of [eth2_file]. *)
Lemma blf_seek_read_moves_cursor_witness :
  exists o,
    blf_seek_read 10 (session_of eth2_file) 68 rec0 buf0 NO_ERROR = Some o
    /\ ro_ok o = true
    /\ current_real_seek_pos (ss_priv (ro_session o)) = 136.
Proof.
  pose (w := session_of eth2_file).
  pose (s0 := mkParams (ss_wth w) rec0 (set_first_free buf0 (b_start buf0))
                       (ss_random_fh w) (ss_priv w) NO_ERROR).
  pose (header := mkBlockHeader blf_obj_magic 32 1 68 71).
  pose (s1 := snd (blf_find_block 10 68 s0)).
  pose (s3 := snd (blf_read_any_log_object_header
                     68 header
                     (set_blf_data (set_start_of_last_obj 68 (blf_data s1)) s1))).
  assert (Hfind : blf_find_block 10 68 s0 = (Some (FB_found 68 header), s1))
    by (vm_compute; reflexivity).
  assert (Hlh : blf_read_any_log_object_header
                  68 header (set_blf_data (set_start_of_last_obj 68 (blf_data s1)) s1)
                = (Some (1, 6), s3))
    by (vm_compute; reflexivity).
  destruct (proj1 (blf_seek_read_moves_cursor 9 w 68 rec0 buf0 NO_ERROR
                     (FB_found 68 header) s1 Hfind (Some (1, 6)) s3 Hlh)
                  (blf_read_ethernetframe 68 100 68 1 6) eq_refl)
    as (o & Ho & Hok & Hc).
  exists o. split; [exact Ho|]. split.
  - rewrite Hok. vm_compute. reflexivity.
  - rewrite Hc. reflexivity.
Defined.

(** ** The metadata sequence of [metadata_file] *)

Definition metadata_first : metadata_object :=
  mkMetadataObject 0 (mkBlockHeader blf_obj_magic 32 1 52 65) 1 5 (mkAppText 2 10 4 0)
                   (bytes_of_string "abcd").

Definition metadata_second : metadata_object :=
  mkMetadataObject 52 (mkBlockHeader blf_obj_magic 32 1 54 65) 1 6 (mkAppText 2 6 6 0)
                   (bytes_of_string "efghij").

(** C2, instance: the two metadata objects of [metadata_file] give one
    record with the ten bytes of text after the export header. *)
Lemma blf_read_block_metadata_sequence_witness :
  let s := params_of_file metadata_file in
  exists t',
    blf_read_block 10 0 s = (Some true, t')
    /\ metadata_emitted t' 0 metadata_second
                        (epdu_text_lines_header (Some "Metadata"%string)
                         ++ concat (map mo_text [metadata_first; metadata_second]))
    /\ (forall o1, In o1 (removelast [metadata_first; metadata_second]) ->
                   mo_continues o1 = true)
    /\ mo_continues metadata_second = false.
Proof.
  cbv zeta.
  eapply (blf_read_block_metadata_sequence 10 0 metadata_first [metadata_second]
            (params_of_file metadata_file)).
  - cbn [metadata_sequence]. eexists. split; [|split; [reflexivity|split; [|reflexivity]]].
    + unfold metadata_object_reads. do 4 eexists.
      split; [vm_compute; reflexivity|].
      split; [reflexivity|]. split; [reflexivity|].
      split; [vm_compute; reflexivity|].
      split; [reflexivity|].
      split; [vm_compute; reflexivity|].
      split; [reflexivity|]. split; [reflexivity|].
      vm_compute; reflexivity.
    + unfold metadata_object_reads. do 4 eexists.
      split; [vm_compute; reflexivity|].
      split; [reflexivity|]. split; [reflexivity|].
      split; [vm_compute; reflexivity|].
      split; [reflexivity|].
      split; [vm_compute; reflexivity|].
      split; [reflexivity|]. split; [reflexivity|].
      vm_compute; reflexivity.
  - vm_compute. repeat split; discriminate.
  - vm_compute. discriminate.
Defined.

(** ** Instances of the further properties *)

(** X2, instance: the header of the Ethernet object of [eth_file], 32
    bytes at the virtual offset 32, is read from the file at 208. *)
Lemma blf_read_bytes_or_eof_uncompressed_witness :
  let s := params_of_file eth_file in
  blf_read_bytes_or_eof 32 32 s
  = (Some (file_bytes (fh s) 208 32),
     set_fh (mkFILE (f_len (fh s)) (f_byte (fh s)) 240) s).
Proof.
  intros s.
  pose (tmp := mkContainer 144 100 176 0 68 (-1) G_MAXUINT64 0 None).
  apply (blf_read_bytes_or_eof_uncompressed 32 32 s tmp tmp 0).
  - reflexivity.
  - reflexivity.
  - reflexivity.
  - lia.
  - vm_compute. discriminate.
  - vm_compute. split; [discriminate|reflexivity].
  - reflexivity.
  - vm_compute. discriminate.
  - reflexivity.
  - vm_compute. discriminate.
Defined.

(** X4, instance: the same read with another record and another buffer. *)
Lemma blf_read_bytes_independent_witness :
  let s := params_of_file eth_file in
  let t := set_buf (mkBuffer (bz [1; 2; 3]) 0 3) s in
  blf_read_bytes 32 32 t
  = (fst (blf_read_bytes 32 32 s), with_io (snd (blf_read_bytes 32 32 s)) t).
Proof.
  intros s t. apply (blf_read_bytes_independent 32 32 s t).
  repeat split.
Defined.

(** X5, instance: the pull of the container of [zlib_file] caches the 68
    bytes of the Ethernet object. *)
Lemma blf_pull_logcontainer_into_memory_caches_witness :
  let s := params_of_file zlib_file in
  let s1 := snd (blf_pull_logcontainer_into_memory 0 s) in
  exists tmp0 data,
    blf_get_logcontainer_by_index (blf_data s) 0 = Some tmp0
    /\ blf_get_logcontainer_by_index (blf_data s1) 0 = Some (set_real_data tmp0 (Some data))
    /\ (real_data tmp0 = None -> length data = Z.to_nat (real_length tmp0))
    /\ (forall j, 0 <= j -> j <> 0 ->
          blf_get_logcontainer_by_index (blf_data s1) j
          = blf_get_logcontainer_by_index (blf_data s) j)
    /\ blf_pull_logcontainer_into_memory 0 s1 = (true, s1).
Proof.
  intros s s1.
  apply (blf_pull_logcontainer_into_memory_caches 0 s s1).
  - lia.
  - vm_compute. reflexivity.
Defined.

(** X6, instance: the key of SocketCAN, channel 1, no hardware channel. *)
Lemma blf_calc_key_value_injective_witness :
  blf_calc_key_value 125 1 65535 = 0x7dffff0001
  /\ (125 = 125 /\ 1 = 1 /\ 65535 = 65535).
Proof.
  split; [reflexivity|].
  apply (blf_calc_key_value_injective 125 1 65535 125 1 65535); lia.
Defined.

(** X7, instance: two lookups of Ethernet, channel 1, in the session on
    [eth_file]. *)
Lemma blf_lookup_interface_again_witness :
  let s := params_of_file eth_file in
  let r := blf_lookup_interface 1 1 65535 None s in
  fst r = 0
  /\ blf_lookup_interface 1 1 65535 (Some "eth"%string) (snd r) = r.
Proof.
  intros s r. split; [reflexivity|].
  apply (blf_lookup_interface_again 1 1 65535 None (Some "eth"%string) s). lia.
Defined.

(** X8, instance: the lookup of channel 2 after that of channel 1. *)
Lemma blf_lookup_interface_other_witness :
  let s := snd (blf_lookup_interface 1 1 65535 None (params_of_file eth_file)) in
  let key' := blf_calc_key_value 1 1 65535 in
  exists ht ht',
    channel_to_iface_ht (blf_data s) = Some ht
    /\ channel_to_iface_ht (blf_data (snd (blf_lookup_interface 1 2 65535 None s))) = Some ht'
    /\ g_hash_table_lookup ht' key' = g_hash_table_lookup ht key'
    /\ option_map ife_interface_id (g_hash_table_lookup ht' key') = Some 0.
Proof.
  intros s key'.
  pose (ht := [(key', mkIfaceEntry 1 1 65535 0)]).
  destruct (blf_lookup_interface_other 1 2 65535 None s ht key') as (ht' & Hht' & Hl).
  - lia.
  - reflexivity.
  - vm_compute. discriminate.
  - exists ht, ht'. split; [reflexivity|]. split; [exact Hht'|]. split; [exact Hl|].
    rewrite Hl. reflexivity.
Defined.

(** X9, instance: the first lookup in the session on [eth_file] appends
    the description of the interface 0. *)
Lemma blf_lookup_interface_registry_witness :
  let s := params_of_file eth_file in
  let r := blf_lookup_interface 1 1 65535 None s in
  registry_ok s
  /\ registry_ok (snd r)
  /\ 0 <= fst r < Z.of_nat (length (interface_data (wth (snd r))))
  /\ exists idb,
       nth_error (interface_data (wth (snd r))) (Z.to_nat (fst r)) = Some idb
       /\ idb_wtap_encap idb = 1
       /\ interface_data (wth (snd r)) = interface_data (wth s) ++ [idb].
Proof.
  intros s r.
  assert (Hok : registry_ok s).
  { split; [reflexivity|]. intros ht key item [= <-]. discriminate. }
  split; [exact Hok|].
  destruct (blf_lookup_interface_registry 1 1 65535 None s [] Hok) as (H1 & H2 & H3).
  - reflexivity.
  - vm_compute. reflexivity.
  - split; [exact H1|]. split; [exact H2|]. apply H3. reflexivity.
Defined.

(** X11, instance: in [junk_file] the search from 0 passes three bytes
    and ends at the object at 3. *)
Lemma blf_find_block_first_witness :
  let s := params_of_file junk_file in
  let header := mkBlockHeader blf_obj_magic 32 1 68 71 in
  let s' := snd (blf_find_block 10 0 s) in
  blf_find_block 10 0 s = (Some (FB_found 3 header), s')
  /\ magic header = blf_obj_magic
  /\ read_frame s s' /\ err s' = err s
  /\ (forall q, 0 <= q < 3 ->
        exists sq bs,
          read_frame s sq
          /\ fst (blf_read_bytes_or_eof q sizeof_blockheader sq) = Some bs
          /\ magic (fix_endianness_blf_blockheader (unpack_blockheader bs))
             <> blf_obj_magic).
Proof.
  intros s header s'.
  assert (Hrun : blf_find_block 10 0 s = (Some (FB_found 3 header), s'))
    by (vm_compute; reflexivity).
  split; [exact Hrun|].
  destruct (blf_find_block_first 10 0 s 3 header s' Hrun) as (_ & Hm & Hf & He & _ & Hq);
    [lia|vm_compute; reflexivity|].
  split; [exact Hm|]. split; [exact Hf|]. split; [exact He|exact Hq].
Defined.

(** X12, instance: the second read in the session on [eth_file]. *)
Lemma blf_read_end_of_stream_witness :
  current_real_seek_pos (ss_priv eth_file_read) = 68
  /\ blf_read 10 eth_file_read rec0 buf0 NO_ERROR
     = Some (mkOutcome false None eth_file_read rec0 buf0 NO_ERROR).
Proof.
  split; [reflexivity|].
  apply (blf_read_end_of_stream 9 eth_file_read rec0 buf0 NO_ERROR).
  reflexivity.
Defined.


(** X14, instance: the frame of six bytes of [ethex_file]. *)
Lemma blf_read_ethernetframe_ext_frame_witness :
  let s := params_of_file ethex_file in
  let r := snd (blf_read_ethernetframe_ext 0 32 70 1 5 s) in
  exists hdr s1 frame,
    blf_read_bytes 32 sizeof_ethernetframeheader_ex s = (Some hdr, s1)
    /\ frame = bz [1; 2; 3; 4; 5; 6]
    /\ buffer_start_bytes (buf r) 6 = frame
    /\ b_first_free (buf r) = b_first_free (buf s)
    /\ rec_caplen (rec r) = 6 /\ rec_len (rec r) = 6
    /\ block (rec r) = [OPT_PKT_QUEUE 2; OPT_EPB_FLAGS 2].
Proof.
  intros s r.
  destruct (blf_read_ethernetframe_ext_frame 0 32 70 1 5 s) as (hdr & s1 & frame & Hr & H).
  - vm_compute. reflexivity.
  - cbv zeta in H. fold r in H.
    assert (Hh : fix_endianness_blf_ethernetframeheader_ex (unpack_ethernetframeheader_ex hdr)
                 = mkEthExHeader 32 0 1 2 0 0 1 6 0 0).
    { assert (E : fst (blf_read_bytes 32 sizeof_ethernetframeheader_ex s) = Some hdr)
        by (rewrite Hr; reflexivity).
      vm_compute in E. injection E as <-. reflexivity. }
    rewrite Hh in H. cbn [ethex_frame_length ethex_hw_channel ethex_direction] in H.
    destruct H as (Hs & _ & Hb & _ & Hff & Hc & Hl & _ & Hblk).
    exists hdr, s1, frame. split; [exact Hr|].
    split.
    { assert (E : buffer_start_bytes (buf r) 6 = bz [1; 2; 3; 4; 5; 6])
        by (vm_compute; reflexivity).
      congruence. }
    split; [exact Hb|]. split; [exact Hff|]. split; [exact Hc|]. split; [exact Hl|].
    exact Hblk.
Defined.


(** X17, instance: the FLEXRAY_DATA object of [flexray_file] declares
    eight bytes of payload and has four. *)
Lemma blf_read_flexray_within_object_witness :
  let s := params_of_file flexray_file in
  let r := blf_read_flexraydata 0 32 48 1 5 s in
  fst r = true
  /\ rec_len (rec (snd r)) = 15
  /\ rec_caplen (rec (snd r)) <= 7 + (48 - (32 - 0) - sizeof_flexraydata)
  /\ rec_caplen (rec (snd r)) <= rec_len (rec (snd r)).
Proof.
  intros s r.
  assert (Hok : fst r = true) by (vm_compute; reflexivity).
  split; [exact Hok|]. split; [vm_compute; reflexivity|].
  destruct (blf_read_flexray_within_object 0 32 48 1 5 s) as (H & _).
  - lia.
  - lia.
  - apply H; [vm_compute; split; [discriminate|reflexivity]|exact Hok].
Defined.


End Examples.

